(** * InkyCloud-F1: the e-ink calendar renderer

    A shallow embedding of [app/services/renderer.py] (class [Renderer]) and
    of the parts of [app/models.py] and [app/config.py] it reads.

    Conventions of the embedding.

    - A Python [str] is the list of its Unicode code points, so that [len],
      slicing and concatenation are exactly the list operations.
    - A Python [int] is a [Z]; [//] is [Z.div] (both round towards minus
      infinity for a positive divisor).
    - Pillow's drawing surface is not executed: every call on
      [ImageDraw.Draw] or [Image.paste] is recorded, in order, as a
      [DrawOp].  A section renderer is a function that returns the calls it
      issues (and its return value, when it has one).
    - What the renderer reads from outside the class (font metrics, the clock,
      [datetime] parsing and formatting, the asset directories, the static
      circuit table, Unicode case mapping, arithmetic done in floats) is
      gathered in a record [Env].
    - A raised exception is a value [Raise e] of the result type [res].  The
      exceptions followed are those of the renderer's own statements
      ([datetime.fromisoformat] on a schedule string, [split()[-1]] on a
      driver name); Pillow's calls are taken to succeed. *)

From Stdlib Require Import ZArith Bool String Ascii DecimalString DecimalPos
  DecimalZ List Sorted Permutation Lia.
Import ListNotations.
Open Scope Z_scope.

(** ** Python strings *)

Module PyStr.

Definition char := N.
Definition str := list char.

(** A literal of the source whose characters are all ASCII. *)
Definition lit (s : string) : str :=
  map N_of_ascii (list_ascii_of_string s).

(** [str(n)] and [f"{n}"] for an [int]. *)
Definition str_of_int (n : Z) : str :=
  lit (NilZero.string_of_int (Z.to_int n)).

Fixpoint eqb (a b : str) : bool :=
  match a, b with
  | [], [] => true
  | x :: a', y :: b' => N.eqb x y && eqb a' b'
  | _, _ => false
  end.

(** [s[:n]] for [n >= 0]. *)
Definition slice_to (n : nat) (s : str) : str := firstn n s.

(** Truth value of a string: [if s:]. *)
Definition truthy (s : str) : bool :=
  match s with [] => false | _ :: _ => true end.

End PyStr.
Import PyStr.

(** ** Exceptions *)

Inductive exn : Type :=
| ValueError
| IndexError
| OverflowError.

Inductive res (A : Type) : Type :=
| Ok (a : A)
| Raise (e : exn).
Arguments Ok {A} a.
Arguments Raise {A} e.

Definition bind {A B} (m : res A) (k : A -> res B) : res B :=
  match m with
  | Ok a => k a
  | Raise e => Raise e
  end.

Notation "x <- m ;; k" := (bind m (fun x => k))
  (at level 61, m at next level, right associativity).
Notation "' pat <- m ;; k" := (bind m (fun x => match x with pat => k end))
  (at level 61, pat pattern, m at next level, right associativity).

(** A [for] loop whose body may [return]: the first iteration that returns
    decides; [None] when the loop runs to its end. *)
Fixpoint for_return {A B} (xs : list A) (body : A -> option B) : option B :=
  match xs with
  | [] => None
  | x :: rest =>
      match body x with
      | Some b => Some b
      | None => for_return rest body
      end
  end.

(** [range(n, 2, -1)]: n, n-1, ..., 3. *)
Definition range_down_to_3 (n : nat) : list nat := rev (seq 3 (n - 2)).

(** ** Fonts and the drawing surface *)

(** The keys of [self.fonts]; each names a typeface loaded at a fixed size
    by [_load_font] or [_load_icon_font]. *)
Module Font.
Inductive key : Type :=
| header_title | header_subtitle | race_name | circuit_name
| circuit_location | schedule_title | schedule_row | schedule_row_bold
| results_title | results_year | results_row | footer | circuit_stats
| circuit_stats_value | icon | icon_small.
End Font.
Definition FontKey := Font.key.

(** A bounding box [(x0, y0, x1, y1)], as [draw.textbbox((0, 0), ...)]
    returns it. *)
Definition bbox := (Z * Z * Z * Z)%type.
Definition bb0 (b : bbox) : Z := let '(x0, _, _, _) := b in x0.
Definition bb1 (b : bbox) : Z := let '(_, y0, _, _) := b in y0.
Definition bb2 (b : bbox) : Z := let '(_, _, x1, _) := b in x1.
Definition bb3 (b : bbox) : Z := let '(_, _, _, y1) := b in y1.

(** An image handed to [Image.paste]: only its mode, its size and an opaque
    name for its pixels are kept. *)
Record Picture : Type := {
  pic_mode_1 : bool;   (* [im.mode == "1"] *)
  pic_width : Z;
  pic_height : Z;
  pic_pixels : N
}.

(** One recorded call on the canvas. *)
Inductive DrawOp : Type :=
| Text (x y : Z) (text : str) (fill : Z) (font : FontKey)
| Rectangle (x0 y0 x1 y1 : Z) (fill outline : option Z) (width : Z)
| Line (x0 y0 x1 y1 : Z) (fill width : Z)
| RoundedRectangle (x0 y0 x1 y1 : Z) (radius outline width : Z)
| Paste (im : Picture) (x y : Z).

(** ** app/config.py *)

Definition DISPLAY_WIDTH : Z := 800.
Definition DISPLAY_HEIGHT : Z := 480.

(** ** The inputs of a render *)

(** [datetime]: the wall-clock reading in microseconds and the [tzinfo]
    ([None] for a naive value). *)
Record datetime : Type := {
  dt_wall_us : Z;
  dt_tzinfo : option str
}.

(** The value under the key ["datetime"] of a schedule entry. *)
Inductive DtField : Type :=
| DtNone
| DtStr (s : str)
| DtObj (d : datetime).

(** A schedule entry of [race_data]; a key that is absent is [None]. *)
Record Event : Type := {
  ev_name : option str;
  ev_datetime : DtField;
  ev_display_time : option str
}.

Record CircuitDict : Type := {
  cd_circuitId : option str;
  cd_name : option str;
  cd_location : option str;
  cd_country : option str
}.

Record RaceData : Type := {
  rd_race_name : option str;
  rd_season : option str;
  rd_circuit : option CircuitDict;
  rd_schedule : option (list Event)
}.

(** [d.get(key, default)]. *)
Definition get {A} (v : option A) (default : A) : A :=
  match v with
  | Some a => a
  | None => default
  end.

Definition empty_circuit : CircuitDict :=
  {| cd_circuitId := None; cd_name := None; cd_location := None;
     cd_country := None |}.

(** *** app/models.py *)

Record DriverInfo : Type := {
  code : str;
  given_name : str;
  family_name : str
}.

Definition display_name (d : DriverInfo) : str := family_name d.

Record ConstructorInfo : Type := { constructor_name : str }.

Record RaceResultEntry : Type := {
  r_position : Z;
  r_driver : DriverInfo;
  r_constructor : ConstructorInfo;
  time : option str
}.

Record QualifyingResultEntry : Type := {
  q_position : Z;
  q_driver : DriverInfo;
  q_constructor : ConstructorInfo;
  q3_time : option str
}.

Record HistoricalData : Type := {
  hd_season : option Z;
  is_new_track : bool;
  race_results : list RaceResultEntry;
  qualifying_results : list QualifyingResultEntry
}.

(** One entry of the static table [CIRCUITS_DATA] (assets/circuits_data.json,
    which is not part of the sources): the fields [_draw_circuit_stats]
    reads, each a string or absent. *)
Record CircuitStats : Type := {
  circuit_length : option str;
  number_of_laps : option str;
  race_distance : option str;
  fastest_lap_time : option str;
  fastest_lap_driver : option str;
  fastest_lap_year : option str;
  first_grand_prix : option str
}.

(** The translation table: a [dict] from key to text. *)
Definition Translator := str -> option str.

Definition tr_get (tr : Translator) (key default : str) : str :=
  get (tr key) default.

(** ** The world outside the class *)

(** The two asset directories [_load_track_image] searches. *)
Inductive TrackDir : Type :=
| TRACKS_PROCESSED_DIR
| TRACKS_DIR.

Record Env : Type := {
  (* [draw.textbbox((0, 0), text, font=self.fonts[key])] *)
  textbbox : FontKey -> str -> bbox;
  (* [str.lower], [str.upper]; the empty string has no letter to change *)
  lower : str -> str;
  upper : str -> str;
  lower_empty : lower [] = [];
  (* [datetime.fromisoformat]; [None] stands for its [ValueError] *)
  fromisoformat : str -> option datetime;
  (* [dt.strftime(fmt)] *)
  strftime : datetime -> str -> str;
  (* [datetime.now(tz)], [datetime.now()]: wall clock in microseconds *)
  now_us : option str -> Z;
  (* the logo file opened, reduced with [thumbnail] to fit the given box and
     thresholded; [None] when the file is absent or any step raises *)
  f1_logo : Z -> Z -> option Picture;
  (* [list(directory.glob(pattern))], the matches by file name; [None]
     stands for the [ValueError] with which [glob] refuses a pattern *)
  glob : TrackDir -> str -> option (list str);
  (* [Image.open(path)] for a match; [None] when it raises *)
  Image_open : TrackDir -> str -> option Picture;
  (* auto-crop of a raster track image (unchanged when it raises) *)
  autocrop : Picture -> Picture;
  (* [(int(w * r), int(h * r))] for [r = min(aw / w, ah / h)], in floats *)
  fit_size : Z -> Z -> Z -> Z -> Z * Z;
  (* the pixels of [im.resize(size, ...)] *)
  resample : Picture -> Z * Z -> N;
  (* the pixels of [im.point(lambda p: 255 if p > t else 0).convert("1")] *)
  thresholded : Z -> Picture -> N;
  (* FLAGS_DIR / "{iso}.bmp" exists and opens *)
  load_flag : str -> option Picture;
  (* [int(h * (max_w / w))], in floats *)
  scaled_flag_height : Z -> Z -> Z -> Z;
  (* CIRCUITS_DATA.get(id) *)
  CIRCUITS_DATA : str -> option CircuitStats;
  (* the fourth byte of the white entry of the colour table Pillow's BMP
     writer emits: 0 from Pillow 11.3 on, 255 before *)
  palette_reserved_zero : bool;
  (* the colour of pixel (x, y) once Pillow has executed the recorded calls
     on a canvas of the given background *)
  rasterize : Z -> list DrawOp -> Z -> Z -> bool
}.

(** ** Module constants of renderer.py *)

(** [CIRCUIT_ID_MAP] *)
Definition CIRCUIT_ID_MAP : list (str * str) :=
  [ (lit "vegas", lit "las_vegas") ].

(** [COUNTRY_MAP] *)
Definition COUNTRY_MAP : list (str * str) :=
  [ (lit "Australia", lit "au"); (lit "Austria", lit "at");
    (lit "Azerbaijan", lit "az"); (lit "Bahrain", lit "bh");
    (lit "Belgium", lit "be"); (lit "Brazil", lit "br");
    (lit "Canada", lit "ca"); (lit "China", lit "cn");
    (lit "France", lit "fr"); (lit "Germany", lit "de");
    (lit "Hungary", lit "hu"); (lit "Italy", lit "it");
    (lit "Japan", lit "jp"); (lit "Mexico", lit "mx");
    (lit "Monaco", lit "mc"); (lit "Netherlands", lit "nl");
    (lit "Portugal", lit "pt"); (lit "Qatar", lit "qa");
    (lit "Russia", lit "ru"); (lit "Saudi Arabia", lit "sa");
    (lit "Singapore", lit "sg"); (lit "Spain", lit "es");
    (lit "Turkey", lit "tr"); (lit "UAE", lit "ae");
    (lit "United Arab Emirates", lit "ae"); (lit "UK", lit "gb");
    (lit "United Kingdom", lit "gb"); (lit "USA", lit "us");
    (lit "United States", lit "us") ].

(** Lookup in a [dict] written as the list of its items. *)
Fixpoint dict_get (d : list (str * str)) (key : str) : option str :=
  match d with
  | [] => None
  | (k, v) :: rest => if PyStr.eqb k key then Some v else dict_get rest key
  end.

(** [TEXT_BASELINE_REF = "ÁŽÝgy"]: U+00C1, U+017D, U+00DD, g, y. *)
Definition TEXT_BASELINE_REF : str := [193; 381; 221; 103; 121]%N.

(** [self.layout] *)
Module Layout.
Definition header_height : Z := 90.
Definition header_split_x : Z := 230.
Definition header_padding_x : Z := 15.
Definition content_y_start : Z := 105.
Definition left_column_width : Z := 500.
Definition right_column_x : Z := 510.
Definition track_padding : Z := 10.
Definition track_map_max_height : Z := 200.
Definition track_title_y_offset : Z := 5.
Definition schedule_title_y : Z := 100.
Definition schedule_start_y : Z := 140.
Definition schedule_row_height : Z := 28.
Definition schedule_date_x : Z := 510.
Definition schedule_day_x : Z := 575.
Definition schedule_time_x : Z := 620.
Definition schedule_name_x : Z := 680.
Definition results_y_start : Z := 385.
Definition results_col1_x : Z := 109.
Definition results_col2_x : Z := 455.
Definition results_time_offset : Z := 260.
Definition results_row_height : Z := 20.
Definition results_title_y_offset : Z := 5.
Definition results_data_y_offset : Z := 4.
Definition circuit_stats_y : Z := 320.
Definition circuit_stats_row_height : Z := 18.
Definition padding : Z := 15.
Definition separator_width : Z := 2.
End Layout.

(** ** class Renderer *)

Section Renderer.

Context (E : Env) (translator : Translator).

Definition width : Z := DISPLAY_WIDTH.
Definition height : Z := DISPLAY_HEIGHT.

(** *** Utility methods *)

(** [f"{pos}. {driver} ({team})"] *)
Definition composite (pos : Z) (driver team : str) : str :=
  str_of_int pos ++ lit ". " ++ driver ++ lit " (" ++ team ++ lit ")".

(** The inner function [get_width] of [_fit_text]. *)
Definition get_width (font : FontKey) (t : str) : Z :=
  bb2 (textbbox E font t).

(** [_fit_text] *)
Definition _fit_text (font : FontKey) (max_width : Z) (pos : Z)
    (driver team : str) : str :=
  let full := composite pos driver team in
  if get_width font full <=? max_width then full
  else
    match
      for_return (range_down_to_3 (length team)) (fun i =>
        let short_team := slice_to i team ++ lit ".." in
        let text := composite pos driver short_team in
        if get_width font text <=? max_width then Some text else None)
    with
    | Some text => text
    | None =>
        let short_team := slice_to 3 team ++ lit ".." in
        match
          for_return (range_down_to_3 (length driver)) (fun i =>
            let short_driver := slice_to i driver ++ lit "." in
            let text := composite pos short_driver short_team in
            if get_width font text <=? max_width then Some text else None)
        with
        | Some text => text
        | None =>
            str_of_int pos ++ lit ". " ++ slice_to 5 driver ++ lit ".. ("
              ++ slice_to 3 team ++ lit "..)"
        end
    end.

(** *** Header section *)

(** [_draw_f1_logo]: the file is looked up, opened, reduced and pasted; when
    it is absent, or when any step raises, nothing is drawn. *)
Definition _draw_f1_logo (w h : Z) : list DrawOp :=
  let pad := 2 in
  let target_w := w - pad * 2 in
  let target_h := h - pad * 2 in
  match f1_logo E target_w target_h with
  | None => []
  | Some logo =>
      let x := (w - pic_width logo) / 2 in
      let y := (h - pic_height logo) / 2 in
      [Paste logo x y]
  end.

(** [_draw_header] *)
Definition _draw_header (race_data : RaceData) : list DrawOp :=
  let header_height := Layout.header_height in
  let split_x := Layout.header_split_x in
  let race_name := get (rd_race_name race_data) (lit "Grand Prix") in
  let season := get (rd_season race_data) [] in
  let line1 := season ++ lit " FIA F1 World Championship" in
  let line2 := upper E race_name in
  let text_x := split_x + 15 in
  let total_text_height := 80 in
  let start_y := (header_height - total_text_height) / 2 - 5 in
  [ Rectangle 0 0 split_x header_height (Some 1) None 1;
    Line 0 (header_height - 1) split_x (header_height - 1) 0 2;
    Rectangle (split_x + 1) 0 width header_height (Some 0) None 1 ]
  ++ _draw_f1_logo split_x header_height
  ++ [ Text text_x start_y line1 1 Font.header_title;
       Text text_x (start_y + 40) line2 1 Font.header_subtitle ].

(** *** Track map section *)

(** [s.replace(" ", "_")] *)
Definition replace_space_by_underscore (s : str) : str :=
  map (fun c => if N.eqb c 32 then 95%N else c) s.

(** [Image.resize]: the result has the requested size; Pillow refuses a
    size with a side below 1 ("height and width must be > 0"). *)
Definition resize (im : Picture) (size : Z * Z) : res Picture :=
  if (fst size <? 1) || (snd size <? 1) then Raise ValueError
  else Ok {| pic_mode_1 := pic_mode_1 im;
             pic_width := fst size;
             pic_height := snd size;
             pic_pixels := resample E im size |}.

(** [im.point(...)] followed by [im.convert("1")]: same size, mode "1". *)
Definition to_1bit (threshold : Z) (im : Picture) : Picture :=
  {| pic_mode_1 := true;
     pic_width := pic_width im;
     pic_height := pic_height im;
     pic_pixels := thresholded E threshold im |}.

(** One pattern loop of [_load_track_image]: the image of the first pattern
    that has a match whose first match opens.  [glob] is called outside the
    [try], so its [ValueError] leaves the loop. *)
Fixpoint open_first_match (directory : TrackDir) (patterns : list str)
    : res (option Picture) :=
  match patterns with
  | [] => Ok None
  | pattern :: rest =>
      match glob E directory pattern with
      | None => Raise ValueError
      | Some (path :: _) =>
          match Image_open E directory path with
          | Some im => Ok (Some im)
          | None => open_first_match directory rest
          end
      | Some [] => open_first_match directory rest
      end
  end.

(** [processed_patterns] and [original_patterns] of [_load_track_image],
    the patterns of the locality appended when it is not empty. *)
Definition processed_patterns (circuit_id location : str) : list str :=
  let processed_patterns :=
    [ lit "*" ++ circuit_id ++ lit "*.bmp";
      lit "*" ++ lower E circuit_id ++ lit "*.bmp" ] in
  if truthy location
  then processed_patterns ++ [ lit "*" ++ location ++ lit "*.bmp" ]
  else processed_patterns.

Definition original_patterns (circuit_id location : str) : list str :=
  let original_patterns :=
    [ lit "*" ++ circuit_id ++ lit "*.png";
      lit "*" ++ circuit_id ++ lit "*.jpg";
      lit "*" ++ lower E circuit_id ++ lit "*.png";
      lit "*" ++ lower E circuit_id ++ lit "*.jpg" ] in
  if truthy location
  then original_patterns
       ++ [ lit "*" ++ location ++ lit "*.png";
            lit "*" ++ location ++ lit "*.jpg" ]
  else original_patterns.

(** [_load_track_image] *)
Definition _load_track_image (race_data : RaceData) : res (option Picture) :=
  let circuit := get (rd_circuit race_data) empty_circuit in
  let circuit_id := get (cd_circuitId circuit) [] in
  if negb (truthy circuit_id) then Ok None
  else
    let location :=
      replace_space_by_underscore (lower E (get (cd_location circuit) [])) in
    found <- open_first_match TRACKS_PROCESSED_DIR
               (processed_patterns circuit_id location) ;;
    match found with
    | Some im => Ok (Some im)
    | None =>
        found <- open_first_match TRACKS_DIR
                   (original_patterns circuit_id location) ;;
        match found with
        | Some im => Ok (Some im)
        | None =>
            match glob E TRACKS_PROCESSED_DIR (lit "*.bmp") with
            | None => Raise ValueError
            | Some (path :: _) => Ok (Image_open E TRACKS_PROCESSED_DIR path)
            | Some [] => Ok None
            end
        end
    end.

(** [_draw_track_placeholder] *)
Definition _draw_track_placeholder (x y w h : Z) : list DrawOp :=
  [ RoundedRectangle (x + 20) (y + 20) (x + w - 20) (y + h - 20) 20 0 3 ].

Definition size_eqb (a b : Z * Z) : bool :=
  (fst a =? fst b) && (snd a =? snd b).

(** [_draw_track_section] *)
Definition _draw_track_section (race_data : RaceData) : res (list DrawOp) :=
  let x_start := 0 in
  let circuit := get (rd_circuit race_data) empty_circuit in
  let circuit_name_text := get (cd_name circuit) (lit "Circuit") in
  let country := upper E (get (cd_country circuit) []) in
  let city := upper E (get (cd_location circuit) []) in
  let results_line_y := Layout.results_y_start in
  let label_text :=
    if truthy city
    then country ++ lit ", " ++ city ++ lit " | " ++ circuit_name_text
    else country ++ lit " | " ++ circuit_name_text in
  let label_font := Font.circuit_name in
  let label_bbox := textbbox E label_font label_text in
  let label_y := results_line_y - 3 - bb3 label_bbox in
  let text_visual_top := label_y + bb1 label_bbox in
  let side_margin := 3 in
  let track_top := 92 in
  let track_bottom := text_visual_top - side_margin in
  let available_height := track_bottom - track_top in
  let available_width := Layout.left_column_width - side_margin * 2 in
  track_image <- _load_track_image race_data ;;
  track_ops <-
    match track_image with
    | Some track_image =>
        let is_preprocessed := pic_mode_1 track_image in
        let track_image :=
          if negb is_preprocessed then autocrop E track_image
          else track_image in
        let img_w := pic_width track_image in
        let img_h := pic_height track_image in
        let new_size := fit_size E available_width available_height img_w img_h in
        track_image <-
          (if negb (size_eqb new_size (img_w, img_h))
           then resize track_image new_size
           else Ok track_image) ;;
        let track_image :=
          if negb is_preprocessed then to_1bit 200 track_image
          else track_image in
        let paste_x := side_margin in
        let paste_y := track_top in
        Ok [ Paste track_image paste_x paste_y ]
    | None =>
        Ok (_draw_track_placeholder (x_start + side_margin) track_top
              available_width available_height)
    end ;;
  let label_x := Layout.padding in
  Ok (track_ops ++ [ Text label_x label_y label_text 0 label_font ]).

(** *** Schedule section *)

(** The value of ["datetime"] turned into a [datetime]:
    [if isinstance(dt, str): dt = datetime.fromisoformat(dt)]. *)
Definition parse_if_str (dt : DtField) : res (option datetime) :=
  match dt with
  | DtStr s =>
      match fromisoformat E s with
      | Some d => Ok (Some d)
      | None => Raise ValueError
      end
  | DtObj d => Ok (Some d)
  | DtNone => Ok None
  end.

(** [_draw_schedule_row] *)
Definition _draw_schedule_row (y : Z) (event : Event) : res (list DrawOp) :=
  let name := get (ev_name event) [] in
  dt <- parse_if_str (ev_datetime event) ;;
  let '(date_str, day_str, time_str) :=
    match dt with
    | Some dt =>
        let date_str := strftime E dt (lit "%d.%m.") in
        let day_key := lit "day_" ++ lower E (strftime E dt (lit "%a")) in
        let day_str := tr_get translator day_key (strftime E dt (lit "%a")) in
        let time_str := strftime E dt (lit "%H:%M") in
        (date_str, day_str, time_str)
    | None => ([], [], get (ev_display_time event) [])
    end in
  let translated_name :=
    tr_get translator (lit "session_" ++ lower E name) name in
  let font_reg := Font.schedule_row in
  let font_bold := Font.schedule_row_bold in
  Ok [ Text Layout.schedule_date_x y date_str 0 font_reg;
       Text Layout.schedule_day_x y day_str 0 font_reg;
       Text Layout.schedule_time_x y time_str 0 font_reg;
       Text Layout.schedule_name_x y translated_name 0 font_bold ].

(** The loop of [_draw_schedule_section]:
    [for event in schedule: draw; row_y += row_height; if row_y > guard: break].
    Returns the final [row_y] and the calls issued. *)
Fixpoint draw_schedule_rows (schedule : list Event) (row_y : Z)
    : res (Z * list DrawOp) :=
  match schedule with
  | [] => Ok (row_y, [])
  | event :: rest =>
      ops <- _draw_schedule_row row_y event ;;
      let row_y := row_y + Layout.schedule_row_height in
      if row_y >? Layout.results_y_start - 80 then Ok (row_y, ops)
      else
        '(row_y', ops') <- draw_schedule_rows rest row_y ;;
        Ok (row_y', ops ++ ops')
  end.

(** [timedelta], normalised as Python keeps it:
    [0 <= seconds < 86400], [0 <= microseconds < 1000000]. *)
Record timedelta : Type := {
  days : Z;
  seconds : Z;
  microseconds : Z
}.

Definition timedelta_of_us (us : Z) : timedelta :=
  {| days := us / 86400000000;
     seconds := (us mod 86400000000) / 1000000;
     microseconds := us mod 1000000 |}.

(** The numerator of [delta.total_seconds()], whose sign is that of the
    quotient by [10**6]. *)
Definition total_us (d : timedelta) : Z :=
  (days d * 86400 + seconds d) * 1000000 + microseconds d.

(** The search for the race entry at the head of [_draw_countdown_box]:
    the first entry named "race" (after [lower()]) decides, whatever its
    ["datetime"] is. *)
Fixpoint find_race_dt (schedule : list Event) : res (option datetime) :=
  match schedule with
  | [] => Ok None
  | event :: rest =>
      if PyStr.eqb (lower E (get (ev_name event) [])) (lit "race")
      then parse_if_str (ev_datetime event)
      else find_race_dt rest
  end.

(** [_draw_countdown_box] *)
Definition _draw_countdown_box (race_data : RaceData) (schedule_bottom : Z)
    : res (Z * list DrawOp) :=
  let schedule := get (rd_schedule race_data) [] in
  race_dt <- find_race_dt schedule ;;
  match race_dt with
  | None => Ok (schedule_bottom, [])
  | Some race_dt =>
      let now := now_us E (dt_tzinfo race_dt) in
      let delta := timedelta_of_us (dt_wall_us race_dt - now) in
      if total_us delta <=? 0 then Ok (schedule_bottom, [])
      else
        let days := days delta in
        let hours := seconds delta / 3600 in
        let in_text := tr_get translator (lit "countdown_in") (lit "IN") in
        let days_text :=
          tr_get translator (lit "countdown_days") (lit "days") in
        let hours_text :=
          tr_get translator (lit "countdown_hours") (lit "hours") in
        let countdown_str :=
          in_text ++ lit " " ++ str_of_int days ++ lit " " ++ days_text
            ++ lit " " ++ str_of_int hours ++ lit " " ++ hours_text in
        let font := Font.schedule_row_bold in
        let ref_bbox := textbbox E font TEXT_BASELINE_REF in
        let text_height := bb3 ref_bbox - bb1 ref_bbox in
        let padding_y := 6 in
        let box_height := text_height + 2 * padding_y in
        let x_left := Layout.right_column_x in
        let x_right := width - 5 in
        let stats_row_height := Layout.circuit_stats_row_height in
        let stats_top_y :=
          Layout.results_y_start - 3 - (3 * stats_row_height) in
        let available_height := stats_top_y - schedule_bottom in
        let y_top := schedule_bottom + (available_height - box_height) / 2 in
        let y_bottom := y_top + box_height in
        let text_bbox := textbbox E font countdown_str in
        let text_width := bb2 text_bbox - bb0 text_bbox in
        let text_x := x_left + (x_right - x_left - text_width) / 2 in
        let text_y := y_top + padding_y - bb1 ref_bbox in
        Ok (y_bottom,
            [ Rectangle x_left y_top x_right y_bottom (Some 0) (Some 0) 1;
              Text text_x text_y countdown_str 1 font ])
  end.

(** [_draw_schedule_section] *)
Definition _draw_schedule_section (race_data : RaceData)
    : res (Z * list DrawOp) :=
  let x_start := Layout.right_column_x in
  let y_start := Layout.schedule_title_y in
  let schedule_title :=
    tr_get translator (lit "weekend_schedule") (lit "WEEKEND SCHEDULE") in
  let title_ops := [ Text x_start y_start schedule_title 0 Font.schedule_title ] in
  let schedule := get (rd_schedule race_data) [] in
  '(row_y, row_ops) <-
     draw_schedule_rows schedule Layout.schedule_start_y ;;
  '(countdown_bottom, box_ops) <-
     _draw_countdown_box race_data (row_y + 5) ;;
  Ok (countdown_bottom, title_ops ++ row_ops ++ box_ops).

(** *** Circuit statistics section *)

(** The characters [str.split()] splits on ([str.isspace]). *)
Definition is_space (c : char) : bool :=
  ((9 <=? c) && (c <=? 13) || (28 <=? c) && (c <=? 32)
   || (c =? 133) || (c =? 160) || (c =? 5760)
   || (8192 <=? c) && (c <=? 8202)
   || (c =? 8232) || (c =? 8233) || (c =? 8239) || (c =? 8287)
   || (c =? 12288))%N.

(** [s.split()]: the maximal runs of characters that are not white space. *)
Fixpoint split_from (s : str) (word : str) : list str :=
  match s with
  | [] => if truthy word then [word] else []
  | c :: rest =>
      if is_space c
      then (if truthy word then word :: split_from rest [] else split_from rest [])
      else split_from rest (word ++ [c])
  end.

Definition split (s : str) : list str := split_from s [].

(** [l[-1]] *)
Definition last_item (l : list str) : res str :=
  match rev l with
  | [] => Raise IndexError
  | x :: _ => Ok x
  end.

(** Truth value of a field that is a string or absent. *)
Definition truthy_opt (v : option str) : bool :=
  match v with
  | Some s => truthy s
  | None => false
  end.

Definition ICON_RULER : str := [128207%N].      (* U+1F4CF *)
Definition ICON_LIGHTNING : str := [9889%N].    (* U+26A1 *)
Definition ICON_CALENDAR : str := [128467%N].   (* U+1F5D3 *)

(** The list [stats] that [_draw_circuit_stats] builds. *)
Definition circuit_stat_lines (circuit_data : CircuitStats)
    : res (list (str * str)) :=
  let length_ := circuit_length circuit_data in
  let laps := number_of_laps circuit_data in
  let distance := race_distance circuit_data in
  let stats1 :=
    if truthy_opt length_ then
      let line1 := get length_ [] in
      let line1 :=
        if truthy_opt laps
        then line1 ++ lit " | " ++ get laps [] ++ lit " "
               ++ tr_get translator (lit "laps") (lit "laps")
        else line1 in
      let line1 :=
        if truthy_opt distance then line1 ++ lit " | " ++ get distance []
        else line1 in
      [ (ICON_RULER, line1) ]
    else [] in
  let lap_time := fastest_lap_time circuit_data in
  let lap_driver := fastest_lap_driver circuit_data in
  let lap_year := fastest_lap_year circuit_data in
  stats2 <-
    (if truthy_opt lap_time then
       let lap_text := get lap_time [] in
       lap_text <-
         (if truthy_opt lap_driver then
            last_name <- last_item (split (get lap_driver [])) ;;
            let lap_text := lap_text ++ lit " (" ++ last_name in
            Ok (if truthy_opt lap_year
                then lap_text ++ lit ", " ++ get lap_year [] ++ lit ")"
                else lap_text ++ lit ")")
          else Ok lap_text) ;;
       Ok [ (ICON_LIGHTNING, lap_text) ]
     else Ok []) ;;
  let first_gp := first_grand_prix circuit_data in
  let stats3 :=
    if truthy_opt first_gp
    then [ (ICON_CALENDAR,
            tr_get translator (lit "first_gp") (lit "First GP")
              ++ lit ": " ++ get first_gp []) ]
    else [] in
  Ok (stats1 ++ stats2 ++ stats3).

Definition bbox_width (b : bbox) : Z := bb2 b - bb0 b.

(** The final loop of [_draw_circuit_stats]. *)
Fixpoint draw_stat_rows (block_x max_icon_width text_x : Z)
    (stats : list (str * str)) (y : Z) : list DrawOp :=
  match stats with
  | [] => []
  | (icon_text, text) :: rest =>
      let icon_width := bbox_width (textbbox E Font.icon_small icon_text) in
      let icon_x := block_x + (max_icon_width - icon_width) in
      [ Text icon_x y icon_text 0 Font.icon_small;
        Text text_x y text 0 Font.circuit_stats_value ]
      ++ draw_stat_rows block_x max_icon_width text_x rest
           (y + Layout.circuit_stats_row_height)
  end.

(** [_draw_circuit_stats] *)
Definition _draw_circuit_stats (race_data : RaceData) (schedule_bottom : Z)
    : res (list DrawOp) :=
  let circuit_id :=
    get (cd_circuitId (get (rd_circuit race_data) empty_circuit)) [] in
  let mapped_id := get (dict_get CIRCUIT_ID_MAP circuit_id) circuit_id in
  match CIRCUITS_DATA E mapped_id with
  | None => Ok []
  | Some circuit_data =>
      stats <- circuit_stat_lines circuit_data ;;
      match stats with
      | [] => Ok []
      | _ :: _ =>
          let row_height := Layout.circuit_stats_row_height in
          let results_line_y := Layout.results_y_start in
          let total_stats_height := Z.of_nat (length stats) * row_height in
          let y_start := results_line_y - 3 - total_stats_height in
          let max_icon_width :=
            fold_left (fun m stat =>
              Z.max m (bbox_width (textbbox E Font.icon_small (fst stat))))
              stats 0 in
          let max_text_width :=
            fold_left (fun m stat =>
              Z.max m
                (bbox_width (textbbox E Font.circuit_stats_value (snd stat))))
              stats 0 in
          let icon_text_gap := 4 in
          let total_block_width :=
            max_icon_width + icon_text_gap + max_text_width in
          let right_margin := 5 in
          let block_x := width - right_margin - total_block_width in
          let text_x := block_x + max_icon_width + icon_text_gap in
          Ok (draw_stat_rows block_x max_icon_width text_x stats y_start)
      end
  end.

(** *** Historical results section *)

(** [_draw_new_track_message] *)
Definition _draw_new_track_message (y_start : Z) : list DrawOp :=
  let message := tr_get translator (lit "new_track") (lit "NEW TRACK") in
  let bbox := textbbox E Font.schedule_title message in
  let text_width := bb2 bbox - bb0 bbox in
  let x := (width - text_width) / 2 in
  let y := y_start + 30 in
  [ Text x y message 0 Font.schedule_title ].

(** The ISO code that [_draw_results_header] derives from the country. *)
Definition flag_iso_code (country_name : str) : str :=
  let iso_code := lower E (get (dict_get COUNTRY_MAP country_name) []) in
  if negb (truthy iso_code) then
    if PyStr.eqb country_name (lit "UAE") then lit "ae"
    else if PyStr.eqb country_name (lit "UK") then lit "gb"
    else if PyStr.eqb country_name (lit "USA") then lit "us"
    else lower E (slice_to 2 country_name)
  else iso_code.

(** The flag image [_draw_results_header] ends up with, if any. *)
Definition load_flag_image (iso_code : str) : option Picture :=
  if truthy iso_code then load_flag E iso_code else None.

(** [int(header_area_w * 0.8)] for [header_area_w = 109]: [int(87.2)]. *)
Definition max_flag_width : Z := 87.

(** [_draw_results_header]: returns [visual_top] and the calls issued. *)
Definition _draw_results_header (y_start : Z) (season : str)
    (country_name : str) : res (Z * list DrawOp) :=
  let year_text := season in
  let year_font := Font.results_year in
  let bbox := textbbox E year_font year_text in
  let text_width := bb2 bbox - bb0 bbox in
  let text_h := bb3 bbox - bb1 bbox in
  let footer_y_start := y_start in
  let footer_height := height - footer_y_start in
  let iso_code := flag_iso_code country_name in
  let flag_img := load_flag_image iso_code in
  let header_area_w := Layout.results_col1_x in
  '(flag_h, flag_img) <-
    match flag_img with
    | Some img =>
        if pic_width img >? max_flag_width then
          let flag_h :=
            scaled_flag_height E (pic_height img) max_flag_width
              (pic_width img) in
          img <- resize img (max_flag_width, flag_h) ;;
          Ok (flag_h, Some img)
        else Ok (pic_height img, Some img)
    | None => Ok (0, None)
    end ;;
  let standard_gap := 3 in
  let total_block_h_stable :=
    text_h + (if flag_h >? 0 then standard_gap else 0) + flag_h in
  let y_offset_stable := (footer_height - total_block_h_stable) / 2 in
  let visual_top := footer_y_start + y_offset_stable in
  let year_x := (header_area_w - text_width) / 2 in
  let text_y := visual_top - bb1 bbox in
  let flag_ops :=
    match flag_img with
    | Some img =>
        let x := (header_area_w - pic_width img) / 2 in
        let y := text_y + bb3 bbox + 6 in
        [ Paste img x y;
          Rectangle (x - 1) (y - 1) (x + pic_width img) (y + pic_height img)
            None (Some 0) 1 ]
    | None => []
    end in
  Ok (visual_top, Text year_x text_y year_text 0 year_font :: flag_ops).

(** The element type of the list a results column receives: the section
    passes [qualifying_results] with [is_qualifying=True] and
    [race_results] with [is_qualifying=False]. *)
Definition entry_of (is_qualifying : bool) : Type :=
  if is_qualifying then QualifyingResultEntry else RaceResultEntry.

Definition entry_position {q : bool} : entry_of q -> Z :=
  match q with true => q_position | false => r_position end.

Definition entry_driver {q : bool} : entry_of q -> DriverInfo :=
  match q with true => q_driver | false => r_driver end.

Definition entry_constructor {q : bool} : entry_of q -> ConstructorInfo :=
  match q with true => q_constructor | false => r_constructor end.

(** [entry.q3_time or ""] when [is_qualifying], [entry.time or ""]
    otherwise. *)
Definition entry_time_str {q : bool} : entry_of q -> str :=
  match q with
  | true => fun entry => get (q3_time entry) []
  | false => fun entry => get (time entry) []
  end.

(** [enumerate(l)], counting from [i]. *)
Fixpoint enumerate_from {A} (i : Z) (l : list A) : list (Z * A) :=
  match l with
  | [] => []
  | a :: rest => (i, a) :: enumerate_from (i + 1) rest
  end.

(** The body of the loop of [_draw_results_column] for one entry. *)
Definition draw_result_row {q : bool} (x_start time_x y_rows_start : Z)
    (i : Z) (entry : entry_of q) : list DrawOp :=
  let row_height := Layout.results_row_height in
  let font := Font.results_row in
  let y := y_rows_start + i * row_height in
  let pos := entry_position entry in
  let driver_name := display_name (entry_driver entry) in
  let team := constructor_name (entry_constructor entry) in
  let time_str := entry_time_str entry in
  let max_width := Layout.results_time_offset - 10 in
  let text := _fit_text font max_width pos driver_name team in
  Text x_start y text 0 font
  :: (if truthy time_str then [ Text time_x y time_str 0 font ] else []).

(** [_draw_results_column] *)
Definition _draw_results_column (x_start visual_top : Z) (title : str)
    (is_qualifying : bool) (results : list (entry_of is_qualifying))
    : list DrawOp :=
  let font_title := Font.results_title in
  let ref_bbox := textbbox E font_title TEXT_BASELINE_REF in
  let header_y_anchor := visual_top - bb1 ref_bbox in
  let time_x := x_start + Layout.results_time_offset in
  let font := Font.results_row in
  let ref_bbox := textbbox E font_title (lit "Hg") in
  let header_visual_bottom := header_y_anchor + bb3 ref_bbox in
  let row_bbox := textbbox E font (lit "1") in
  let y_rows_start :=
    header_visual_bottom + Layout.results_data_y_offset - bb1 row_bbox in
  Text x_start header_y_anchor title 0 font_title
  :: flat_map (fun ie => draw_result_row x_start time_x y_rows_start
                           (fst ie) (snd ie))
       (enumerate_from 0 (firstn 3 results)).

(** [str(historical_data.season or "")] *)
Definition season_text (season : option Z) : str :=
  match season with
  | Some n => if n =? 0 then [] else str_of_int n
  | None => []
  end.

(** [_draw_results_section] *)
Definition _draw_results_section (race_data : RaceData)
    (historical_data : option HistoricalData) : res (list DrawOp) :=
  let y_start := Layout.results_y_start in
  let separator :=
    Line 0 y_start width y_start 0 Layout.separator_width in
  match historical_data with
  | None => Ok (separator :: _draw_new_track_message y_start)
  | Some hd =>
      if is_new_track hd
      then Ok (separator :: _draw_new_track_message y_start)
      else
        let season := season_text (hd_season hd) in
        let country :=
          get (cd_country (get (rd_circuit race_data) empty_circuit)) [] in
        '(visual_top, header_ops) <-
          _draw_results_header y_start season country ;;
        Ok (separator :: header_ops
            ++ _draw_results_column Layout.results_col1_x visual_top
                 (tr_get translator (lit "qualifying") (lit "QUALIFYING"))
                 true (qualifying_results hd)
            ++ _draw_results_column Layout.results_col2_x visual_top
                 (tr_get translator (lit "race") (lit "RACE"))
                 false (race_results hd))
  end.

(** *** The canvas and its encoding *)

(** An image of mode "1", as [Image.new("1", size, color)] creates it,
    together with the calls made on it since. *)
Record Image : Type := {
  im_width : Z;
  im_height : Z;
  im_color : Z;
  im_calls : list DrawOp
}.

Definition Image_new_1 (size : Z * Z) (color : Z) : Image :=
  {| im_width := fst size; im_height := snd size; im_color := color;
     im_calls := [] |}.

(** The calls of a section renderer, applied to the canvas. *)
Definition drawn (image : Image) (ops : list DrawOp) : Image :=
  {| im_width := im_width image; im_height := im_height image;
     im_color := im_color image; im_calls := im_calls image ++ ops |}.

(** Whether pixel (x, y) of the image is set (white). *)
Definition getpixel (image : Image) (x y : Z) : bool :=
  rasterize E (im_color image) (im_calls image) x y.

(** Little-endian fields, one [Z] in [0, 256) per byte. *)
Definition o8 (i : Z) : list Z := [ i mod 256 ].
Definition o16 (i : Z) : list Z := [ i mod 256; (i / 256) mod 256 ].
Definition o32 (i : Z) : list Z :=
  [ i mod 256; (i / 256) mod 256; (i / 65536) mod 256;
    (i / 16777216) mod 256 ].

(** [0, 1, ..., n-1] *)
Definition zrange (n : Z) : list Z := map Z.of_nat (seq 0 (Z.to_nat n)).

(** The byte that packs pixels [8k .. 8k+7] of a row, leftmost pixel in the
    highest bit; positions past the row width are clear. *)
Definition packed_byte (row : Z -> bool) (w : Z) (k : Z) : Z :=
  fold_left (fun acc b =>
      let x := 8 * k + b in
      2 * acc + (if (x <? w) && row x then 1 else 0))
    (zrange 8) 0.

(** The row stride of Pillow's BMP writer:
    [((width * bits + 7) // 8 + 3) & ~3] with [bits = 1]. *)
Definition bmp_stride (w : Z) : Z :=
  Z.land ((w * 1 + 7) / 8 + 3) (Z.lnot 3).

(** What Pillow's BMP writer puts before the pixels of an image of mode
    "1": BITMAPFILEHEADER, a 40-byte BITMAPINFOHEADER (96 dpi) and the
    colour table black, white, whose entries end with a reserved byte. *)
Definition bmp_header (w h : Z) : list Z :=
  let reserved := if palette_reserved_zero E then 0 else 255 in
  let bits := 1 in
  let colors := 2 in
  let stride := bmp_stride w in
  let header := 40 in
  let image_size := stride * h in
  let offset := 14 + header + colors * 4 in
  let file_size := offset + image_size in
  let ppm := 3780 in
  [ 66; 77 ] ++ o32 file_size ++ o32 0 ++ o32 offset
  ++ o32 header ++ o32 w ++ o32 h ++ o16 1 ++ o16 bits ++ o32 0
  ++ o32 image_size ++ o32 ppm ++ o32 ppm ++ o32 colors ++ o32 colors
  ++ (o8 0 ++ o8 0 ++ o8 0 ++ o8 0)
  ++ (o8 255 ++ o8 255 ++ o8 255 ++ o8 reserved).

(** The pixels as the raw encoder writes them: rows bottom-up, each of
    [stride] bytes. *)
Definition bmp_rows (image : Image) : list Z :=
  let w := im_width image in
  flat_map (fun y => map (packed_byte (fun x => getpixel image x y) w)
                       (zrange (bmp_stride w)))
    (rev (zrange (im_height image))).

(** [image.save(buffer, format="BMP")] for an image of mode "1". *)
Definition save_bmp (image : Image) : list Z :=
  bmp_header (im_width image) (im_height image) ++ bmp_rows image.

(** [_to_bmp] *)
Definition _to_bmp (image : Image) : list Z := save_bmp image.

(** *** The two entry points *)

(** [render_calendar] *)
Definition render_calendar (race_data : RaceData)
    (historical_data : option HistoricalData) : res (list Z) :=
  let image := Image_new_1 (width, height) 1 in
  let image := drawn image (_draw_header race_data) in
  ops <- _draw_track_section race_data ;;
  let image := drawn image ops in
  '(schedule_bottom, ops) <- _draw_schedule_section race_data ;;
  let image := drawn image ops in
  ops <- _draw_circuit_stats race_data schedule_bottom ;;
  let image := drawn image ops in
  ops <- _draw_results_section race_data historical_data ;;
  let image := drawn image ops in
  Ok (_to_bmp image).

(** The calls [render_error] makes on its canvas. *)
Definition error_calls (error_message : str) : list DrawOp :=
  let error_text := tr_get translator (lit "error") (lit "Error") in
  let padding := Layout.padding in
  [ Text padding padding (error_text ++ lit ":") 0 Font.schedule_title;
    Text padding (padding + 50) (slice_to 60 error_message) 0
      Font.schedule_row ].

(** [render_error] *)
Definition render_error (error_message : str) : list Z :=
  let image := Image_new_1 (width, height) 1 in
  let image := drawn image (error_calls error_message) in
  _to_bmp image.

End Renderer.

(** ** Reading a bitmap back *)

(** The value of a little-endian field. *)
Definition le_value (field : list Z) : Z :=
  fold_right (fun b acc => b + 256 * acc) 0 field.

(** [data[off : off + len]] *)
Definition sub_bytes (data : list Z) (off len : nat) : list Z :=
  firstn len (skipn off data).

Record BmpInfo : Type := {
  bmp_width : Z;
  bmp_height : Z;
  bmp_bits : Z
}.

(** What a bitmap decoder reports for a file with a BITMAPINFOHEADER:
    the signature, the header size, the plane count, the absence of
    compression and the presence of every byte of the colour table and of
    the bottom-up, four-byte-aligned rows are checked; every element must be
    a byte. *)
Definition bmp_decode (data : list Z) : option BmpInfo :=
  let offset := le_value (sub_bytes data 10 4) in
  let header := le_value (sub_bytes data 14 4) in
  let w := le_value (sub_bytes data 18 4) in
  let h := le_value (sub_bytes data 22 4) in
  let planes := le_value (sub_bytes data 26 2) in
  let bits := le_value (sub_bytes data 28 2) in
  let compression := le_value (sub_bytes data 30 4) in
  let colors := le_value (sub_bytes data 46 4) in
  let stride := ((w * bits + 31) / 32) * 4 in
  if forallb (fun b => (0 <=? b) && (b <? 256)) data
     && PyStr.eqb (map Z.to_N (sub_bytes data 0 2)) (lit "BM")
     && (header =? 40) && (planes =? 1) && (compression =? 0)
     && (0 <? w) && (0 <? h)
     && ((bits =? 1) || (bits =? 4) || (bits =? 8) || (bits =? 24))
     && (14 + header + 4 * colors <=? offset)
     && (offset + stride * h <=? Z.of_nat (length data))
  then Some {| bmp_width := w; bmp_height := h; bmp_bits := bits |}
  else None.

(** ** Notions used to state the properties *)

Section Notions.

Context (E : Env) (translator : Translator).

(** A ["datetime"] value the renderer can turn into a [datetime]: absent,
    a [datetime] object, or a string that [fromisoformat] accepts. *)
Definition parses (dt : DtField) : bool :=
  match dt with
  | DtStr s =>
      match fromisoformat E s with
      | Some _ => true
      | None => false
      end
  | _ => true
  end.

Definition valid_schedule (schedule : list Event) : bool :=
  forallb (fun event => parses (ev_datetime event)) schedule.

Definition valid_race_data (race_data : RaceData) : bool :=
  valid_schedule (get (rd_schedule race_data) []).

(** The entry of the static table does not name a fastest-lap driver made
    of white space only. *)
Definition stats_well_formed (circuit_data : CircuitStats) : bool :=
  if truthy_opt (fastest_lap_time circuit_data)
     && truthy_opt (fastest_lap_driver circuit_data)
  then match split (get (fastest_lap_driver circuit_data) []) with
       | [] => false
       | _ :: _ => true
       end
  else true.

(** The patterns [_load_track_image] can hand to [glob] for this race, each
    with the directory searched: none without a circuit id. *)
Definition track_patterns (race_data : RaceData) : list (TrackDir * str) :=
  let circuit := get (rd_circuit race_data) empty_circuit in
  let circuit_id := get (cd_circuitId circuit) [] in
  if negb (truthy circuit_id) then []
  else
    let location :=
      replace_space_by_underscore (lower E (get (cd_location circuit) [])) in
    map (pair TRACKS_PROCESSED_DIR) (processed_patterns E circuit_id location)
    ++ map (pair TRACKS_DIR) (original_patterns E circuit_id location)
    ++ [ (TRACKS_PROCESSED_DIR, lit "*.bmp") ].

(** [glob] accepts every one of them: the circuit id and the locality put
    nothing into a pattern that [glob] refuses. *)
Definition glob_accepts (race_data : RaceData) : bool :=
  forallb
    (fun '(directory, pattern) =>
       match glob E directory pattern with
       | Some _ => true
       | None => false
       end)
    (track_patterns race_data).

(** The flag of the country, if there is one and it is wider than 87
    pixels, keeps a height of at least one pixel when it is scaled down: the
    results header can resize it. *)
Definition flag_fits (country_name : str) : bool :=
  match load_flag_image E (flag_iso_code E country_name) with
  | Some flag =>
      if pic_width flag >? max_flag_width
      then 1 <=? scaled_flag_height E (pic_height flag) max_flag_width
                   (pic_width flag)
      else true
  | None => true
  end.

(** The results section has no flag to resize, or one it can resize. *)
Definition results_flag_fits (race_data : RaceData)
    (historical_data : option HistoricalData) : bool :=
  match historical_data with
  | None => true
  | Some hd =>
      is_new_track hd
      || flag_fits
           (get (cd_country (get (rd_circuit race_data) empty_circuit)) [])
  end.

(** The label under the track map, and the height left for the map above
    it: from y = 92 to 3 pixels above the label's visual top. *)
Definition track_label_text (race_data : RaceData) : str :=
  let circuit := get (rd_circuit race_data) empty_circuit in
  let country := upper E (get (cd_country circuit) []) in
  let city := upper E (get (cd_location circuit) []) in
  let name := get (cd_name circuit) (lit "Circuit") in
  if truthy city then country ++ lit ", " ++ city ++ lit " | " ++ name
  else country ++ lit " | " ++ name.

Definition track_area_height (race_data : RaceData) : Z :=
  let box := textbbox E Font.circuit_name (track_label_text race_data) in
  382 - bb3 box + bb1 box - 3 - 92.

(** The track image that is found, if any, needs no resizing or is fitted
    to a size with no side below 1. *)
Definition track_image_fits (race_data : RaceData) : bool :=
  match _load_track_image E race_data with
  | Ok (Some found) =>
      let source := if pic_mode_1 found then found else autocrop E found in
      let new_size :=
        fit_size E 494 (track_area_height race_data) (pic_width source)
          (pic_height source) in
      size_eqb new_size (pic_width source, pic_height source)
      || ((1 <=? fst new_size) && (1 <=? snd new_size))
  | _ => true
  end.

(** The track section returns. *)
Definition track_section_returns (race_data : RaceData) : bool :=
  match _draw_track_section E race_data with
  | Ok _ => true
  | Raise _ => false
  end.

(** The search for the track image returns (an image or none). *)
Definition track_lookup_returns (race_data : RaceData) : bool :=
  match _load_track_image E race_data with
  | Ok _ => true
  | Raise _ => false
  end.

Definition circuit_table_ok (race_data : RaceData) : bool :=
  let circuit_id :=
    get (cd_circuitId (get (rd_circuit race_data) empty_circuit)) [] in
  match CIRCUITS_DATA E (get (dict_get CIRCUIT_ID_MAP circuit_id) circuit_id)
  with
  | Some circuit_data => stats_well_formed circuit_data
  | None => true
  end.

(** The width of a text does not exceed the limit. *)
Definition fits (font : FontKey) (max_width : Z) (t : str) : Prop :=
  get_width E font t <= max_width.

(** The composite with the team cut to [i] characters and marked "..". *)
Definition team_form (pos : Z) (driver team : str) (i : nat) : str :=
  composite pos driver (slice_to i team ++ lit "..").

(** The composite with the team at 3 characters plus ".." and the driver
    cut to [i] characters and marked ".". *)
Definition driver_form (pos : Z) (driver team : str) (i : nat) : str :=
  composite pos (slice_to i driver ++ lit ".") (slice_to 3 team ++ lit "..").

(** The last resort: 5 characters of the driver, 3 of the team. *)
Definition fallback_form (pos : Z) (driver team : str) : str :=
  str_of_int pos ++ lit ". " ++ slice_to 5 driver ++ lit ".. ("
    ++ slice_to 3 team ++ lit "..)".

(** One row per entry, in order: entry number [i] (from [i0]) at
    [schedule_start_y + i * schedule_row_height]. *)
Fixpoint rows_in_order (entries : list Event) (i0 : Z) : res (list DrawOp) :=
  match entries with
  | [] => Ok []
  | event :: rest =>
      ops <- _draw_schedule_row E translator
               (Layout.schedule_start_y + i0 * Layout.schedule_row_height)
               event ;;
      ops' <- rows_in_order rest (i0 + 1) ;;
      Ok (ops ++ ops')
  end.

(** The first entry whose session name is "Race" up to case. *)
Definition first_race_entry (schedule : list Event) : option Event :=
  find (fun event =>
          PyStr.eqb (lower E (get (ev_name event) [])) (lit "race"))
       schedule.

(** The [datetime] an entry carries, if it carries one that parses. *)
Definition timestamp (event : Event) : option datetime :=
  match ev_datetime event with
  | DtStr s => fromisoformat E s
  | DtObj d => Some d
  | DtNone => None
  end.

(** Microseconds from now until the instant, on the instant's own clock. *)
Definition remaining_us (dt : datetime) : Z :=
  dt_wall_us dt - now_us E (dt_tzinfo dt).

(** The heights (bottom minus top) of the rectangles among the calls. *)
Definition box_heights (r : res (Z * list DrawOp)) : list Z :=
  match r with
  | Ok (_, ops) =>
      flat_map (fun op =>
        match op with
        | Rectangle _ y0 _ y1 _ _ _ => [ y1 - y0 ]
        | _ => []
        end) ops
  | Raise _ => []
  end.

(** The countdown text for the given whole days and hours. *)
Definition countdown_text (d h : Z) : str :=
  tr_get translator (lit "countdown_in") (lit "IN") ++ lit " "
    ++ str_of_int d ++ lit " "
    ++ tr_get translator (lit "countdown_days") (lit "days") ++ lit " "
    ++ str_of_int h ++ lit " "
    ++ tr_get translator (lit "countdown_hours") (lit "hours").

(** The height of the countdown box: the reference glyphs plus 6 pixels of
    padding above and below. *)
Definition countdown_box_height : Z :=
  let ref_bbox := textbbox E Font.schedule_row_bold TEXT_BASELINE_REF in
  bb3 ref_bbox - bb1 ref_bbox + 2 * 6.

(** The top edge of a countdown box placed below [schedule_bottom]. *)
Definition countdown_box_top (schedule_bottom : Z) : Z :=
  schedule_bottom + (328 - schedule_bottom - countdown_box_height) / 2.

(** The reading of "the section returns the Y just below the last drawn
    row": the returned value lies between the Y the row loop ends with and
    that Y plus the 5 pixels of spacing the section adds. *)
Definition returns_bottom_of_last_row (race_data : RaceData) : Prop :=
  forall y ops row_y row_ops,
    _draw_schedule_section E translator race_data = Ok (y, ops) ->
    draw_schedule_rows E translator (get (rd_schedule race_data) [])
      Layout.schedule_start_y = Ok (row_y, row_ops) ->
    row_y <= y <= row_y + 5.

(** The reading of "the box is omitted when there is no race entry or when
    the remaining time is zero or negative, and drawn otherwise". *)
Definition omitted_exactly_when_no_race_or_past (race_data : RaceData)
    (schedule_bottom : Z) : Prop :=
  let schedule := get (rd_schedule race_data) [] in
  _draw_countdown_box E translator race_data schedule_bottom
  = Ok (schedule_bottom, [])
  <-> (first_race_entry schedule = None
       \/ exists event dt,
            first_race_entry schedule = Some event
            /\ timestamp event = Some dt
            /\ remaining_us dt <= 0).

End Notions.

(** ** A concrete world and concrete inputs *)

(** ** Python floats *)

(** The [float] arithmetic of the two size computations, for the positive
    numbers that occur: a value is [m * 2 ^ e] with [2 ^ 52 <= m < 2 ^ 53]
    (binary64), and every result is rounded to the nearest such value, ties
    to the even [m]. *)
Module Binary64.

(** The integer nearest to [p / q], ties to even ([q > 0]). *)
Definition round_half_even (p q : Z) : Z :=
  let f := p / q in
  let r := p mod q in
  if 2 * r <? q then f
  else if q <? 2 * r then f + 1
  else if Z.even f then f else f + 1.

(** [p / (q * 2 ^ e)] as a fraction. *)
Definition shifted (p q e : Z) : Z * Z :=
  if 0 <=? e then (p, q * 2 ^ e) else (p * 2 ^ (- e), q).

(** The float nearest to [p / q], for [p >= 0] and [q > 0]. *)
Definition of_ratio (p q : Z) : Z * Z :=
  if p <=? 0 then (0, 0)
  else
    let e0 := Z.log2 p - Z.log2 q - 52 in
    let '(n, d) := shifted p q e0 in
    let e := if n / d <? 2 ^ 52 then e0 - 1 else e0 in
    let '(n, d) := shifted p q e in
    let m := round_half_even n d in
    if m =? 2 ^ 53 then (2 ^ 52, e + 1) else (m, e).

(** [a / b] for two [int]s. *)
Definition div (a b : Z) : Z * Z := of_ratio a b.

(** [n * x] for an [int] and a [float]. *)
Definition mul (n : Z) (x : Z * Z) : Z * Z :=
  let '(m, e) := x in
  if 0 <=? e then of_ratio (n * m * 2 ^ e) 1
  else of_ratio (n * m) (2 ^ (- e)).

(** [min(x, y)] *)
Definition min (x y : Z * Z) : Z * Z :=
  let '(mx, ex) := x in
  let '(my, ey) := y in
  if (fst y =? 0) || ((0 <? mx) && ((ey <? ex) || ((ey =? ex) && (my <? mx))))
  then y else x.

(** [int(x)] *)
Definition to_int (x : Z * Z) : Z :=
  let '(m, e) := x in
  if 0 <=? e then m * 2 ^ e else m / 2 ^ (- e).

(** [int(h * (max_w / w))] *)
Definition scaled_height (h max_w w : Z) : Z :=
  to_int (mul h (div max_w w)).

(** [(int(w * r), int(h * r))] for [r = min(aw / w, ah / h)] *)
Definition fitted (aw ah w h : Z) : Z * Z :=
  let ratio := min (div aw w) (div ah h) in
  (to_int (mul w ratio), to_int (mul h ratio)).

End Binary64.

Module Sample.

(** ASCII case mapping. *)
Definition ascii_lower (s : str) : str :=
  map (fun c => if (65 <=? c) && (c <=? 90) then c + 32 else c)%N s.
Definition ascii_upper (s : str) : str :=
  map (fun c => if (97 <=? c) && (c <=? 122) then c - 32 else c)%N s.

(** A fixed-pitch font, 10 pixels per character; a text with a character
    beyond ASCII reaches 4 pixels higher. *)
Definition metrics (font : FontKey) (t : str) : bbox :=
  (0, (if forallb (fun c => c <? 128)%N t then 5 else 1),
   10 * Z.of_nat (length t), 25).

(** Accepts one timestamp, a race on a Sunday afternoon. *)
Definition race_start : datetime :=
  {| dt_wall_us := 1000000 * (3 * 86400 + 5 * 3600 + 1800);
     dt_tzinfo := Some (lit "+01:00") |}.

Definition iso (s : str) : option datetime :=
  if PyStr.eqb s (lit "2026-03-08T15:00:00+01:00") then Some race_start
  else None.

Definition format (d : datetime) (fmt : str) : str :=
  if PyStr.eqb fmt (lit "%a") then lit "Sun"
  else if PyStr.eqb fmt (lit "%H:%M") then lit "15:00"
  else lit "08.03.".

Definition albert_park : CircuitStats :=
  {| circuit_length := Some (lit "5.278 km");
     number_of_laps := Some (lit "58");
     race_distance := Some (lit "306.124 km");
     fastest_lap_time := Some (lit "1:19.813");
     fastest_lap_driver := Some (lit "Charles Leclerc");
     fastest_lap_year := Some (lit "2024");
     first_grand_prix := Some (lit "1996") |}.

(** The clock reads 0; no logo, track or flag asset is installed. *)
Definition env : Env :=
  {| textbbox := metrics;
     lower := ascii_lower;
     upper := ascii_upper;
     lower_empty := eq_refl;
     fromisoformat := iso;
     strftime := format;
     now_us := fun _ => 0;
     f1_logo := fun _ _ => None;
     glob := fun _ _ => Some [];
     Image_open := fun _ _ => None;
     autocrop := fun im => im;
     fit_size := Binary64.fitted;
     resample := fun im _ => pic_pixels im;
     thresholded := fun _ im => pic_pixels im;
     load_flag := fun _ => None;
     scaled_flag_height := Binary64.scaled_height;
     CIRCUITS_DATA := fun id =>
       if PyStr.eqb id (lit "albert_park") then Some albert_park else None;
     palette_reserved_zero := true;
     rasterize := fun color _ _ _ => negb (color =? 0) |}.

(** No translation: every lookup falls back to its default. *)
Definition english : Translator := fun _ => None.

(** Czech countdown words, with letters beyond ASCII. *)
Definition czech : Translator := fun key =>
  if PyStr.eqb key (lit "countdown_in") then Some (lit "ZA")
  else if PyStr.eqb key (lit "countdown_days")
       then Some (lit "dn" ++ [237%N])                     (* dní *)
  else if PyStr.eqb key (lit "countdown_hours") then Some (lit "hodin")
  else if PyStr.eqb key (lit "new_track")
       then Some (lit "NOV" ++ [193%N] ++ lit " TRA" ++ [356%N])  (* NOVÁ TRAŤ *)
  else None.

Definition melbourne (id : str) : CircuitDict :=
  {| cd_circuitId := Some id;
     cd_name := Some (lit "Albert Park Grand Prix Circuit");
     cd_location := Some (lit "Melbourne");
     cd_country := Some (lit "Australia") |}.

Definition session (name : string) (dt : DtField) (shown : string) : Event :=
  {| ev_name := Some (lit name); ev_datetime := dt;
     ev_display_time := Some (lit shown) |}.

Definition race_iso : DtField := DtStr (lit "2026-03-08T15:00:00+01:00").

(** A weekend whose only timed session is the race. *)
Definition weekend : RaceData :=
  {| rd_race_name := Some (lit "Australian Grand Prix");
     rd_season := Some (lit "2026");
     rd_circuit := Some (melbourne (lit "albert_park"));
     rd_schedule := Some [ session "Race" race_iso "Sun 15:00" ] |}.

(** The schedule of the test fixture: display strings only, no timestamp. *)
Definition untimed_weekend : RaceData :=
  {| rd_race_name := Some (lit "Test Grand Prix");
     rd_season := Some (lit "2024");
     rd_circuit :=
       Some {| cd_circuitId := Some (lit "test_circuit");
               cd_name := Some (lit "Test Circuit");
               cd_location := Some (lit "Test City");
               cd_country := Some (lit "Atlantis") |};
     rd_schedule :=
       Some [ session "FP1" DtNone "Fri 13:30";
              session "Qualifying" DtNone "Sat 18:00";
              session "Race" DtNone "Sun 17:00" ] |}.

(** Seven sessions, one more than the column takes. *)
Definition seven_sessions : list Event :=
  [ session "FP1" DtNone "Fri 12:30"; session "FP2" DtNone "Fri 16:00";
    session "FP3" DtNone "Sat 12:30"; session "Sprint" DtNone "Sat 13:00";
    session "Qualifying" DtNone "Sat 16:00"; session "Race" race_iso "";
    session "Extra" (DtStr (lit "not a date")) "Mon 10:00" ].

Definition driver (name : string) : DriverInfo :=
  {| code := []; given_name := []; family_name := lit name |}.

Definition qualifier (pos : Z) (name team lap : string) : QualifyingResultEntry :=
  {| q_position := pos; q_driver := driver name;
     q_constructor := {| constructor_name := lit team |};
     q3_time := Some (lit lap) |}.

Definition finisher (pos : Z) (name team gap : string) : RaceResultEntry :=
  {| r_position := pos; r_driver := driver name;
     r_constructor := {| constructor_name := lit team |};
     time := Some (lit gap) |}.

Definition last_year (new_track : bool) : HistoricalData :=
  {| hd_season := Some 2025;
     is_new_track := new_track;
     race_results :=
       [ finisher 1 "Norris" "McLaren" "1:42:06.304";
         finisher 2 "Verstappen" "Red Bull" "+0.895";
         finisher 3 "Russell" "Mercedes" "+8.481";
         finisher 4 "Antonelli" "Mercedes" "+10.135" ];
     qualifying_results :=
       [ qualifier 1 "Norris" "McLaren" "1:15.096";
         qualifier 2 "Piastri" "McLaren" "1:15.180";
         qualifier 3 "Verstappen" "Red Bull" "1:15.481" ] |}.

End Sample.

(** * The callers of the renderer *)

(** ** What they read from outside *)

(** [pytz] and the two [datetime] methods the callers use beside those of
    [Env]; a time zone is known by its name. *)
Record TzWorld : Type := {
  (* [pytz.timezone(name)]; [None] stands for [UnknownTimeZoneError] *)
  pytz_timezone : str -> option str;
  (* [dt.astimezone(tz)]; [None] stands for the [OverflowError] of a result
     outside the years 1 to 9999 *)
  astimezone : datetime -> str -> option datetime;
  (* [dt.isoformat()] *)
  isoformat : datetime -> str
}.

(** The dictionary the data service hands to the renderer: the keys the
    renderer reads ([RaceData]) and the three it does not. *)
Record RaceDict : Type := {
  rd_base : RaceData;
  rd_round : option str;
  rd_race_date : option str;
  rd_timezone : option str
}.

(** *** app/models.py: [Race] and its parts *)

Record RaceSession : Type := {
  rs_date : str;
  rs_time : str
}.

Record Location : Type := {
  locality : str;
  country : str
}.

Record Circuit : Type := {
  circuitId : str;
  circuitName : str;
  circuit_Location : Location
}.

Record Race : Type := {
  season : str;
  round : str;
  raceName : str;
  race_Circuit : Circuit;
  date : str;
  race_time : option str;
  FirstPractice : option RaceSession;
  SecondPractice : option RaceSession;
  ThirdPractice : option RaceSession;
  Qualifying : option RaceSession;
  Sprint : option RaceSession
}.

(** *** The "historical" object of assets/circuits_data.json *)

(** One result of the static file; a key that is absent is [None]. *)
Record ResultJson : Type := {
  j_pos : option Z;
  j_code : option str;
  j_name : option str;
  j_team : option str;
  j_time : option str
}.

Record HistoricalJson : Type := {
  h_season : option Z;
  h_qualifying : option (list ResultJson);
  h_race : option (list ResultJson);
  (* the object has a key beside these three *)
  h_other_keys : bool
}.

(** ** Python strings, continued *)

(** [s.replace(old, new)] for a single character [old]. *)
Definition replace_char (old : char) (new : str) (s : str) : str :=
  flat_map (fun c => if N.eqb c old then new else [c]) s.

(** [s.lstrip()] and [s.strip()]. *)
Fixpoint lstrip (s : str) : str :=
  match s with
  | [] => []
  | c :: rest => if is_space c then lstrip rest else s
  end.

Definition strip (s : str) : str := rev (lstrip (rev (lstrip s))).

(** [a < b] on strings: lexicographic on code points. *)
Fixpoint str_ltb (a b : str) : bool :=
  match a, b with
  | _, [] => false
  | [], _ :: _ => true
  | x :: a', y :: b' => (x <? y)%N || ((x =? y)%N && str_ltb a' b')
  end.

(** [v or default] in an f-string, for an [int] that may be [None]. *)
Definition int_or (v : option Z) (default : str) : str :=
  match v with
  | Some n => if n =? 0 then default else str_of_int n
  | None => default
  end.

(** [v or default] for a string that may be [None]. *)
Definition str_or (v : option str) (default : str) : str :=
  if truthy_opt v then get v [] else default.

(** [list.sort(key=...)] is stable: insertion from the right, an element
    going in front of the later ones whose key is not smaller. *)
Section StableSort.

Context {A : Type} (key : A -> str).

Fixpoint insert_by_key (x : A) (l : list A) : list A :=
  match l with
  | [] => [x]
  | y :: rest =>
      if str_ltb (key y) (key x) then y :: insert_by_key x rest
      else x :: l
  end.

Definition sort_by_key (l : list A) : list A :=
  fold_right insert_by_key [] l.

End StableSort.

(** A [for] loop that builds one result per element and that an exception
    leaves. *)
Fixpoint for_each {A B} (f : A -> res B) (l : list A) : res (list B) :=
  match l with
  | [] => Ok []
  | a :: rest =>
      b <- f a ;;
      bs <- for_each f rest ;;
      Ok (b :: bs)
  end.

Section Callers.

Context (E : Env) (W : TzWorld).

(** [config.DEFAULT_TIMEZONE] ("Europe/Prague" unless the environment says
    otherwise). *)
Context (DEFAULT_TIMEZONE : str).

(** ** app/services/scheduler.py *)

(** [_get_image_key] *)
Definition _get_image_key (lang : str) (tz : option str) : str :=
  let key := lit "calendar_" ++ lang in
  if truthy_opt tz && negb (PyStr.eqb (get tz []) DEFAULT_TIMEZONE) then
    let tz_safe := replace_char 47%N (lit "_") (get tz []) in
    key ++ lit "_" ++ tz_safe
  else key.

(** The kwargs [_parse_cron_expression] returns. *)
Record CronKwargs : Type := {
  minute : str;
  hour : str;
  day : str;
  month : str;
  day_of_week : str
}.

(** [_parse_cron_expression] *)
Definition _parse_cron_expression (cron_expr : str) : CronKwargs :=
  let parts := split (strip cron_expr) in
  let parts :=
    if negb (length parts =? 5)%nat
    then [ lit "0"; lit "3"; lit "*"; lit "*"; lit "*" ]
    else parts in
  {| minute := nth 0 parts [];
     hour := nth 1 parts [];
     day := nth 2 parts [];
     month := nth 3 parts [];
     day_of_week := nth 4 parts [] |}.

(** The body of the first loop of [_convert_race_times_to_timezone]: a
    timestamp that parses is moved to the target zone; [ValueError] and
    [TypeError] (a [datetime] object handed to [fromisoformat]) are caught
    and leave the entry as it is; the [OverflowError] of [astimezone] is
    not caught. *)
Definition convert_event (target_tz : str) (event : Event) : res Event :=
  match ev_datetime event with
  | DtStr iso_str =>
      if truthy iso_str then
        match fromisoformat E iso_str with
        | Some dt =>
            match astimezone W dt target_tz with
            | Some dt_local =>
                Ok {| ev_name := ev_name event;
                      ev_datetime := DtStr (isoformat W dt_local);
                      ev_display_time :=
                        Some (strftime E dt_local (lit "%a %H:%M")) |}
            | None => Raise OverflowError
            end
        | None => Ok event
        end
      else Ok event
  | DtObj _ => Ok event
  | DtNone => Ok event
  end.

(** The second loop: the date of the first entry named exactly "Race", when
    its timestamp is a string that parses. *)
Fixpoint converted_race_date (schedule : list Event) : option str :=
  match schedule with
  | [] => None
  | event :: rest =>
      match ev_name event with
      | Some name =>
          if PyStr.eqb name (lit "Race") then
            match ev_datetime event with
            | DtStr iso_str =>
                if truthy iso_str then
                  match fromisoformat E iso_str with
                  | Some dt => Some (strftime E dt (lit "%d.%m.%Y"))
                  | None => None
                  end
                else None
            | _ => None
            end
          else converted_race_date rest
      | None => converted_race_date rest
      end
  end.

(** [_convert_race_times_to_timezone] (the same function in
    scheduler.py and in main.py) *)
Definition _convert_race_times_to_timezone (race_data : RaceDict)
    (target_tz_str : str) : res RaceDict :=
  match pytz_timezone W target_tz_str with
  | None => Ok race_data
  | Some target_tz =>
      let base := rd_base race_data in
      let schedule := get (rd_schedule base) [] in
      schedule <- for_each (convert_event target_tz) schedule ;;
      let race_date :=
        match converted_race_date schedule with
        | Some d => Some d
        | None => rd_race_date race_data
        end in
      Ok {| rd_base :=
              {| rd_race_name := rd_race_name base;
                 rd_season := rd_season base;
                 rd_circuit := rd_circuit base;
                 rd_schedule :=
                   match rd_schedule base with
                   | Some _ => Some schedule
                   | None => None
                   end |};
            rd_round := rd_round race_data;
            rd_race_date := race_date;
            rd_timezone := Some target_tz_str |}
  end.

(** ** app/main.py *)

(** [_get_cache_key] *)
Definition _get_cache_key (lang : str) (year round_num : option Z)
    (tz : option str) : str :=
  lang ++ lit ":" ++ int_or year (lit "next") ++ lit ":"
    ++ int_or round_num (lit "next") ++ lit ":" ++ str_or tz (lit "default").

(** The name under which [get_calendar_bmp] looks for a pre-generated
    image (the assignment of [image_key]). *)
Definition pregenerated_image_key (lang : str) (tz : option str) : str :=
  let target_tz_for_key := str_or tz DEFAULT_TIMEZONE in
  if negb (PyStr.eqb target_tz_for_key DEFAULT_TIMEZONE) then
    let tz_safe := replace_char 47%N (lit "_") target_tz_for_key in
    lit "calendar_" ++ lang ++ lit "_" ++ tz_safe
  else lit "calendar_" ++ lang.

(** ** app/services/f1_service.py *)

(** [self.target_tz] and [self.timezone_str] of the service. *)
Context (target_tz timezone_str : str).

(** The inner function [parse_and_convert] of [_convert_race_times]: the
    [ValueError] of [fromisoformat] is caught and gives [None], the
    [OverflowError] of [astimezone] is not caught. *)
Definition parse_and_convert (date_str : str) (time_str : option str)
    : res (option datetime) :=
  let time_str := str_or time_str (lit "12:00:00Z") in
  let dt_str := date_str ++ lit "T" ++ time_str in
  match fromisoformat E (replace_char 90%N (lit "+00:00") dt_str) with
  | Some dt_utc =>
      match astimezone W dt_utc target_tz with
      | Some dt_local => Ok (Some dt_local)
      | None => Raise OverflowError
      end
  | None => Ok None
  end.

(** A schedule entry as [_convert_race_times] builds it. *)
Definition schedule_event (display_name_ : str) (dt : datetime) : Event :=
  {| ev_name := Some display_name_;
     ev_datetime := DtStr (isoformat W dt);
     ev_display_time := Some (strftime E dt (lit "%a %H:%M")) |}.

(** The entry of one practice, qualifying or sprint session, if the race
    has it and its time parses. *)
Definition session_events (session : option RaceSession)
    (display_name_ : str) : res (list Event) :=
  match session with
  | Some session =>
      dt <- parse_and_convert (rs_date session) (Some (rs_time session)) ;;
      match dt with
      | Some dt => Ok [ schedule_event display_name_ dt ]
      | None => Ok []
      end
  | None => Ok []
  end.

(** The key of the sort: [x["datetime"]]. *)
Definition datetime_key (event : Event) : str :=
  match ev_datetime event with
  | DtStr s => s
  | _ => []
  end.

(** [schedule_events] of [_convert_race_times] before it is sorted, the
    five sessions in the order of [sessions], then the race; and [race_dt]. *)
Definition collected_events (race : Race)
    : res (list Event * option datetime) :=
  fp1 <- session_events (FirstPractice race) (lit "FP1") ;;
  fp2 <- session_events (SecondPractice race) (lit "FP2") ;;
  fp3 <- session_events (ThirdPractice race) (lit "FP3") ;;
  qualifying <- session_events (Qualifying race) (lit "Qualifying") ;;
  sprint <- session_events (Sprint race) (lit "Sprint") ;;
  race_dt <- parse_and_convert (date race) (race_time race) ;;
  Ok (fp1 ++ fp2 ++ fp3 ++ qualifying ++ sprint
      ++ match race_dt with
         | Some dt => [ schedule_event (lit "Race") dt ]
         | None => []
         end,
      race_dt).

(** [_convert_race_times] *)
Definition _convert_race_times (race : Race) : res RaceDict :=
  '(schedule_events, race_dt) <- collected_events race ;;
  let schedule_events := sort_by_key datetime_key schedule_events in
  Ok {| rd_base :=
       {| rd_race_name := Some (raceName race);
          rd_season := Some (season race);
          rd_circuit :=
            Some {| cd_circuitId := Some (circuitId (race_Circuit race));
                    cd_name := Some (circuitName (race_Circuit race));
                    cd_location :=
                      Some (locality (circuit_Location (race_Circuit race)));
                    cd_country :=
                      Some (country (circuit_Location (race_Circuit race))) |};
          rd_schedule := Some schedule_events |};
     rd_round := Some (round race);
     rd_race_date :=
       Some (match race_dt with
             | Some dt => strftime E dt (lit "%d.%m.%Y")
             | None => date race
             end);
     rd_timezone := Some timezone_str |}.

(** [HistoricalData(is_new_track=True)] *)
Definition new_track_data : HistoricalData :=
  {| hd_season := None; is_new_track := true; race_results := [];
     qualifying_results := [] |}.

(** The entries built in the two loops of [get_historical_from_static];
    [None] stands for the [KeyError] of a missing "pos", "code", "name" or
    "team". *)
Definition qualifying_entry (q : ResultJson) : option QualifyingResultEntry :=
  match j_pos q, j_code q, j_name q, j_team q with
  | Some pos, Some code_, Some name, Some team =>
      Some {| q_position := pos;
              q_driver := {| code := code_; given_name := [];
                             family_name := name |};
              q_constructor := {| constructor_name := team |};
              q3_time := j_time q |}
  | _, _, _, _ => None
  end.

Definition race_entry (r : ResultJson) : option RaceResultEntry :=
  match j_pos r, j_code r, j_name r, j_team r with
  | Some pos, Some code_, Some name, Some team =>
      Some {| r_position := pos;
              r_driver := {| code := code_; given_name := [];
                             family_name := name |};
              r_constructor := {| constructor_name := team |};
              time := j_time r |}
  | _, _, _, _ => None
  end.

(** A loop of [append]s that an exception leaves as a whole. *)
Fixpoint build_all {A B} (f : A -> option B) (l : list A) : option (list B) :=
  match l with
  | [] => Some []
  | a :: rest =>
      match f a with
      | Some b =>
          match build_all f rest with
          | Some bs => Some (b :: bs)
          | None => None
          end
      | None => None
      end
  end.

(** [if not historical]: absent, or an object without any key. *)
Definition historical_is_empty (h : HistoricalJson) : bool :=
  match h_season h, h_qualifying h, h_race h with
  | None, None, None => negb (h_other_keys h)
  | _, _, _ => false
  end.

(** [get_historical_from_static], given what the file holds:
    [circuits_json] is [None] when the file cannot be read, and otherwise
    maps a circuit id to its "historical" object, if it has one; the values
    under "season", "qualifying", "race", "pos", "code", "name", "team" and
    "time" are of the types the models ask for.  Every exception ends in
    [HistoricalData(is_new_track=True)]. *)
Definition get_historical_from_static
    (circuits_json : option (str -> option HistoricalJson))
    (circuit_id : str) : HistoricalData :=
  let mapped_id := get (dict_get CIRCUIT_ID_MAP circuit_id) circuit_id in
  match circuits_json with
  | None => new_track_data
  | Some circuits_data =>
      match circuits_data mapped_id with
      | None => new_track_data
      | Some historical =>
          if historical_is_empty historical then new_track_data
          else
            match
              build_all qualifying_entry (get (h_qualifying historical) [])
            with
            | None => new_track_data
            | Some qualifying =>
                match build_all race_entry (get (h_race historical) []) with
                | None => new_track_data
                | Some races =>
                    {| hd_season := h_season historical;
                       is_new_track := false;
                       race_results := races;
                       qualifying_results := qualifying |}
                end
            end
      end
  end.

End Callers.

(** ** Further notions *)

(** The timestamp of the first race entry, if there is one, is usable. *)
Definition race_entry_parses (E : Env) (schedule : list Event) : bool :=
  match first_race_entry E schedule with
  | Some event => parses E (ev_datetime event)
  | None => true
  end.

(** A word: not empty, no white space in it. *)
Definition is_word (w : str) : Prop :=
  w <> [] /\ forallb (fun c => negb (is_space c)) w = true.

(** [v or None] for an [int]: 0 counts as absent. *)
Definition nonzero (v : option Z) : option Z :=
  match v with
  | Some n => if n =? 0 then None else Some n
  | None => None
  end.


(** A schedule entry whose timestamp parses and cannot be moved to the
    zone. *)
Definition entry_overflows (E : Env) (W : TzWorld) (target_tz : str)
    (event : Event) : bool :=
  match ev_datetime event with
  | DtStr s =>
      truthy s
      && match fromisoformat E s with
         | Some dt =>
             match astimezone W dt target_tz with
             | Some _ => false
             | None => true
             end
         | None => false
         end
  | _ => false
  end.



(** Every string [isoformat] produces is one [fromisoformat] accepts. *)
Definition isoformat_parses (E : Env) (W : TzWorld) : Prop :=
  forall d, fromisoformat E (isoformat W d) <> None.

(** ** More concrete worlds and inputs *)

Module Fixture.

(** A pattern with two asterisks in a row, which [pathlib] refuses inside a
    path component. *)
Fixpoint has_double_star (pattern : str) : bool :=
  match pattern with
  | a :: (b :: _) as rest =>
      ((a =? 42)%N && (b =? 42)%N) || has_double_star rest
  | _ => false
  end.

(** [Sample.env] with a chosen circuit table and chosen assets. *)
Definition world (table : str -> option CircuitStats)
    (logo track flag : option Picture) : Env :=
  {| textbbox := Sample.metrics;
     lower := Sample.ascii_lower;
     upper := Sample.ascii_upper;
     lower_empty := eq_refl;
     fromisoformat := Sample.iso;
     strftime := Sample.format;
     now_us := fun _ => 0;
     f1_logo := fun _ _ => logo;
     glob := fun _ pattern =>
       if has_double_star pattern then None
       else match track with
            | Some _ => Some [ lit "albert_park.bmp" ]
            | None => Some []
            end;
     Image_open := fun _ _ => track;
     autocrop := fun im => im;
     fit_size := Binary64.fitted;
     resample := fun im _ => pic_pixels im;
     thresholded := fun _ im => pic_pixels im;
     load_flag := fun _ => flag;
     scaled_flag_height := Binary64.scaled_height;
     CIRCUITS_DATA := table;
     palette_reserved_zero := true;
     rasterize := fun color _ _ _ => negb (color =? 0) |}.

(** A circuit whose fastest-lap driver is two blanks. *)
Definition blank_driver : CircuitStats :=
  {| circuit_length := Some (lit "5.278 km");
     number_of_laps := None; race_distance := None;
     fastest_lap_time := Some (lit "1:19.813");
     fastest_lap_driver := Some (lit "  ");
     fastest_lap_year := None;
     first_grand_prix := None |}.

Definition picture (w h : Z) : Picture :=
  {| pic_mode_1 := false; pic_width := w; pic_height := h; pic_pixels := 7 |}.

(** Every zone is known; a converted time prints as the one timestamp
    [Sample.iso] accepts. *)
Definition zones : TzWorld :=
  {| pytz_timezone := fun name => Some name;
     astimezone := fun dt tz =>
       if dt_wall_us dt <? 0 then None
       else Some {| dt_wall_us := dt_wall_us dt; dt_tzinfo := Some tz |};
     isoformat := fun _ => lit "2026-03-08T15:00:00+01:00" |}.

(** No zone is known. *)
Definition no_zones : TzWorld :=
  {| pytz_timezone := fun _ => None;
     astimezone := fun dt _ => Some dt;
     isoformat := fun _ => [] |}.

Definition weekend_dict : RaceDict :=
  {| rd_base := Sample.weekend; rd_round := Some (lit "1");
     rd_race_date := Some (lit "08.03.2026");
     rd_timezone := Some (lit "Europe/Prague") |}.

(** A weekend whose circuit id is an asterisk. *)
Definition starred : RaceData :=
  {| rd_race_name := Some (lit "Australian Grand Prix");
     rd_season := Some (lit "2026");
     rd_circuit := Some (Sample.melbourne (lit "*"));
     rd_schedule := Some [] |}.

(** A weekend of seven sessions, the seventh with a string that is no
    timestamp. *)
Definition long_weekend : RaceData :=
  {| rd_race_name := Some (lit "Australian Grand Prix");
     rd_season := Some (lit "2026");
     rd_circuit := Some (Sample.melbourne (lit "albert_park"));
     rd_schedule := Some Sample.seven_sessions |}.

(** [Sample.env] with a font whose glyphs start 3 pixels right of the
    drawing origin. *)
Definition bearing : Env :=
  {| textbbox := fun font t =>
       let box := Sample.metrics font t in
       (3 + bb0 box, bb1 box, 3 + bb2 box, bb3 box);
     lower := Sample.ascii_lower;
     upper := Sample.ascii_upper;
     lower_empty := eq_refl;
     fromisoformat := Sample.iso;
     strftime := Sample.format;
     now_us := fun _ => 0;
     f1_logo := fun _ _ => None;
     glob := fun _ _ => Some [];
     Image_open := fun _ _ => None;
     autocrop := fun im => im;
     fit_size := Binary64.fitted;
     resample := fun im _ => pic_pixels im;
     thresholded := fun _ im => pic_pixels im;
     load_flag := fun _ => None;
     scaled_flag_height := Binary64.scaled_height;
     CIRCUITS_DATA := CIRCUITS_DATA Sample.env;
     palette_reserved_zero := true;
     rasterize := fun color _ _ _ => negb (color =? 0) |}.

(** [Sample.env] reading every string of 25 characters as a timestamp. *)
Definition lenient : Env :=
  {| textbbox := Sample.metrics;
     lower := Sample.ascii_lower;
     upper := Sample.ascii_upper;
     lower_empty := eq_refl;
     fromisoformat := fun s =>
       if (length s =? 25)%nat then Some Sample.race_start else None;
     strftime := Sample.format;
     now_us := fun _ => 0;
     f1_logo := fun _ _ => None;
     glob := fun _ _ => Some [];
     Image_open := fun _ _ => None;
     autocrop := fun im => im;
     fit_size := Binary64.fitted;
     resample := fun im _ => pic_pixels im;
     thresholded := fun _ im => pic_pixels im;
     load_flag := fun _ => None;
     scaled_flag_height := Binary64.scaled_height;
     CIRCUITS_DATA := CIRCUITS_DATA Sample.env;
     palette_reserved_zero := true;
     rasterize := fun color _ _ _ => negb (color =? 0) |}.

(** A race as the API gives it: three of the five sessions, the time of the
    second one garbled. *)
Definition australia : Race :=
  {| season := lit "2026"; round := lit "1";
     raceName := lit "Australian Grand Prix";
     race_Circuit :=
       {| circuitId := lit "albert_park";
          circuitName := lit "Albert Park Grand Prix Circuit";
          circuit_Location :=
            {| locality := lit "Melbourne"; country := lit "Australia" |} |};
     date := lit "2026-03-08";
     race_time := Some (lit "04:00:00Z");
     FirstPractice :=
       Some {| rs_date := lit "2026-03-06"; rs_time := lit "01:30:00Z" |};
     SecondPractice :=
       Some {| rs_date := lit "2026-03-06"; rs_time := lit "5 o'clock" |};
     ThirdPractice := None;
     Qualifying :=
       Some {| rs_date := lit "2026-03-07"; rs_time := lit "05:00:00Z" |};
     Sprint := None |}.

(** Entries of the static file, the second without "team". *)
Definition pole : ResultJson :=
  {| j_pos := Some 1; j_code := Some (lit "VER");
     j_name := Some (lit "Verstappen"); j_team := Some (lit "Red Bull");
     j_time := Some (lit "1:15.915") |}.

Definition teamless : ResultJson :=
  {| j_pos := Some 2; j_code := Some (lit "SAI");
     j_name := Some (lit "Sainz"); j_team := None; j_time := None |}.

Definition circuits_json (id : str) : option HistoricalJson :=
  if PyStr.eqb id (lit "albert_park") then
    Some {| h_season := Some 2024; h_qualifying := Some [ pole ];
            h_race := Some [ pole; teamless ]; h_other_keys := false |}
  else None.

End Fixture.

(** * Properties *)

Lemma Ok_inj {A} (a b : A) : Ok a = Ok b -> a = b.
Proof. congruence. Qed.

(** ** Strings and loops *)

Lemma str_eqb_spec (a b : str) : reflect (a = b) (PyStr.eqb a b).
Proof.
  revert b; induction a as [|x a IH]; intros [|y b]; simpl;
    try (constructor; congruence).
  destruct (N.eqb_spec x y) as [->|Hxy]; simpl.
  - destruct (IH b) as [->|Hab]; constructor; congruence.
  - constructor; congruence.
Qed.

Lemma slice_to_length_le (n : nat) (s : str) :
  (length (slice_to n s) <= n)%nat.
Proof. unfold slice_to. rewrite length_firstn. lia. Qed.

Lemma range_down_to_3_step (n : nat) :
  (2 <= n)%nat -> range_down_to_3 (S n) = S n :: range_down_to_3 n.
Proof.
  intros Hn. unfold range_down_to_3.
  replace (S n - 2)%nat with (S (n - 2)) by lia.
  rewrite seq_S, rev_app_distr. simpl. f_equal. lia.
Qed.

Lemma range_down_to_3_short (n : nat) :
  (n <= 2)%nat -> range_down_to_3 n = [].
Proof.
  intros Hn. unfold range_down_to_3.
  replace (n - 2)%nat with 0%nat by lia. reflexivity.
Qed.

Section FirstFit.

Variables (width_of : str -> Z) (max_width : Z) (form : nat -> str).

(** The loop over [range(n, 2, -1)] returns the form of the largest index
    that fits. *)
Lemma for_return_largest_fit (n i : nat) :
  (3 <= i <= n)%nat ->
  width_of (form i) <= max_width ->
  (forall k, (i < k <= n)%nat -> ~ width_of (form k) <= max_width) ->
  for_return (range_down_to_3 n)
    (fun k => if width_of (form k) <=? max_width then Some (form k) else None)
  = Some (form i).
Proof.
  induction n as [|n IH]; intros Hi Hfit Hlarger; [lia|].
  rewrite range_down_to_3_step by lia. cbn [for_return].
  destruct (Z.leb_spec (width_of (form (S n))) max_width) as [Hle|Hgt].
  - destruct (Nat.eq_dec i (S n)) as [->|Hne]; [reflexivity|].
    exfalso. apply (Hlarger (S n)); [lia|exact Hle].
  - destruct (Nat.eq_dec i (S n)) as [->|Hne]; [lia|].
    apply IH; [lia|exact Hfit|]. intros k Hk. apply Hlarger. lia.
Qed.

(** It runs to its end when no index from 3 to [n] fits. *)
Lemma for_return_no_fit (n : nat) :
  (forall k, (3 <= k <= n)%nat -> ~ width_of (form k) <= max_width) ->
  for_return (range_down_to_3 n)
    (fun k => if width_of (form k) <=? max_width then Some (form k) else None)
  = None.
Proof.
  induction n as [|n IH]; intros Hnone; [reflexivity|].
  destruct (le_lt_dec n 1) as [Hsmall|Hbig].
  - rewrite range_down_to_3_short by lia. reflexivity.
  - rewrite range_down_to_3_step by lia. cbn [for_return].
    destruct (Z.leb_spec (width_of (form (S n))) max_width) as [Hle|_].
    + exfalso. apply (Hnone (S n)); [lia|exact Hle].
    + apply IH. intros k Hk. apply Hnone. lia.
Qed.

End FirstFit.

(** ** C2: the staged truncation of [_fit_text] *)

(** C2. [_fit_text] is total and follows the staged policy: the full
    composite when it fits; otherwise the form with the longest team prefix
    (from the full length down to 3 characters, marked "..") that fits;
    otherwise, the team being held at 3 characters plus "..", the form with
    the longest driver prefix (down to 3 characters, marked ".") that fits;
    otherwise the fixed fallback of 5 driver and 3 team characters. *)
Theorem fit_text_staged_policy (E : Env) (font : FontKey) (max_width pos : Z)
    (driver team : str) :
  let r := _fit_text E font max_width pos driver team in
  let full := composite pos driver team in
  let no_team_form_fits :=
    forall i, (3 <= i <= length team)%nat ->
      ~ fits E font max_width (team_form pos driver team i) in
  let no_driver_form_fits :=
    forall j, (3 <= j <= length driver)%nat ->
      ~ fits E font max_width (driver_form pos driver team j) in
  (fits E font max_width full -> r = full)
  /\ (~ fits E font max_width full ->
      forall i, (3 <= i <= length team)%nat ->
        fits E font max_width (team_form pos driver team i) ->
        (forall k, (i < k <= length team)%nat ->
           ~ fits E font max_width (team_form pos driver team k)) ->
        r = team_form pos driver team i)
  /\ (~ fits E font max_width full -> no_team_form_fits ->
      forall j, (3 <= j <= length driver)%nat ->
        fits E font max_width (driver_form pos driver team j) ->
        (forall k, (j < k <= length driver)%nat ->
           ~ fits E font max_width (driver_form pos driver team k)) ->
        r = driver_form pos driver team j)
  /\ (~ fits E font max_width full -> no_team_form_fits ->
      no_driver_form_fits -> r = fallback_form pos driver team).
Proof.
  cbv zeta. unfold fits, _fit_text.
  destruct (Z.leb_spec (get_width E font (composite pos driver team)) max_width)
    as [Hfull|Hfull].
  - split; [reflexivity|]. repeat split; intros Hno; lia.
  - split; [intros; lia|].
    split; [|split].
    + intros _ i Hi Hfit Hlarger.
      pose proof (for_return_largest_fit (get_width E font) max_width
                    (team_form pos driver team) (length team) i Hi Hfit
                    Hlarger) as Hteam_loop.
      cbv beta zeta delta [team_form] in Hteam_loop |- *.
      rewrite Hteam_loop. reflexivity.
    + intros _ Hteam j Hj Hfit Hlarger.
      pose proof (for_return_no_fit (get_width E font) max_width
                    (team_form pos driver team) (length team) Hteam)
        as Hteam_loop.
      pose proof (for_return_largest_fit (get_width E font) max_width
                    (driver_form pos driver team) (length driver) j Hj Hfit
                    Hlarger) as Hdriver_loop.
      cbv beta zeta delta [team_form driver_form]
        in Hteam_loop, Hdriver_loop |- *.
      rewrite Hteam_loop, Hdriver_loop. reflexivity.
    + intros _ Hteam Hdriver.
      pose proof (for_return_no_fit (get_width E font) max_width
                    (team_form pos driver team) (length team) Hteam)
        as Hteam_loop.
      pose proof (for_return_no_fit (get_width E font) max_width
                    (driver_form pos driver team) (length driver) Hdriver)
        as Hdriver_loop.
      cbv beta zeta delta [team_form driver_form]
        in Hteam_loop, Hdriver_loop |- *.
      rewrite Hteam_loop, Hdriver_loop. reflexivity.
Qed.

(** A name of 10 characters and a team of 8 in a column of 185 pixels, at 10
    pixels per character: no team form fits, the driver is cut to 6. *)
Lemma fit_text_staged_policy_witness :
  _fit_text Sample.env Font.results_row 185 1 (lit "Verstappen")
    (lit "Red Bull")
  = lit "1. Versta. (Red..)".
Proof.
  refine (proj1 (proj2 (proj2
            (fit_text_staged_policy Sample.env Font.results_row 185 1
               (lit "Verstappen") (lit "Red Bull")))) _ _ 6%nat _ _ _).
  - vm_compute. intros Hle. apply Hle. reflexivity.
  - intros i Hi.
    do 9 (destruct i as [|i];
          [ first [ exfalso; lia
                  | vm_compute; intros Hle; apply Hle; reflexivity ] | ]).
    exfalso. simpl in Hi. lia.
  - simpl. lia.
  - vm_compute. discriminate.
  - intros k Hk.
    do 11 (destruct k as [|k];
           [ first [ exfalso; simpl in Hk; lia
                   | vm_compute; intros Hle; apply Hle; reflexivity ] | ]).
    exfalso. simpl in Hk. lia.
Defined.

(** ** C3: a new track *)

(** C3. Without historical data, or with [is_new_track] set, the results
    section returns, and issues two calls only: the separator line across the canvas at
    y = 385 and the translated "NEW TRACK" message, horizontally centred,
    30 pixels below it.  Nothing else is drawn (no year, flag, column title
    or result row), whatever the two result lists hold. *)
Theorem new_track_draws_message_only (E : Env) (translator : Translator)
    (race_data : RaceData) (historical_data : option HistoricalData) :
  (historical_data = None
   \/ exists hd, historical_data = Some hd /\ is_new_track hd = true) ->
  let message := tr_get translator (lit "new_track") (lit "NEW TRACK") in
  let text_width := bbox_width (textbbox E Font.schedule_title message) in
  _draw_results_section E translator race_data historical_data
  = Ok [ Line 0 385 800 385 0 2;
         Text ((800 - text_width) / 2) 415 message 0 Font.schedule_title ].
Proof.
  intros [->|[hd [-> Hnew]]]; cbv zeta; unfold _draw_results_section.
  - reflexivity.
  - rewrite Hnew. reflexivity.
Qed.

Lemma new_track_draws_message_only_witness :
  _draw_results_section Sample.env Sample.czech Sample.weekend
    (Some (Sample.last_year true))
  = Ok [ Line 0 385 800 385 0 2;
         Text 355 415 (lit "NOV" ++ [193%N] ++ lit " TRA" ++ [356%N]) 0
           Font.schedule_title ].
Proof.
  apply (new_track_draws_message_only Sample.env Sample.czech Sample.weekend
           (Some (Sample.last_year true))).
  right. exists (Sample.last_year true). split; reflexivity.
Defined.

(** ** C10: at most three rows per results column *)

Lemma enumerate_from_length {A} (i : Z) (l : list A) :
  length (enumerate_from i l) = length l.
Proof. revert i; induction l as [|a l IH]; intros i; simpl; [|rewrite IH]; reflexivity. Qed.

Lemma draw_result_row_not_empty (E : Env) (q : bool) (x time_x y0 i : Z)
    (entry : entry_of q) :
  draw_result_row E x time_x y0 i entry <> [].
Proof. unfold draw_result_row. discriminate. Qed.

(** C10. A results column, qualifying or race, given a list of any length,
    draws its title and then one row for each of the first three entries and
    no other: the rows are those of [results[:3]], there are
    [min(3, len(results))] of them, none is empty, and a list gives the same
    calls as its first three entries alone. *)
Theorem results_column_draws_first_three (E : Env) (x_start visual_top : Z)
    (title : str) (is_qualifying : bool)
    (results : list (entry_of is_qualifying)) :
  exists y_rows_start : Z,
    let title_call :=
      Text x_start
        (visual_top - bb1 (textbbox E Font.results_title TEXT_BASELINE_REF))
        title 0 Font.results_title in
    let rows :=
      map (fun ie => draw_result_row E x_start (x_start + 260) y_rows_start
                       (fst ie) (snd ie))
        (enumerate_from 0 (firstn 3 results)) in
    _draw_results_column E x_start visual_top title is_qualifying results
    = title_call :: concat rows
    /\ length rows = Nat.min 3 (length results)
    /\ Forall (fun row => row <> []) rows
    /\ _draw_results_column E x_start visual_top title is_qualifying results
       = _draw_results_column E x_start visual_top title is_qualifying
           (firstn 3 results).
Proof.
  unfold _draw_results_column.
  match goal with
  | |- context [flat_map (fun ie => draw_result_row _ _ _ ?y _ _) _] =>
      exists y
  end.
  cbv zeta.
  split; [rewrite flat_map_concat_map; reflexivity|].
  split; [rewrite length_map, enumerate_from_length, length_firstn; reflexivity|].
  split.
  - apply Forall_forall. intros row Hrow. apply in_map_iff in Hrow.
    destruct Hrow as [[i entry] [<- _]]. apply draw_result_row_not_empty.
  - rewrite firstn_firstn. reflexivity.
Qed.

(** ** C9: a country that is not in the table *)

(** The three names the fallback chain tests are keys of [COUNTRY_MAP]. *)
Lemma unmapped_is_not_an_alias (country_name : str) :
  dict_get COUNTRY_MAP country_name = None ->
  PyStr.eqb country_name (lit "UAE") = false
  /\ PyStr.eqb country_name (lit "UK") = false
  /\ PyStr.eqb country_name (lit "USA") = false.
Proof.
  intros Hnone. repeat split.
  all: match goal with
       | |- PyStr.eqb _ ?k = false =>
           destruct (str_eqb_spec country_name k) as [Heq|_]; [|reflexivity]
       end.
  all: subst country_name; vm_compute in Hnone; discriminate Hnone.
Qed.

Lemma flag_iso_code_unmapped (E : Env) (country_name : str) :
  dict_get COUNTRY_MAP country_name = None ->
  flag_iso_code E country_name = lower E (slice_to 2 country_name).
Proof.
  intros Hnone. unfold flag_iso_code. rewrite Hnone. simpl get.
  rewrite (lower_empty E). simpl.
  destruct (unmapped_is_not_an_alias country_name Hnone) as [-> [-> ->]].
  reflexivity.
Qed.

(** C9. For a country name that is not a key of [COUNTRY_MAP] the flag code
    is the lower-cased first two characters of the name (a total
    computation).  When no flag file loads for that code, the results
    section returns and still draws the separator, the season year (centred in the
    95-pixel footer on its own) and both result columns; only the flag and
    its border are missing. *)
Theorem unmapped_country_falls_back (E : Env) (translator : Translator)
    (race_data : RaceData) (hd : HistoricalData) :
  let country :=
    get (cd_country (get (rd_circuit race_data) empty_circuit)) [] in
  dict_get COUNTRY_MAP country = None ->
  flag_iso_code E country = lower E (slice_to 2 country)
  /\ (is_new_track hd = false ->
      load_flag E (lower E (slice_to 2 country)) = None ->
      let year := season_text (hd_season hd) in
      let bbox := textbbox E Font.results_year year in
      let visual_top := 385 + (95 - (bb3 bbox - bb1 bbox)) / 2 in
      _draw_results_section E translator race_data (Some hd)
      = Ok (Line 0 385 800 385 0 2
            :: Text ((109 - (bb2 bbox - bb0 bbox)) / 2)
                 (visual_top - bb1 bbox) year 0 Font.results_year
            :: _draw_results_column E 109 visual_top
                 (tr_get translator (lit "qualifying") (lit "QUALIFYING"))
                 true (qualifying_results hd)
            ++ _draw_results_column E 455 visual_top
                 (tr_get translator (lit "race") (lit "RACE"))
                 false (race_results hd))).
Proof.
  intros country Hnone.
  pose proof (flag_iso_code_unmapped E country Hnone) as Hiso.
  split; [exact Hiso|].
  intros Hold Hflag. cbv zeta.
  unfold _draw_results_section. rewrite Hold.
  fold country. unfold _draw_results_header, load_flag_image.
  rewrite Hiso, Hflag.
  destruct (truthy (lower E (slice_to 2 country)));
    cbn [bind]; cbv zeta iota beta.
  all: change (0 >? 0) with false; cbv iota.
  all: change (height - Layout.results_y_start) with 95.
  all: rewrite !Z.add_0_r; reflexivity.
Qed.

Lemma unmapped_country_falls_back_witness :
  flag_iso_code Sample.env (lit "Atlantis") = lit "at"
  /\ _draw_results_section Sample.env Sample.english Sample.untimed_weekend
       (Some (Sample.last_year false))
     = Ok (Line 0 385 800 385 0 2
           :: Text 34 417 (lit "2025") 0 Font.results_year
           :: _draw_results_column Sample.env 109 422 (lit "QUALIFYING") true
                (qualifying_results (Sample.last_year false))
           ++ _draw_results_column Sample.env 455 422 (lit "RACE") false
                (race_results (Sample.last_year false))).
Proof.
  pose proof (unmapped_country_falls_back Sample.env Sample.english
                Sample.untimed_weekend (Sample.last_year false) eq_refl)
    as [Hcode Hdraw].
  split; [exact Hcode|].
  exact (Hdraw eq_refl eq_refl).
Defined.

(** ** The schedule rows *)

Lemma parse_if_str_ok (E : Env) (dt : DtField) :
  parses E dt = true -> exists d, parse_if_str E dt = Ok d.
Proof.
  destruct dt as [|s|d]; simpl; intros Hp.
  - exists None. reflexivity.
  - destruct (fromisoformat E s) as [d|]; [|discriminate].
    exists (Some d). reflexivity.
  - exists (Some d). reflexivity.
Qed.

Lemma draw_schedule_row_ok (E : Env) (translator : Translator) (y : Z)
    (event : Event) :
  parses E (ev_datetime event) = true ->
  exists ops, _draw_schedule_row E translator y event = Ok ops
              /\ length ops = 4%nat.
Proof.
  intros Hp. destruct (parse_if_str_ok E _ Hp) as [d Hd].
  unfold _draw_schedule_row. rewrite Hd. simpl.
  destruct d as [d|]; eexists; split; reflexivity.
Qed.

Lemma rows_in_order_ok (E : Env) (translator : Translator)
    (entries : list Event) (i0 : Z) :
  valid_schedule E entries = true ->
  exists ops, rows_in_order E translator entries i0 = Ok ops
              /\ length ops = (4 * length entries)%nat.
Proof.
  revert i0. induction entries as [|event rest IH]; intros i0 Hvalid.
  - exists []. split; reflexivity.
  - simpl in Hvalid. apply andb_prop in Hvalid as [Hevent Hrest].
    destruct (draw_schedule_row_ok E translator
                (Layout.schedule_start_y + i0 * Layout.schedule_row_height)
                event Hevent) as [ops [Hops Hlen]].
    destruct (IH (i0 + 1) Hrest) as [ops' [Hops' Hlen']].
    exists (ops ++ ops'). cbn [rows_in_order].
    rewrite Hops. cbn [bind]. rewrite Hops'. cbn [bind].
    split; [reflexivity|]. rewrite length_app. simpl length. lia.
Qed.

(** From row number [i0] on, with room for [n] more rows above the guard,
    the loop draws the first [n] remaining entries and nothing else. *)
Lemma draw_schedule_rows_prefix (E : Env) (translator : Translator)
    (schedule : list Event) (i0 : Z) (n : nat) (y : Z) :
  y = Layout.schedule_start_y + i0 * Layout.schedule_row_height ->
  (1 <= n)%nat ->
  y + 28 * (Z.of_nat n - 1) <= 305 < y + 28 * Z.of_nat n ->
  draw_schedule_rows E translator schedule y
  = (ops <- rows_in_order E translator (firstn n schedule) i0 ;;
     Ok (y + 28 * Z.of_nat (length (firstn n schedule)), ops)).
Proof.
  revert i0 n y.
  induction schedule as [|event rest IH]; intros i0 n y Hy Hn Hroom.
  - rewrite firstn_nil. cbn [rows_in_order draw_schedule_rows bind length].
    rewrite Z.mul_0_r, Z.add_0_r. reflexivity.
  - destruct n as [|n]; [lia|].
    cbn [firstn rows_in_order draw_schedule_rows]. rewrite <- Hy.
    destruct (_draw_schedule_row E translator y event) as [ops|e];
      cbn [bind]; [|reflexivity].
    change (Layout.results_y_start - 80) with 305.
    change Layout.schedule_row_height with 28.
    destruct (Z.gtb_spec (y + 28) 305) as [Hstop|Hgo].
    + assert (n = 0%nat) by lia. subst n.
      cbn [firstn rows_in_order bind length].
      rewrite app_nil_r. reflexivity.
    + rewrite (IH (i0 + 1) n (y + 28)).
      * destruct (rows_in_order E translator (firstn n rest) (i0 + 1))
          as [ops'|e]; cbn [bind length]; [|reflexivity].
        do 2 f_equal. lia.
      * rewrite Hy. unfold Layout.schedule_row_height. lia.
      * lia.
      * lia.
Qed.

(** Started at y = 140, the loop draws the first six entries. *)
Lemma schedule_rows_first_six (E : Env) (translator : Translator)
    (schedule : list Event) :
  draw_schedule_rows E translator schedule Layout.schedule_start_y
  = (ops <- rows_in_order E translator (firstn 6 schedule) 0 ;;
     Ok (140 + 28 * Z.of_nat (length (firstn 6 schedule)), ops)).
Proof.
  apply (draw_schedule_rows_prefix E translator schedule 0 6
           Layout.schedule_start_y).
  - reflexivity.
  - lia.
  - unfold Layout.schedule_start_y. lia.
Qed.

Lemma schedule_rows_ok (E : Env) (translator : Translator)
    (schedule : list Event) :
  valid_schedule E (firstn 6 schedule) = true ->
  exists ops,
    draw_schedule_rows E translator schedule Layout.schedule_start_y
    = Ok (140 + 28 * Z.of_nat (length (firstn 6 schedule)), ops)
    /\ length ops = (4 * length (firstn 6 schedule))%nat.
Proof.
  intros Hvalid.
  destruct (rows_in_order_ok E translator (firstn 6 schedule) 0 Hvalid)
    as [ops [Hops Hcount]].
  exists ops. rewrite schedule_rows_first_six, Hops.
  split; [reflexivity|exact Hcount].
Qed.

Lemma valid_schedule_firstn (E : Env) (n : nat) (schedule : list Event) :
  valid_schedule E schedule = true ->
  valid_schedule E (firstn n schedule) = true.
Proof.
  unfold valid_schedule. rewrite !forallb_forall.
  intros Hvalid event Hin. apply Hvalid.
  rewrite <- (firstn_skipn n schedule). apply in_or_app. left. exact Hin.
Qed.

(** ** C5: the schedule is cut at the guard offset *)

(** C5. For every schedule the row loop draws the entries in input order,
    entry number [i] at y = 140 + 28 i, and takes exactly the first six (or
    all of them when there are fewer): each drawn row starts at or above the
    guard 385 - 80 = 305, and when entries are left over the next row would
    start below it.  The entries left over are never looked at, so they
    cannot make the loop fail: when the drawn entries have usable
    timestamps the loop returns, with four text calls per drawn row. *)
Theorem schedule_rows_truncated (E : Env) (translator : Translator)
    (schedule : list Event) :
  let drawn := firstn 6 schedule in
  let after := 140 + 28 * Z.of_nat (length drawn) in
  draw_schedule_rows E translator schedule Layout.schedule_start_y
  = (ops <- rows_in_order E translator drawn 0 ;; Ok (after, ops))
  /\ length drawn = Nat.min 6 (length schedule)
  /\ (forall i, (i < length drawn)%nat ->
        140 + 28 * Z.of_nat i <= Layout.results_y_start - 80)
  /\ ((length drawn < length schedule)%nat ->
        Layout.results_y_start - 80 < after)
  /\ (valid_schedule E drawn = true ->
        exists ops,
          draw_schedule_rows E translator schedule Layout.schedule_start_y
          = Ok (after, ops)
          /\ length ops = (4 * length drawn)%nat).
Proof.
  cbv zeta.
  pose proof (length_firstn 6 schedule) as Hlen.
  change Layout.results_y_start with 385.
  split; [apply schedule_rows_first_six|].
  split; [exact Hlen|].
  split; [intros i Hi; lia|].
  split; [intros Hleft; lia|].
  apply schedule_rows_ok.
Qed.

(** Seven sessions, the seventh with a timestamp that does not parse: six
    rows, 24 calls, and the loop ends at y = 308. *)
Lemma schedule_rows_truncated_witness :
  exists ops,
    draw_schedule_rows Sample.env Sample.english Sample.seven_sessions 140
    = Ok (308, ops)
    /\ length ops = 24%nat.
Proof.
  exact (proj2 (proj2 (proj2 (proj2
           (schedule_rows_truncated Sample.env Sample.english
              Sample.seven_sessions)))) eq_refl).
Defined.

(** ** The countdown box *)

Lemma find_race_dt_first (E : Env) (schedule : list Event) :
  find_race_dt E schedule
  = match first_race_entry E schedule with
    | Some event => parse_if_str E (ev_datetime event)
    | None => Ok None
    end.
Proof.
  induction schedule as [|event rest IH]; [reflexivity|].
  unfold first_race_entry in *. simpl.
  destruct (PyStr.eqb (lower E (get (ev_name event) [])) (lit "race"));
    [reflexivity|exact IH].
Qed.

Lemma parse_if_str_timestamp (E : Env) (event : Event) (dt : datetime) :
  timestamp E event = Some dt ->
  parse_if_str E (ev_datetime event) = Ok (Some dt).
Proof.
  unfold timestamp, parse_if_str.
  destruct (ev_datetime event) as [|s|d]; [discriminate| |congruence].
  intros ->. reflexivity.
Qed.

Lemma first_race_entry_in (E : Env) (schedule : list Event) (event : Event) :
  first_race_entry E schedule = Some event -> In event schedule.
Proof. intros Hfind. apply find_some in Hfind. tauto. Qed.

Lemma find_race_dt_ok (E : Env) (schedule : list Event) :
  valid_schedule E schedule = true ->
  exists d, find_race_dt E schedule = Ok d.
Proof.
  intros Hvalid. rewrite find_race_dt_first.
  destruct (first_race_entry E schedule) as [event|] eqn:Hfirst.
  - apply parse_if_str_ok.
    unfold valid_schedule in Hvalid. rewrite forallb_forall in Hvalid.
    apply Hvalid. exact (first_race_entry_in E schedule event Hfirst).
  - exists None. reflexivity.
Qed.

(** A [timedelta] keeps the whole span. *)
Lemma total_us_of_us (us : Z) : total_us (timedelta_of_us us) = us.
Proof.
  unfold total_us, timedelta_of_us. simpl.
  pose proof (Z.div_mod us 86400000000 ltac:(lia)) as Hday.
  pose proof (Z.div_mod (us mod 86400000000) 1000000 ltac:(lia)) as Hsec.
  assert (Hmicro : (us mod 86400000000) mod 1000000 = us mod 1000000).
  { apply Z.mod_mod_divide. exists 86400. reflexivity. }
  rewrite Hmicro in Hsec. lia.
Qed.

(** [delta.seconds // 3600] counts the hours left in the last day. *)
Lemma hours_of_us (us : Z) :
  seconds (timedelta_of_us us) / 3600
  = (us mod 86400000000) / 3600000000.
Proof.
  unfold timedelta_of_us. simpl.
  rewrite Z.div_div by lia. reflexivity.
Qed.

(** What [_draw_countdown_box] does once the search has ended. *)
Lemma countdown_box_not_found (E : Env) (translator : Translator)
    (race_data : RaceData) (schedule_bottom : Z) :
  find_race_dt E (get (rd_schedule race_data) []) = Ok None ->
  _draw_countdown_box E translator race_data schedule_bottom
  = Ok (schedule_bottom, []).
Proof. intros Hfind. unfold _draw_countdown_box. rewrite Hfind. reflexivity. Qed.

Lemma countdown_box_past (E : Env) (translator : Translator)
    (race_data : RaceData) (schedule_bottom : Z) (dt : datetime) :
  find_race_dt E (get (rd_schedule race_data) []) = Ok (Some dt) ->
  remaining_us E dt <= 0 ->
  _draw_countdown_box E translator race_data schedule_bottom
  = Ok (schedule_bottom, []).
Proof.
  intros Hfind Hpast. unfold _draw_countdown_box. rewrite Hfind.
  cbn [bind]. rewrite total_us_of_us.
  fold (remaining_us E dt).
  destruct (Z.leb_spec (remaining_us E dt) 0); [reflexivity|lia].
Qed.

Lemma countdown_box_ahead (E : Env) (translator : Translator)
    (race_data : RaceData) (schedule_bottom : Z) (dt : datetime) :
  find_race_dt E (get (rd_schedule race_data) []) = Ok (Some dt) ->
  0 < remaining_us E dt ->
  let us := remaining_us E dt in
  let top := countdown_box_top E schedule_bottom in
  let bottom := top + countdown_box_height E in
  let text :=
    countdown_text translator (us / 86400000000)
      ((us mod 86400000000) / 3600000000) in
  let text_width := bbox_width (textbbox E Font.schedule_row_bold text) in
  _draw_countdown_box E translator race_data schedule_bottom
  = Ok (bottom,
        [ Rectangle 510 top 795 bottom (Some 0) (Some 0) 1;
          Text (510 + (285 - text_width) / 2)
            (top + 6
             - bb1 (textbbox E Font.schedule_row_bold TEXT_BASELINE_REF))
            text 1 Font.schedule_row_bold ]).
Proof.
  intros Hfind Hahead. cbv zeta.
  unfold _draw_countdown_box. rewrite Hfind. cbn [bind].
  rewrite total_us_of_us. fold (remaining_us E dt).
  destruct (Z.leb_spec (remaining_us E dt) 0); [lia|].
  rewrite hours_of_us. fold (remaining_us E dt).
  reflexivity.
Qed.

(** With usable timestamps the countdown step returns: the incoming Y and
    no call, or the bottom edge of the box it draws. *)
Lemma countdown_box_ok (E : Env) (translator : Translator)
    (race_data : RaceData) (schedule_bottom : Z) :
  valid_race_data E race_data = true ->
  exists y box_ops,
    _draw_countdown_box E translator race_data schedule_bottom
    = Ok (y, box_ops)
    /\ ((box_ops = [] /\ y = schedule_bottom)
        \/ (box_ops <> []
            /\ y = countdown_box_top E schedule_bottom
                   + countdown_box_height E)).
Proof.
  intros Hvalid.
  destruct (find_race_dt_ok E _ Hvalid) as [[dt|] Hfind].
  - destruct (Z.lt_ge_cases 0 (remaining_us E dt)) as [Hahead|Hpast].
    + eexists _, _. split.
      * exact (countdown_box_ahead E translator race_data schedule_bottom dt
                 Hfind Hahead).
      * right. split; [discriminate|reflexivity].
    + eexists _, _. split.
      * exact (countdown_box_past E translator race_data schedule_bottom dt
                 Hfind Hpast).
      * left. split; reflexivity.
  - eexists _, _. split.
    + exact (countdown_box_not_found E translator race_data schedule_bottom
               Hfind).
    + left. split; reflexivity.
Qed.

(** With usable timestamps the schedule section returns. *)
Lemma schedule_section_ok (E : Env) (translator : Translator)
    (race_data : RaceData) :
  valid_race_data E race_data = true ->
  exists y ops, _draw_schedule_section E translator race_data = Ok (y, ops).
Proof.
  intros Hvalid.
  destruct (schedule_rows_ok E translator (get (rd_schedule race_data) [])
              (valid_schedule_firstn E 6 _ Hvalid)) as [row_ops [Hrows _]].
  destruct (countdown_box_ok E translator race_data
              (140 + 28 * Z.of_nat
                 (length (firstn 6 (get (rd_schedule race_data) []))) + 5)
              Hvalid) as [y [box_ops [Hbox _]]].
  unfold _draw_schedule_section. rewrite Hrows. cbn [bind]. rewrite Hbox.
  eexists _, _. reflexivity.
Qed.

(** ** C6: when the countdown box is drawn *)

(** The schedule of the test fixture has a "Race" entry without timestamp:
    there is a race entry, no remaining time that could be zero or negative,
    and yet no box. *)
Lemma untimed_race_has_no_box :
  ~ omitted_exactly_when_no_race_or_past Sample.env Sample.english
      Sample.untimed_weekend 229.
Proof.
  unfold omitted_exactly_when_no_race_or_past. intros [Hclaim _].
  destruct (Hclaim eq_refl) as [Hnone|[event [dt [Hfirst [Hstamp _]]]]].
  - vm_compute in Hnone. discriminate Hnone.
  - vm_compute in Hfirst. injection Hfirst as <-.
    vm_compute in Hstamp. discriminate Hstamp.
Qed.

(** C6, as the code has it.  The box is omitted, and the incoming Y is
    returned unchanged, in three cases: no entry is named "Race" up to case;
    the first such entry carries no timestamp; its timestamp is not after
    now.  When the first such entry has a timestamp after now, the box is
    drawn: a black rectangle across the schedule column and, in white, the
    translated text with the whole days and the whole hours of the last
    day that remain. *)
Theorem countdown_box_cases (E : Env) (translator : Translator)
    (race_data : RaceData) (schedule_bottom : Z) :
  let schedule := get (rd_schedule race_data) [] in
  let box := _draw_countdown_box E translator race_data schedule_bottom in
  (first_race_entry E schedule = None -> box = Ok (schedule_bottom, []))
  /\ (forall event,
        first_race_entry E schedule = Some event ->
        ev_datetime event = DtNone ->
        box = Ok (schedule_bottom, []))
  /\ (forall event dt,
        first_race_entry E schedule = Some event ->
        timestamp E event = Some dt ->
        remaining_us E dt <= 0 ->
        box = Ok (schedule_bottom, []))
  /\ (forall event dt,
        first_race_entry E schedule = Some event ->
        timestamp E event = Some dt ->
        0 < remaining_us E dt ->
        let us := remaining_us E dt in
        let top := countdown_box_top E schedule_bottom in
        let bottom := top + countdown_box_height E in
        let text :=
          countdown_text translator (us / 86400000000)
            ((us mod 86400000000) / 3600000000) in
        let text_width :=
          bbox_width (textbbox E Font.schedule_row_bold text) in
        box
        = Ok (bottom,
              [ Rectangle 510 top 795 bottom (Some 0) (Some 0) 1;
                Text (510 + (285 - text_width) / 2)
                  (top + 6
                   - bb1 (textbbox E Font.schedule_row_bold
                            TEXT_BASELINE_REF))
                  text 1 Font.schedule_row_bold ])).
Proof.
  cbv zeta.
  pose proof (find_race_dt_first E (get (rd_schedule race_data) [])) as Hfind.
  repeat split.
  - intros Hnone. rewrite Hnone in Hfind.
    exact (countdown_box_not_found E translator race_data schedule_bottom Hfind).
  - intros event Hfirst Hdt. rewrite Hfirst, Hdt in Hfind.
    exact (countdown_box_not_found E translator race_data schedule_bottom Hfind).
  - intros event dt Hfirst Hstamp Hpast.
    rewrite Hfirst, (parse_if_str_timestamp E event dt Hstamp) in Hfind.
    exact (countdown_box_past E translator race_data schedule_bottom dt
             Hfind Hpast).
  - intros event dt Hfirst Hstamp Hahead.
    rewrite Hfirst, (parse_if_str_timestamp E event dt Hstamp) in Hfind.
    exact (countdown_box_ahead E translator race_data schedule_bottom dt
             Hfind Hahead).
Qed.

(** Three days, five hours and a half before the race: the box shows
    "IN 3 days 5 hours". *)
Lemma countdown_box_cases_witness :
  _draw_countdown_box Sample.env Sample.english Sample.weekend 173
  = Ok (268,
        [ Rectangle 510 232 795 268 (Some 0) (Some 0) 1;
          Text 567 237 (lit "IN 3 days 5 hours") 1 Font.schedule_row_bold ]).
Proof.
  refine (proj2 (proj2 (proj2
            (countdown_box_cases Sample.env Sample.english Sample.weekend 173)))
            (Sample.session "Race" Sample.race_iso "Sun 15:00")
            Sample.race_start _ _ _).
  - reflexivity.
  - reflexivity.
  - vm_compute. reflexivity.
Defined.

(** ** C7: the height of the box does not depend on the language *)

(** C7. For one font (one [textbbox]) and the same schedule, clock and
    incoming Y, any two translation tables give the same box: either none
    under both, or one rectangle under each, whose height is that of the
    reference string [TEXT_BASELINE_REF] plus 12 pixels of padding.  The
    countdown text itself never enters the height. *)
Theorem countdown_box_height_ignores_language (E : Env)
    (translator1 translator2 : Translator) (race_data : RaceData)
    (schedule_bottom : Z) :
  let box1 := _draw_countdown_box E translator1 race_data schedule_bottom in
  let box2 := _draw_countdown_box E translator2 race_data schedule_bottom in
  box_heights box1 = box_heights box2
  /\ (box_heights box1 = [] \/ box_heights box1 = [ countdown_box_height E ]).
Proof.
  cbv zeta.
  destruct (find_race_dt E (get (rd_schedule race_data) []))
    as [[dt|]|e] eqn:Hfind.
  - destruct (Z.lt_ge_cases 0 (remaining_us E dt)) as [Hahead|Hpast].
    + rewrite (countdown_box_ahead E translator1 race_data schedule_bottom dt
                 Hfind Hahead).
      rewrite (countdown_box_ahead E translator2 race_data schedule_bottom dt
                 Hfind Hahead).
      cbn [box_heights flat_map app].
      split; [reflexivity|right]. f_equal. lia.
    + rewrite !(countdown_box_past E _ race_data schedule_bottom dt Hfind Hpast).
      split; [reflexivity|left; reflexivity].
  - rewrite !(countdown_box_not_found E _ race_data schedule_bottom Hfind).
    split; [reflexivity|left; reflexivity].
  - unfold _draw_countdown_box. rewrite Hfind.
    split; [reflexivity|left; reflexivity].
Qed.

(** "IN 3 days 5 hours" and "ZA 3 dní 5 hodin": the second text reaches
    higher, both boxes are 36 pixels high. *)
Lemma countdown_box_height_ignores_language_witness :
  box_heights (_draw_countdown_box Sample.env Sample.english Sample.weekend 173)
  = [ 36 ]
  /\ box_heights (_draw_countdown_box Sample.env Sample.czech Sample.weekend 173)
     = [ 36 ]
  /\ bb1 (Sample.metrics Font.schedule_row_bold
            (countdown_text Sample.english 3 5))
     <> bb1 (Sample.metrics Font.schedule_row_bold
               (countdown_text Sample.czech 3 5)).
Proof.
  pose proof (proj1 (countdown_box_height_ignores_language Sample.env
                       Sample.english Sample.czech Sample.weekend 173))
    as Hsame.
  split; [reflexivity|].
  split; [rewrite <- Hsame; reflexivity|].
  vm_compute. discriminate.
Defined.

(** ** C4: what the schedule section returns *)

(** C4. The code at the failing input: for a weekend whose only session is
    a race 3 days and 5 hours ahead the section returns 268, the bottom edge
    of the countdown box, while its only row ends at 168; so it does not
    return the bottom of the last row, which its docstring and the claim
    say it does. *)
Lemma section_returns_box_bottom_not_row_bottom :
  ~ returns_bottom_of_last_row Sample.env Sample.english Sample.weekend.
Proof.
  unfold returns_bottom_of_last_row. intros Hclaim.
  specialize (Hclaim 268 _ 168 _ eq_refl eq_refl). lia.
Qed.

(** What the section returns on every input.  It is what the countdown
    step returns when it is started 5 pixels below the Y the row loop ended
    with (140 plus 28 for each drawn row): that Y plus 5 when no box is
    drawn, the bottom edge of the box when one is. *)
Theorem schedule_section_returns_countdown_bottom (E : Env)
    (translator : Translator) (race_data : RaceData) :
  valid_race_data E race_data = true ->
  let schedule := get (rd_schedule race_data) [] in
  let row_y := 140 + 28 * Z.of_nat (length (firstn 6 schedule)) in
  exists (y : Z) (row_ops box_ops : list DrawOp),
    draw_schedule_rows E translator schedule Layout.schedule_start_y
    = Ok (row_y, row_ops)
    /\ _draw_countdown_box E translator race_data (row_y + 5) = Ok (y, box_ops)
    /\ _draw_schedule_section E translator race_data
       = Ok (y,
             Text 510 100
               (tr_get translator (lit "weekend_schedule")
                  (lit "WEEKEND SCHEDULE"))
               0 Font.schedule_title
             :: row_ops ++ box_ops)
    /\ ((box_ops = [] /\ y = row_y + 5)
        \/ (box_ops <> []
            /\ y = countdown_box_top E (row_y + 5) + countdown_box_height E)).
Proof.
  intros Hvalid. cbv zeta.
  set (schedule := get (rd_schedule race_data) []).
  set (row_y := 140 + 28 * Z.of_nat (length (firstn 6 schedule))).
  destruct (schedule_rows_ok E translator schedule
              (valid_schedule_firstn E 6 schedule Hvalid))
    as [row_ops [Hrows _]].
  fold row_y in Hrows.
  destruct (countdown_box_ok E translator race_data (row_y + 5) Hvalid)
    as [y [box_ops [Hbox Hcases]]].
  exists y, row_ops, box_ops.
  split; [exact Hrows|]. split; [exact Hbox|]. split; [|exact Hcases].
  unfold _draw_schedule_section. fold schedule.
  rewrite Hrows. cbn [bind]. rewrite Hbox. reflexivity.
Qed.

Lemma schedule_section_returns_countdown_bottom_witness :
  exists (y : Z) (row_ops box_ops : list DrawOp),
    draw_schedule_rows Sample.env Sample.english
      (get (rd_schedule Sample.weekend) []) 140
    = Ok (168, row_ops)
    /\ _draw_countdown_box Sample.env Sample.english Sample.weekend 173
       = Ok (y, box_ops)
    /\ _draw_schedule_section Sample.env Sample.english Sample.weekend
       = Ok (y,
             Text 510 100 (lit "WEEKEND SCHEDULE") 0 Font.schedule_title
             :: row_ops ++ box_ops)
    /\ ((box_ops = [] /\ y = 173)
        \/ (box_ops <> []
            /\ y = countdown_box_top Sample.env 173
                   + countdown_box_height Sample.env)).
Proof.
  exact (schedule_section_returns_countdown_bottom Sample.env Sample.english
           Sample.weekend eq_refl).
Defined.

(** ** The encoded bitmap *)

Lemma packed_bits_range (f : Z -> Z) (bits : list Z) (acc : Z) :
  (forall b, 0 <= f b <= 1) ->
  0 <= acc ->
  0 <= fold_left (fun a b => 2 * a + f b) bits acc
    < (acc + 1) * 2 ^ Z.of_nat (length bits).
Proof.
  intros Hbit. revert acc.
  induction bits as [|b bits IH]; intros acc Hacc.
  - simpl. lia.
  - cbn [fold_left length]. rewrite Nat2Z.inj_succ, Z.pow_succ_r by lia.
    specialize (Hbit b). specialize (IH (2 * acc + f b) ltac:(lia)).
    nia.
Qed.

Lemma packed_byte_range (row : Z -> bool) (w k : Z) :
  0 <= packed_byte row w k < 256.
Proof.
  unfold packed_byte.
  pose proof (packed_bits_range
                (fun b => if (8 * k + b <? w) && row (8 * k + b) then 1 else 0)
                (zrange 8) 0) as Hrange.
  cbv beta in Hrange. change (2 ^ Z.of_nat (length (zrange 8))) with 256 in Hrange.
  apply Hrange; [|lia].
  intros b. destruct ((8 * k + b <? w) && row (8 * k + b)); lia.
Qed.

Lemma zrange_length (n : Z) : length (zrange n) = Z.to_nat n.
Proof. unfold zrange. rewrite length_map, length_seq. reflexivity. Qed.

Lemma bmp_rows_length (E : Env) (image : Image) :
  length (bmp_rows E image)
  = (Z.to_nat (im_height image) * Z.to_nat (bmp_stride (im_width image)))%nat.
Proof.
  unfold bmp_rows.
  rewrite (flat_map_constant_length
             (c := Z.to_nat (bmp_stride (im_width image)))).
  - rewrite length_rev, zrange_length. reflexivity.
  - intros y _. rewrite length_map, zrange_length. reflexivity.
Qed.

Lemma bmp_rows_are_bytes (E : Env) (image : Image) :
  forallb (fun b => (0 <=? b) && (b <? 256)) (bmp_rows E image) = true.
Proof.
  apply forallb_forall. intros b Hin. unfold bmp_rows in Hin.
  apply in_flat_map in Hin as [y [_ Hin]].
  apply in_map_iff in Hin as [k [<- _]].
  pose proof (packed_byte_range (fun x => getpixel E image x y)
                (im_width image) k).
  apply andb_true_intro. split; [apply Z.leb_le|apply Z.ltb_lt]; lia.
Qed.

Lemma sub_bytes_app (a b : list Z) (off len : nat) :
  (off + len <= length a)%nat ->
  sub_bytes (a ++ b) off len = sub_bytes a off len.
Proof.
  intros Hfit. unfold sub_bytes.
  rewrite skipn_app, firstn_app, length_skipn.
  replace (len - (length a - off))%nat with 0%nat by lia.
  rewrite firstn_O, app_nil_r. reflexivity.
Qed.

(** A canvas of 800 by 480 encodes to a file that is not empty and reads
    back as an 800 by 480 bitmap of depth 1. *)
Lemma canvas_encodes_to_bitmap (E : Env) (image : Image) :
  im_width image = 800 ->
  im_height image = 480 ->
  _to_bmp E image <> []
  /\ Z.of_nat (length (_to_bmp E image)) = 48062
  /\ bmp_decode (_to_bmp E image)
     = Some {| bmp_width := 800; bmp_height := 480; bmp_bits := 1 |}.
Proof.
  intros Hw Hh. unfold _to_bmp, save_bmp.
  pose proof (bmp_rows_length E image) as Hlen.
  pose proof (bmp_rows_are_bytes E image) as Hbytes.
  rewrite Hw, Hh in *.
  change (Z.to_nat 480 * Z.to_nat (bmp_stride 800))%nat
    with (Z.to_nat 48000) in Hlen.
  set (rows := bmp_rows E image) in *.
  unfold bmp_header.
  destruct (palette_reserved_zero E);
    (match goal with
     | |- (?h ++ _ <> []) /\ _ => set (head := h)
     end;
     assert (Hhead : length head = 62%nat) by reflexivity;
     split; [discriminate|];
     split;
     [ rewrite length_app, Hlen, Hhead; lia
     | unfold bmp_decode;
       rewrite !sub_bytes_app by (rewrite Hhead; simpl; lia);
       rewrite forallb_app, Hbytes, length_app, Hlen, Hhead;
       reflexivity ]).
Qed.


(** ** C8: the error page *)

(** C8. For every message, the empty one and those longer than 60
    characters included, [render_error] returns (it has no failing step) a
    file of 48062 bytes that reads back as an 800 by 480 bitmap of depth 1.
    It is the encoding of a white canvas with two text calls, the translated
    label followed by ":" and the first 60 characters of the message; the
    characters after the 60th have no influence on the result. *)
Theorem render_error_is_bitmap_of_first_60 (E : Env)
    (translator : Translator) (error_message : str) :
  let shown := slice_to 60 error_message in
  let calls :=
    [ Text 15 15 (tr_get translator (lit "error") (lit "Error") ++ lit ":") 0
        Font.schedule_title;
      Text 15 65 shown 0 Font.schedule_row ] in
  render_error E translator error_message
  = _to_bmp E {| im_width := 800; im_height := 480; im_color := 1;
                im_calls := calls |}
  /\ (length shown <= 60)%nat
  /\ render_error E translator error_message
     = render_error E translator shown
  /\ render_error E translator error_message <> []
  /\ Z.of_nat (length (render_error E translator error_message)) = 48062
  /\ bmp_decode (render_error E translator error_message)
     = Some {| bmp_width := 800; bmp_height := 480; bmp_bits := 1 |}.
Proof.
  cbv zeta.
  split; [reflexivity|].
  split; [apply slice_to_length_le|].
  split.
  - unfold render_error, error_calls, slice_to.
    rewrite firstn_firstn. reflexivity.
  - unfold render_error.
    apply canvas_encodes_to_bitmap; reflexivity.
Qed.

(** ** C1: the calendar *)

Lemma last_item_ok (l : list str) :
  l <> [] -> exists x, last_item l = Ok x.
Proof.
  intros Hne. unfold last_item.
  destruct (rev l) as [|x rest] eqn:Hrev.
  - apply (f_equal (@rev str)) in Hrev. rewrite rev_involutive in Hrev.
    contradiction.
  - exists x. reflexivity.
Qed.

Lemma circuit_stat_lines_ok (translator : Translator)
    (circuit_data : CircuitStats) :
  stats_well_formed circuit_data = true ->
  exists stats, circuit_stat_lines translator circuit_data = Ok stats.
Proof.
  unfold stats_well_formed, circuit_stat_lines. intros Hwf.
  destruct (truthy_opt (fastest_lap_time circuit_data)); cbn [andb] in Hwf;
    [|eexists; reflexivity].
  destruct (truthy_opt (fastest_lap_driver circuit_data));
    [|eexists; reflexivity].
  destruct (last_item_ok (split (get (fastest_lap_driver circuit_data) [])))
    as [last_name Hlast].
  { destruct (split (get (fastest_lap_driver circuit_data) []));
      [discriminate Hwf|discriminate]. }
  rewrite Hlast. eexists. reflexivity.
Qed.

Lemma draw_circuit_stats_ok (E : Env) (translator : Translator)
    (race_data : RaceData) (schedule_bottom : Z) :
  circuit_table_ok E race_data = true ->
  exists ops,
    _draw_circuit_stats E translator race_data schedule_bottom = Ok ops.
Proof.
  unfold circuit_table_ok, _draw_circuit_stats. intros Hok.
  destruct (CIRCUITS_DATA E _) as [circuit_data|]; [|eexists; reflexivity].
  destruct (circuit_stat_lines_ok translator circuit_data Hok)
    as [stats Hstats].
  rewrite Hstats. cbn [bind].
  destruct stats; eexists; reflexivity.
Qed.

Lemma open_first_match_returns (E : Env) (directory : TrackDir)
    (patterns : list str) :
  (forall pattern, In pattern patterns ->
     glob E directory pattern <> None) ->
  exists found, open_first_match E directory patterns = Ok found.
Proof.
  induction patterns as [|pattern rest IH]; intros Haccepts.
  - eexists. reflexivity.
  - cbn [open_first_match].
    pose proof (Haccepts pattern (or_introl eq_refl)) as Hpattern.
    assert (Hrest : exists found, open_first_match E directory rest = Ok found).
    { apply IH. intros other Hin. apply Haccepts. right. exact Hin. }
    destruct (glob E directory pattern) as [[|path matches]|];
      [exact Hrest| |contradiction].
    destruct (Image_open E directory path);
      [eexists; reflexivity|exact Hrest].
Qed.

Lemma open_first_match_raises (E : Env) (directory : TrackDir)
    (patterns : list str) (e : exn) :
  open_first_match E directory patterns = Raise e -> e = ValueError.
Proof.
  induction patterns as [|pattern rest IH]; cbn [open_first_match];
    [discriminate|].
  destruct (glob E directory pattern) as [[|path matches]|];
    [exact IH| |congruence].
  destruct (Image_open E directory path); [discriminate|exact IH].
Qed.

(** The only exception of the track search is the [ValueError] of [glob]. *)
Lemma load_track_image_raises (E : Env) (race_data : RaceData) (e : exn) :
  _load_track_image E race_data = Raise e -> e = ValueError.
Proof.
  unfold _load_track_image.
  destruct (negb (truthy _)); [discriminate|].
  destruct (open_first_match E TRACKS_PROCESSED_DIR _) as [[im|]|e1] eqn:H1;
    cbn [bind]; [discriminate| |].
  2: { intros [= <-]. exact (open_first_match_raises _ _ _ _ H1). }
  destruct (open_first_match E TRACKS_DIR _) as [[im|]|e2] eqn:H2;
    cbn [bind]; [discriminate| |].
  2: { intros [= <-]. exact (open_first_match_raises _ _ _ _ H2). }
  destruct (glob E TRACKS_PROCESSED_DIR (lit "*.bmp")) as [[|path matches]|];
    congruence.
Qed.

Lemma glob_accepts_in (E : Env) (race_data : RaceData)
    (directory : TrackDir) (pattern : str) :
  glob_accepts E race_data = true ->
  In (directory, pattern) (track_patterns E race_data) ->
  glob E directory pattern <> None.
Proof.
  unfold glob_accepts. rewrite forallb_forall. intros Hall Hin.
  specialize (Hall _ Hin). cbn beta iota in Hall.
  destruct (glob E directory pattern); [discriminate|discriminate Hall].
Qed.

(** When [glob] accepts the patterns of the race, the search returns. *)
Lemma load_track_image_returns (E : Env) (race_data : RaceData) :
  glob_accepts E race_data = true ->
  exists found, _load_track_image E race_data = Ok found.
Proof.
  intros Haccepts.
  pose proof (glob_accepts_in E race_data) as Hin.
  specialize (fun d p => Hin d p Haccepts).
  unfold track_patterns in Hin. unfold _load_track_image.
  cbv zeta in Hin |- *.
  destruct (negb (truthy _)); [eexists; reflexivity|].
  match goal with
  | |- context [bind (open_first_match E ?d ?ps) _] =>
      destruct (open_first_match_returns E d ps) as [found1 H1]
  end.
  { intros pattern Hp. apply Hin. apply in_or_app. left.
    apply in_map. exact Hp. }
  rewrite H1. cbn [bind].
  destruct found1 as [im|]; [eexists; reflexivity|].
  match goal with
  | |- context [bind (open_first_match E ?d ?ps) _] =>
      destruct (open_first_match_returns E d ps) as [found2 H2]
  end.
  { intros pattern Hp. apply Hin. apply in_or_app. right.
    apply in_or_app. left. apply in_map. exact Hp. }
  rewrite H2. cbn [bind].
  destruct found2 as [im|]; [eexists; reflexivity|].
  assert (Hlast : glob E TRACKS_PROCESSED_DIR (lit "*.bmp") <> None).
  { apply Hin. apply in_or_app. right. apply in_or_app. right.
    left. reflexivity. }
  destruct (glob E TRACKS_PROCESSED_DIR (lit "*.bmp")) as [[|path matches]|];
    [eexists; reflexivity|eexists; reflexivity|contradiction].
Qed.

Lemma resize_cases (E : Env) (im : Picture) (size : Z * Z) :
  if (1 <=? fst size) && (1 <=? snd size)
  then resize E im size
       = Ok {| pic_mode_1 := pic_mode_1 im; pic_width := fst size;
               pic_height := snd size; pic_pixels := resample E im size |}
  else resize E im size = Raise ValueError.
Proof.
  unfold resize.
  destruct (Z.leb_spec 1 (fst size)), (Z.leb_spec 1 (snd size)),
    (Z.ltb_spec (fst size) 1), (Z.ltb_spec (snd size) 1);
    cbn [andb orb]; try reflexivity; lia.
Qed.

(** What the track section does, by what the search finds. *)
Lemma draw_track_section_cases (E : Env) (race_data : RaceData) :
  let label_text := track_label_text E race_data in
  let box := textbbox E Font.circuit_name label_text in
  let label := Text 15 (382 - bb3 box) label_text 0 Font.circuit_name in
  match _load_track_image E race_data with
  | Raise e => _draw_track_section E race_data = Raise ValueError
  | Ok None =>
      _draw_track_section E race_data
      = Ok [ RoundedRectangle 23 112 477 (382 - bb3 box + bb1 box - 23)
               20 0 3;
             label ]
  | Ok (Some found) =>
      let source := if pic_mode_1 found then found else autocrop E found in
      let new_size :=
        fit_size E 494 (track_area_height E race_data) (pic_width source)
          (pic_height source) in
      if size_eqb new_size (pic_width source, pic_height source)
         || ((1 <=? fst new_size) && (1 <=? snd new_size))
      then exists im,
             _draw_track_section E race_data = Ok [ Paste im 3 92; label ]
             /\ pic_mode_1 im = true
             /\ (pic_width im, pic_height im) = new_size
             /\ (pic_mode_1 found = true ->
                 size_eqb new_size (pic_width found, pic_height found) = true ->
                 im = found)
      else _draw_track_section E race_data = Raise ValueError
  end.
Proof.
  cbv zeta. unfold _draw_track_section, track_area_height, track_label_text.
  cbv zeta.
  set (label_text := if truthy _ then _ else _).
  set (box := textbbox E Font.circuit_name label_text).
  assert (Hy : Layout.results_y_start - 3 - bb3 box = 382 - bb3 box)
    by (unfold Layout.results_y_start; lia).
  rewrite Hy. unfold Layout.padding, Layout.left_column_width.
  change (500 - 3 * 2) with 494.
  assert (Hsize : forall (size : Z * Z) w h,
            size_eqb size (w, h) = true -> (w, h) = size).
  { intros [sw sh] w h Hsame. unfold size_eqb in Hsame.
    cbn [fst snd] in Hsame. apply andb_true_iff in Hsame as [Hw Hh].
    apply Z.eqb_eq in Hw, Hh. congruence. }
  destruct (_load_track_image E race_data) as [[found|]|e] eqn:Hload;
    cbn [bind].
  - destruct (pic_mode_1 found) eqn:Hmode; cbn [negb].
    + set (new_size := fit_size E 494 _ (pic_width found) (pic_height found)).
      destruct (size_eqb new_size (pic_width found, pic_height found))
        eqn:Hsame; cbn [negb bind orb].
      * exists found. split; [reflexivity|]. split; [exact Hmode|].
        split; [exact (Hsize _ _ _ Hsame)|reflexivity].
      * pose proof (resize_cases E found new_size) as Hresize.
        destruct ((1 <=? fst new_size) && (1 <=? snd new_size));
          rewrite Hresize; cbn [bind]; [|reflexivity].
        eexists. split; [reflexivity|].
        cbn [pic_mode_1 pic_width pic_height].
        split; [exact Hmode|].
        split; [symmetry; apply surjective_pairing|discriminate].
    + set (source := autocrop E found).
      set (new_size :=
             fit_size E 494 _ (pic_width source) (pic_height source)).
      destruct (size_eqb new_size (pic_width source, pic_height source))
        eqn:Hsame; cbn [negb bind orb].
      * eexists. split; [reflexivity|].
        cbn [to_1bit pic_mode_1 pic_width pic_height].
        split; [reflexivity|].
        split; [exact (Hsize _ _ _ Hsame)|discriminate].
      * pose proof (resize_cases E source new_size) as Hresize.
        destruct ((1 <=? fst new_size) && (1 <=? snd new_size));
          rewrite Hresize; cbn [bind]; [|reflexivity].
        eexists. split; [reflexivity|].
        cbn [to_1bit pic_mode_1 pic_width pic_height].
        split; [reflexivity|].
        split; [symmetry; apply surjective_pairing|discriminate].
  - unfold _draw_track_placeholder. cbn [app].
    replace (92 + (382 - bb3 box + bb1 box - 3 - 92) - 20)
      with (382 - bb3 box + bb1 box - 23) by lia.
    reflexivity.
  - rewrite (load_track_image_raises E race_data e Hload). reflexivity.
Qed.

Lemma draw_track_section_returns (E : Env) (race_data : RaceData) :
  track_section_returns E race_data = true ->
  exists ops, _draw_track_section E race_data = Ok ops.
Proof.
  unfold track_section_returns.
  destruct (_draw_track_section E race_data) as [ops|e]; [|discriminate].
  intros _. exists ops. reflexivity.
Qed.

Lemma draw_track_section_raises (E : Env) (race_data : RaceData) :
  track_section_returns E race_data = false ->
  _draw_track_section E race_data = Raise ValueError.
Proof.
  unfold track_section_returns.
  pose proof (draw_track_section_cases E race_data) as Hcases.
  cbv zeta in Hcases.
  destruct (_load_track_image E race_data) as [[found|]|e].
  - destruct (_ || _); [|intros _; exact Hcases].
    destruct Hcases as [im [-> _]]. discriminate.
  - rewrite Hcases. discriminate.
  - intros _. exact Hcases.
Qed.

(** The track section returns exactly when the search does and the image
    fits. *)
Lemma track_section_returns_iff (E : Env) (race_data : RaceData) :
  track_section_returns E race_data
  = track_lookup_returns E race_data && track_image_fits E race_data.
Proof.
  unfold track_section_returns, track_lookup_returns, track_image_fits.
  pose proof (draw_track_section_cases E race_data) as Hcases.
  cbv zeta in Hcases |- *.
  destruct (_load_track_image E race_data) as [[found|]|e].
  - destruct (_ || _); [|rewrite Hcases; reflexivity].
    destruct Hcases as [im [-> _]]. reflexivity.
  - rewrite Hcases. reflexivity.
  - rewrite Hcases. reflexivity.
Qed.

Lemma glob_accepts_lookup (E : Env) (race_data : RaceData) :
  glob_accepts E race_data = true ->
  track_lookup_returns E race_data = true.
Proof.
  intros Haccepts. unfold track_lookup_returns.
  destruct (load_track_image_returns E race_data Haccepts) as [found ->].
  reflexivity.
Qed.

Lemma track_section_returns_when (E : Env) (race_data : RaceData) :
  glob_accepts E race_data = true ->
  track_image_fits E race_data = true ->
  track_section_returns E race_data = true.
Proof.
  intros Hglob Hfits.
  rewrite track_section_returns_iff, (glob_accepts_lookup E _ Hglob), Hfits.
  reflexivity.
Qed.

(** The results header returns exactly when the flag fits, and its only
    exception is the [ValueError] of [resize]. *)
Lemma draw_results_header_cases (E : Env) (y_start : Z)
    (season country_name : str) :
  if flag_fits E country_name
  then exists visual_top ops,
         _draw_results_header E y_start season country_name
         = Ok (visual_top, ops)
  else _draw_results_header E y_start season country_name
       = Raise ValueError.
Proof.
  unfold flag_fits, _draw_results_header. cbv zeta.
  destruct (load_flag_image E (flag_iso_code E country_name)) as [flag|];
    [|cbn [bind]; eexists _, _; reflexivity].
  destruct (pic_width flag >? max_flag_width);
    [|cbn [bind]; eexists _, _; reflexivity].
  pose proof (resize_cases E flag
                (max_flag_width,
                 scaled_flag_height E (pic_height flag) max_flag_width
                   (pic_width flag))) as Hresize.
  cbn [fst snd] in Hresize. unfold max_flag_width in *.
  change (1 <=? 87) with true in Hresize. cbn [andb] in Hresize.
  destruct (1 <=? scaled_flag_height E (pic_height flag) 87 (pic_width flag));
    rewrite Hresize; cbn [bind]; [eexists _, _|]; reflexivity.
Qed.

Lemma draw_results_section_cases (E : Env) (translator : Translator)
    (race_data : RaceData) (historical_data : option HistoricalData) :
  if results_flag_fits E race_data historical_data
  then exists ops,
         _draw_results_section E translator race_data historical_data
         = Ok ops
  else _draw_results_section E translator race_data historical_data
       = Raise ValueError.
Proof.
  unfold results_flag_fits, _draw_results_section. cbv zeta.
  destruct historical_data as [hd|]; [|eexists; reflexivity].
  destruct (is_new_track hd); cbn [orb]; [eexists; reflexivity|].
  pose proof (draw_results_header_cases E Layout.results_y_start
                (season_text (hd_season hd))
                (get (cd_country (get (rd_circuit race_data) empty_circuit))
                   [])) as Hheader.
  destruct (flag_fits E _).
  - destruct Hheader as [visual_top [ops ->]]. cbn [bind].
    eexists. reflexivity.
  - rewrite Hheader. reflexivity.
Qed.



(** * Further properties of the renderer *)

Lemma str_eqb_iff (a b : str) : PyStr.eqb a b = true <-> a = b.
Proof. destruct (str_eqb_spec a b); split; congruence. Qed.

(** ** [_fit_text] *)

Lemma for_return_some {A B} (xs : list A) (body : A -> option B) (b : B) :
  for_return xs body = Some b -> exists x, In x xs /\ body x = Some b.
Proof.
  induction xs as [|x xs IH]; simpl; [discriminate|].
  destruct (body x) as [b'|] eqn:Hbody.
  - intros [= <-]. exists x. split; [left; reflexivity|exact Hbody].
  - intros Hrest. destruct (IH Hrest) as [x' [Hin Hx']].
    exists x'. split; [right; exact Hin|exact Hx'].
Qed.

Lemma in_range_down_to_3 (n i : nat) :
  In i (range_down_to_3 n) -> (3 <= i <= n)%nat.
Proof.
  unfold range_down_to_3. rewrite <- in_rev, in_seq. lia.
Qed.

Lemma fit_text_within_or_fallback (E : Env) (font : FontKey)
    (max_width pos : Z) (driver team : str) :
  fits E font max_width (_fit_text E font max_width pos driver team)
  \/ _fit_text E font max_width pos driver team
     = fallback_form pos driver team.
Proof.
  unfold _fit_text, fits.
  destruct (Z.leb_spec (get_width E font (composite pos driver team)) max_width)
    as [Hfull|_]; [left; exact Hfull|].
  match goal with
  | |- context [for_return ?xs ?body] =>
      destruct (for_return xs body) as [text|] eqn:Hteam
  end.
  - left. apply for_return_some in Hteam as [i [_ Hbody]].
    cbv zeta in Hbody.
    match type of Hbody with
    | (if ?c then _ else _) = _ => destruct c eqn:Hc; [|discriminate]
    end.
    injection Hbody as <-. apply Z.leb_le. exact Hc.
  - match goal with
    | |- context [for_return ?xs ?body] =>
        destruct (for_return xs body) as [text|] eqn:Hdriver
    end.
    + left. apply for_return_some in Hdriver as [i [_ Hbody]].
      cbv zeta in Hbody.
      match type of Hbody with
      | (if ?c then _ else _) = _ => destruct c eqn:Hc; [|discriminate]
      end.
      injection Hbody as <-. apply Z.leb_le. exact Hc.
    + right. reflexivity.
Qed.

(** X1. The text [_fit_text] returns is within the width, unless it is the
    last-resort form, which is returned without being measured. *)
Theorem fit_text_fits_or_is_fallback (E : Env) (font : FontKey)
    (max_width pos : Z) (driver team : str) :
  fits E font max_width (_fit_text E font max_width pos driver team)
  \/ _fit_text E font max_width pos driver team
     = fallback_form pos driver team.
Proof.
  exact (fit_text_within_or_fallback E font max_width pos driver team).
Qed.

(** X2. Whatever is cut, the position, its ". " and the first three characters
    of the driver name (the whole name when it is shorter) stay, and the
    text ends with the closing parenthesis. *)
Theorem fit_text_keeps_position_and_driver_head (E : Env) (font : FontKey)
    (max_width pos : Z) (driver team : str) :
  exists (k : nat) (rest : str),
    (Nat.min 3 (length driver) <= k)%nat
    /\ _fit_text E font max_width pos driver team
       = str_of_int pos ++ lit ". " ++ slice_to k driver ++ rest ++ lit ")".
Proof.
  unfold _fit_text.
  destruct (get_width E font (composite pos driver team) <=? max_width).
  { exists (length driver), (lit " (" ++ team). split; [lia|].
    unfold composite, slice_to. rewrite firstn_all, <- !app_assoc. reflexivity. }
  match goal with
  | |- context [for_return ?xs ?body] =>
      destruct (for_return xs body) as [text|] eqn:Hteam
  end.
  - apply for_return_some in Hteam as [i [_ Hbody]]. cbv zeta in Hbody.
    match type of Hbody with
    | (if ?c then _ else _) = _ => destruct c; [|discriminate]
    end.
    injection Hbody as <-.
    exists (length driver), (lit " (" ++ slice_to i team ++ lit "..").
    split; [lia|].
    unfold composite, slice_to. rewrite firstn_all, <- !app_assoc. reflexivity.
  - match goal with
    | |- context [for_return ?xs ?body] =>
        destruct (for_return xs body) as [text|] eqn:Hdriver
    end.
    + apply for_return_some in Hdriver as [i [Hin Hbody]]. cbv zeta in Hbody.
      apply in_range_down_to_3 in Hin.
      match type of Hbody with
      | (if ?c then _ else _) = _ => destruct c; [|discriminate]
      end.
      injection Hbody as <-.
      exists i, (lit "." ++ lit " (" ++ slice_to 3 team ++ lit "..").
      split; [lia|].
      unfold composite. rewrite <- !app_assoc. reflexivity.
    + exists 5%nat, (lit ".. (" ++ slice_to 3 team ++ lit "..").
      split; [lia|]. rewrite <- !app_assoc. reflexivity.
Qed.

(** ** [_draw_countdown_box] *)

(** A box is drawn only for a race entry whose timestamp lies ahead. *)
Lemma countdown_box_drawn_inv (E : Env) (translator : Translator)
    (race_data : RaceData) (schedule_bottom y : Z) (op : DrawOp)
    (ops : list DrawOp) :
  _draw_countdown_box E translator race_data schedule_bottom
  = Ok (y, op :: ops) ->
  exists dt,
    find_race_dt E (get (rd_schedule race_data) []) = Ok (Some dt)
    /\ 0 < remaining_us E dt.
Proof.
  intros Hbox.
  destruct (find_race_dt E (get (rd_schedule race_data) []))
    as [[dt|]|e] eqn:Hfind.
  - exists dt. split; [reflexivity|].
    destruct (Z.lt_ge_cases 0 (remaining_us E dt)) as [Hahead|Hpast];
      [exact Hahead|].
    rewrite (countdown_box_past E translator race_data schedule_bottom dt
               Hfind Hpast) in Hbox.
    discriminate Hbox.
  - rewrite (countdown_box_not_found E translator race_data schedule_bottom
               Hfind) in Hbox.
    discriminate Hbox.
  - unfold _draw_countdown_box in Hbox. rewrite Hfind in Hbox.
    discriminate Hbox.
Qed.

(** The geometry of a drawn box. *)
Lemma countdown_box_geometry (E : Env) (translator : Translator)
    (race_data : RaceData) (schedule_bottom y x0 y0 x1 y1 w tx ty fill : Z)
    (f o : option Z) (text : str) (font : FontKey) :
  _draw_countdown_box E translator race_data schedule_bottom
  = Ok (y, [ Rectangle x0 y0 x1 y1 f o w; Text tx ty text fill font ]) ->
  x0 = 510 /\ x1 = 795
  /\ y0 = countdown_box_top E schedule_bottom
  /\ y1 = y0 + countdown_box_height E
  /\ y = y1
  /\ font = Font.schedule_row_bold
  /\ tx = 510 + (285 - bbox_width (textbbox E font text)) / 2
  /\ ty = y0 + 6 - bb1 (textbbox E font TEXT_BASELINE_REF).
Proof.
  intros Hbox.
  destruct (countdown_box_drawn_inv E translator race_data schedule_bottom
              y _ _ Hbox) as [dt [Hfind Hahead]].
  pose proof (countdown_box_ahead E translator race_data schedule_bottom dt
                Hfind Hahead) as Hdrawn.
  cbv zeta in Hdrawn. rewrite Hdrawn in Hbox. clear Hdrawn.
  assert (Hfont : font = Font.schedule_row_bold) by congruence.
  assert (Hy0 : y0 = countdown_box_top E schedule_bottom) by congruence.
  subst font y0.
  repeat split; congruence.
Qed.

(** X3. The days and hours shown are the remaining time rounded down to the
    hour: the days are not negative, the hours lie between 0 and 23, and the
    race starts at least that long, and less than one hour more, from now. *)
Theorem countdown_shows_remaining_time_rounded_down (E : Env)
    (translator : Translator) (race_data : RaceData) (schedule_bottom : Z)
    (event : Event) (dt : datetime) :
  first_race_entry E (get (rd_schedule race_data) []) = Some event ->
  timestamp E event = Some dt ->
  0 < remaining_us E dt ->
  exists (d h y tx ty : Z) (box : DrawOp),
    _draw_countdown_box E translator race_data schedule_bottom
    = Ok (y, [ box;
               Text tx ty (countdown_text translator d h) 1
                 Font.schedule_row_bold ])
    /\ 0 <= d
    /\ 0 <= h <= 23
    /\ d * 86400000000 + h * 3600000000 <= remaining_us E dt
       < d * 86400000000 + (h + 1) * 3600000000.
Proof.
  intros Hfirst Hstamp Hahead.
  pose proof (find_race_dt_first E (get (rd_schedule race_data) [])) as Hfind.
  rewrite Hfirst, (parse_if_str_timestamp E event dt Hstamp) in Hfind.
  pose proof (countdown_box_ahead E translator race_data schedule_bottom dt
                Hfind Hahead) as Hbox.
  cbv zeta in Hbox.
  set (us := remaining_us E dt) in *.
  exists (us / 86400000000), ((us mod 86400000000) / 3600000000).
  do 4 eexists. split; [exact Hbox|].
  pose proof (Z.div_mod us 86400000000 ltac:(lia)) as Hday.
  pose proof (Z.mod_pos_bound us 86400000000 ltac:(lia)) as Hrem.
  pose proof (Z.div_mod (us mod 86400000000) 3600000000 ltac:(lia)) as Hhour.
  pose proof (Z.mod_pos_bound (us mod 86400000000) 3600000000 ltac:(lia))
    as Hrest.
  assert (0 <= us / 86400000000) by (apply Z.div_pos; lia).
  assert (0 <= (us mod 86400000000) / 3600000000) by (apply Z.div_pos; lia).
  assert ((us mod 86400000000) / 3600000000 <= 23).
  { apply Z.lt_succ_r. apply Z.div_lt_upper_bound; lia. }
  repeat split; lia.
Qed.

Lemma countdown_shows_remaining_time_rounded_down_witness :
  exists (d h y tx ty : Z) (box : DrawOp),
    _draw_countdown_box Sample.env Sample.czech Sample.weekend 173
    = Ok (y, [ box;
               Text tx ty (countdown_text Sample.czech d h) 1
                 Font.schedule_row_bold ])
    /\ 0 <= d
    /\ 0 <= h <= 23
    /\ d * 86400000000 + h * 3600000000
       <= remaining_us Sample.env Sample.race_start
       < d * 86400000000 + (h + 1) * 3600000000.
Proof.
  exact (countdown_shows_remaining_time_rounded_down Sample.env Sample.czech
           Sample.weekend 173
           (Sample.session "Race" Sample.race_iso "Sun 15:00")
           Sample.race_start eq_refl eq_refl eq_refl).
Defined.

(** X4. Where a drawn box and its text lie.  Vertically the box is centred
    between the incoming Y and y = 328, where three statistics rows would
    start, up to one pixel of rounding; the reference glyphs start 6 pixels
    under the top edge, and the value returned is the bottom edge.
    Horizontally the drawing origin is placed as if the text had no left
    bearing: the ink, which lies between origin + bbox[0] and
    origin + bbox[2], has a right margin inside the box that is smaller
    than the left one by twice bbox[0], up to one pixel of rounding.  So
    the text is centred in the box exactly as far as its bbox[0] is 0. *)
Theorem countdown_box_is_centred (E : Env) (translator : Translator)
    (race_data : RaceData) (schedule_bottom y x0 y0 x1 y1 w tx ty fill : Z)
    (f o : option Z) (text : str) (font : FontKey) :
  _draw_countdown_box E translator race_data schedule_bottom
  = Ok (y, [ Rectangle x0 y0 x1 y1 f o w; Text tx ty text fill font ]) ->
  let box := textbbox E font text in
  let ink_left := tx + bb0 box in
  let ink_right := tx + bb2 box in
  0 <= (x1 - ink_right) - (ink_left - x0) + 2 * bb0 box <= 1
  /\ 0 <= (328 - y1) - (y0 - schedule_bottom) <= 1
  /\ ty + bb1 (textbbox E font TEXT_BASELINE_REF) = y0 + 6
  /\ y = y1.
Proof.
  intros Hbox. cbv zeta.
  destruct (countdown_box_geometry E translator race_data schedule_bottom
              _ _ _ _ _ _ _ _ _ _ _ _ _ Hbox)
    as [-> [-> [Hy0 [-> [-> [-> [-> ->]]]]]]].
  subst y0. unfold countdown_box_top, bbox_width.
  set (bh := countdown_box_height E).
  set (box := textbbox E Font.schedule_row_bold text).
  pose proof (Z.div_mod (285 - (bb2 box - bb0 box)) 2 ltac:(lia)) as Hx.
  pose proof (Z.mod_pos_bound (285 - (bb2 box - bb0 box)) 2 ltac:(lia))
    as Hxr.
  pose proof (Z.div_mod (328 - schedule_bottom - bh) 2 ltac:(lia)) as Hy.
  pose proof (Z.mod_pos_bound (328 - schedule_bottom - bh) 2 ltac:(lia))
    as Hyr.
  repeat split; lia.
Qed.

(** A font whose glyphs start 3 pixels right of the origin: the ink of
    "IN 3 days 5 hours" has 60 pixels to its left and 55 to its right. *)
Lemma countdown_box_is_centred_witness :
  0 <= (795 - (567 + 173)) - ((567 + 3) - 510) + 2 * 3 <= 1
  /\ 0 <= (328 - 268) - (232 - 173) <= 1
  /\ 237 + bb1 (textbbox Fixture.bearing Font.schedule_row_bold
                  TEXT_BASELINE_REF)
     = 232 + 6
  /\ 268 = 268.
Proof.
  exact (countdown_box_is_centred Fixture.bearing Sample.english
           Sample.weekend 173 268 510 232 795 268 1 567 237 1 (Some 0)
           (Some 0) (lit "IN 3 days 5 hours") Font.schedule_row_bold eq_refl).
Defined.

(** X5. A drawn box stays between the incoming Y and y = 328 exactly when its
    height (reference glyphs plus 12) is at most that gap; a higher box
    starts above the incoming Y and ends at y = 328 or below it.  Below six
    schedule rows the incoming Y is 313 and the gap 15 pixels. *)
Theorem countdown_box_within_gap_iff (E : Env) (translator : Translator)
    (race_data : RaceData) (schedule_bottom y x0 y0 x1 y1 w tx ty fill : Z)
    (f o : option Z) (text : str) (font : FontKey) :
  _draw_countdown_box E translator race_data schedule_bottom
  = Ok (y, [ Rectangle x0 y0 x1 y1 f o w; Text tx ty text fill font ]) ->
  (schedule_bottom <= y0 /\ y1 <= 328
   <-> countdown_box_height E <= 328 - schedule_bottom)
  /\ (328 - schedule_bottom < countdown_box_height E ->
      y0 < schedule_bottom /\ 328 <= y1).
Proof.
  intros Hbox.
  destruct (countdown_box_geometry E translator race_data schedule_bottom
              _ _ _ _ _ _ _ _ _ _ _ _ _ Hbox)
    as [_ [_ [-> [-> _]]]].
  unfold countdown_box_top.
  set (bh := countdown_box_height E).
  pose proof (Z.div_mod (328 - schedule_bottom - bh) 2 ltac:(lia)) as Hy.
  pose proof (Z.mod_pos_bound (328 - schedule_bottom - bh) 2 ltac:(lia))
    as Hyr.
  repeat split; lia.
Qed.

(** Below six rows, with reference glyphs 24 pixels high, the box runs from
    302 to 338. *)
Lemma countdown_box_within_gap_iff_witness :
  (313 <= 302 /\ 338 <= 328 <-> countdown_box_height Sample.env <= 328 - 313)
  /\ (328 - 313 < countdown_box_height Sample.env ->
      302 < 313 /\ 328 <= 338).
Proof.
  exact (countdown_box_within_gap_iff Sample.env Sample.english
           Sample.weekend 313 338 510 302 795 338 1 567 307 1 (Some 0)
           (Some 0) (lit "IN 3 days 5 hours") Font.schedule_row_bold
           eq_refl).
Defined.

(** ** The historical results section *)

(** What [_draw_results_header] draws when it returns. *)
Lemma results_header_returned (E : Env) (y_start visual_top : Z)
    (season country_name : str) (ops : list DrawOp) :
  _draw_results_header E y_start season country_name = Ok (visual_top, ops) ->
  let bbox := textbbox E Font.results_year season in
  let year_x := (109 - (bb2 bbox - bb0 bbox)) / 2 in
  let year_y := visual_top - bb1 bbox in
  let year := Text year_x year_y season 0 Font.results_year in
  match load_flag_image E (flag_iso_code E country_name) with
  | None => ops = [ year ]
  | Some flag =>
      exists im,
        (if pic_width flag >? 87
         then resize E flag
                (87, scaled_flag_height E (pic_height flag) 87
                       (pic_width flag))
              = Ok im
         else im = flag)
        /\ let x := (109 - pic_width im) / 2 in
           let y := year_y + bb3 bbox + 6 in
           ops = [ year;
                   Paste im x y;
                   Rectangle (x - 1) (y - 1) (x + pic_width im)
                     (y + pic_height im) None (Some 0) 1 ]
           /\ pic_width im <= 87
           /\ (87 < pic_width flag ->
               pic_width im = 87
               /\ pic_height im
                  = scaled_flag_height E (pic_height flag) 87 (pic_width flag)
               /\ 1 <= pic_height im)
           /\ 0 <= (109 - (x + pic_width im)) - x <= 1
           /\ 10 <= x - 1
           /\ x + pic_width im <= 98
  end.
Proof.
  unfold _draw_results_header. cbv zeta.
  set (bbox := textbbox E Font.results_year season).
  unfold max_flag_width. change Layout.results_col1_x with 109.
  destruct (load_flag_image E (flag_iso_code E country_name)) as [flag|].
  2: { cbn [bind]. intros H. apply Ok_inj in H.
       assert (Htop : y_start + (height - y_start
                 - (bb3 bbox - bb1 bbox + (if 0 >? 0 then 3 else 0) + 0)) / 2
               = visual_top) by congruence.
       assert (Hops : [Text ((109 - (bb2 bbox - bb0 bbox)) / 2)
                         (y_start + (height - y_start
                            - (bb3 bbox - bb1 bbox
                               + (if 0 >? 0 then 3 else 0) + 0)) / 2
                          - bb1 bbox) season 0 Font.results_year] = ops)
         by congruence.
       rewrite <- Hops, <- Htop. reflexivity. }
  destruct (Z.gtb_spec (pic_width flag) 87) as [Hwide|Hnarrow].
  - set (flag_h := scaled_flag_height E (pic_height flag) 87 (pic_width flag)).
    pose proof (resize_cases E flag (87, flag_h)) as Hresize.
    cbn [fst snd] in Hresize. change (1 <=? 87) with true in Hresize.
    cbn [andb] in Hresize.
    destruct (Z.leb_spec 1 flag_h) as [Hpos|Hzero];
      rewrite Hresize; cbn [bind]; [|discriminate].
    intros H. apply Ok_inj in H.
    set (im := {| pic_mode_1 := pic_mode_1 flag; pic_width := 87;
                  pic_height := flag_h;
                  pic_pixels := resample E flag (87, flag_h) |}) in *.
    exists im. split; [reflexivity|]. cbv zeta.
    cbn [pic_width pic_height im].
    change ((109 - 87) / 2) with 11.
    split; [|repeat split; lia].
    set (top := y_start + (height - y_start
                  - (bb3 bbox - bb1 bbox + (if flag_h >? 0 then 3 else 0)
                     + flag_h)) / 2) in *.
    assert (Htop : top = visual_top) by congruence.
    assert (Hops : [Text ((109 - (bb2 bbox - bb0 bbox)) / 2) (top - bb1 bbox)
                      season 0 Font.results_year;
                    Paste im ((109 - pic_width im) / 2)
                      (top - bb1 bbox + bb3 bbox + 6);
                    Rectangle ((109 - pic_width im) / 2 - 1)
                      (top - bb1 bbox + bb3 bbox + 6 - 1)
                      ((109 - pic_width im) / 2 + pic_width im)
                      (top - bb1 bbox + bb3 bbox + 6 + pic_height im)
                      None (Some 0) 1] = ops) by congruence.
    rewrite <- Hops, <- Htop. reflexivity.
  - cbn [bind]. intros H. apply Ok_inj in H.
    exists flag. split; [reflexivity|]. cbv zeta.
    pose proof (Z.div_mod (109 - pic_width flag) 2 ltac:(lia)).
    pose proof (Z.mod_pos_bound (109 - pic_width flag) 2 ltac:(lia)).
    split; [|repeat split; lia].
    set (top := y_start + (height - y_start
                  - (bb3 bbox - bb1 bbox
                     + (if pic_height flag >? 0 then 3 else 0)
                     + pic_height flag)) / 2) in *.
    assert (Htop : top = visual_top) by congruence.
    assert (Hops : [Text ((109 - (bb2 bbox - bb0 bbox)) / 2) (top - bb1 bbox)
                      season 0 Font.results_year;
                    Paste flag ((109 - pic_width flag) / 2)
                      (top - bb1 bbox + bb3 bbox + 6);
                    Rectangle ((109 - pic_width flag) / 2 - 1)
                      (top - bb1 bbox + bb3 bbox + 6 - 1)
                      ((109 - pic_width flag) / 2 + pic_width flag)
                      (top - bb1 bbox + bb3 bbox + 6 + pic_height flag)
                      None (Some 0) 1] = ops) by congruence.
    rewrite <- Hops, <- Htop. reflexivity.
Qed.

(** X6. The year and the flag of the results header.  The header returns
    unless the flag is wider than 87 pixels and so flat that its scaled
    height is below 1: then [resize] raises [ValueError].  When it returns,
    the year is drawn at the origin x = (109 - width) // 2, with its visual
    top at the value returned: its ink, between origin + bbox[0] and
    origin + bbox[2], has a right margin in the 109 pixels left of the
    first column that is smaller than the left one by twice bbox[0], up to
    a pixel of rounding.  What follows depends on the flag file alone.
    Without one the year is the only call.  With one, the flag is pasted
    6 pixels under the year's bounding box and framed by a one-pixel
    border: the file's image when it is at most 87 pixels wide, otherwise
    that image resized to a width of exactly 87 and the scaled height; in
    both cases centred in the 109 pixels up to one pixel, so that flag and
    border stay between x = 10 and x = 98. *)
Theorem results_header_year_and_flag (E : Env) (y_start : Z)
    (season country_name : str) :
  let bbox := textbbox E Font.results_year season in
  let year_x := (109 - (bb2 bbox - bb0 bbox)) / 2 in
  0 <= (109 - (year_x + bb2 bbox)) - (year_x + bb0 bbox) + 2 * bb0 bbox <= 1
  /\ if flag_fits E country_name
     then
       exists visual_top ops,
         _draw_results_header E y_start season country_name
         = Ok (visual_top, ops)
         /\ let year_y := visual_top - bb1 bbox in
            let year := Text year_x year_y season 0 Font.results_year in
            match load_flag_image E (flag_iso_code E country_name) with
            | None => ops = [ year ]
            | Some flag =>
                exists im,
                  (if pic_width flag >? 87
                   then resize E flag
                          (87, scaled_flag_height E (pic_height flag) 87
                                 (pic_width flag))
                        = Ok im
                   else im = flag)
                  /\ let x := (109 - pic_width im) / 2 in
                     let y := year_y + bb3 bbox + 6 in
                     ops = [ year;
                             Paste im x y;
                             Rectangle (x - 1) (y - 1) (x + pic_width im)
                               (y + pic_height im) None (Some 0) 1 ]
                     /\ pic_width im <= 87
                     /\ (87 < pic_width flag ->
                         pic_width im = 87
                         /\ pic_height im
                            = scaled_flag_height E (pic_height flag) 87
                                (pic_width flag)
                         /\ 1 <= pic_height im)
                     /\ 0 <= (109 - (x + pic_width im)) - x <= 1
                     /\ 10 <= x - 1
                     /\ x + pic_width im <= 98
            end
     else _draw_results_header E y_start season country_name
          = Raise ValueError.
Proof.
  cbv zeta. set (bbox := textbbox E Font.results_year season).
  split.
  { pose proof (Z.div_mod (109 - (bb2 bbox - bb0 bbox)) 2 ltac:(lia)).
    pose proof (Z.mod_pos_bound (109 - (bb2 bbox - bb0 bbox)) 2 ltac:(lia)).
    lia. }
  pose proof (draw_results_header_cases E y_start season country_name)
    as Hcases.
  destruct (flag_fits E country_name); [|exact Hcases].
  destruct Hcases as [visual_top [ops Hheader]].
  exists visual_top, ops. split; [exact Hheader|].
  exact (results_header_returned E y_start visual_top season country_name ops
           Hheader).
Qed.

(** X7. With historical data, the section returns unless the flag cannot
    be resized, and then the calls of the section come in a fixed order:
    separator, year, flag (if any), qualifying column, race column.  The two
    column titles are drawn at the same height, placed so that the top of
    the reference glyphs in the title font meets the visual top of the
    year. *)
Theorem results_titles_align_with_year (E : Env) (translator : Translator)
    (race_data : RaceData) (hd : HistoricalData) :
  is_new_track hd = false ->
  let year := season_text (hd_season hd) in
  let country :=
    get (cd_country (get (rd_circuit race_data) empty_circuit)) [] in
  if flag_fits E country
  then
    exists (visual_top year_x year_y title_y : Z)
           (flag_ops q_rows r_rows : list DrawOp),
      _draw_results_section E translator race_data (Some hd)
      = Ok (Line 0 385 800 385 0 2
            :: (Text year_x year_y year 0 Font.results_year :: flag_ops)
            ++ (Text 109 title_y
                  (tr_get translator (lit "qualifying") (lit "QUALIFYING")) 0
                  Font.results_title :: q_rows)
            ++ (Text 455 title_y (tr_get translator (lit "race") (lit "RACE"))
                  0 Font.results_title :: r_rows))
      /\ year_y + bb1 (textbbox E Font.results_year year) = visual_top
      /\ title_y + bb1 (textbbox E Font.results_title TEXT_BASELINE_REF)
         = visual_top
      /\ (flag_ops = [] \/ length flag_ops = 2%nat)
  else _draw_results_section E translator race_data (Some hd)
       = Raise ValueError.
Proof.
  intros Hold. cbv zeta. unfold _draw_results_section. rewrite Hold.
  set (country := get (cd_country (get (rd_circuit race_data) empty_circuit)) []).
  set (year := season_text (hd_season hd)).
  pose proof (draw_results_header_cases E Layout.results_y_start year country)
    as Hcases.
  destruct (flag_fits E country); [|rewrite Hcases; reflexivity].
  destruct Hcases as [visual_top [header_ops Hheader]].
  pose proof (results_header_returned E Layout.results_y_start visual_top
                year country header_ops Hheader) as Hshape.
  cbv zeta in Hshape. rewrite Hheader. cbn [bind].
  unfold _draw_results_column.
  exists visual_top, ((109 - (bb2 (textbbox E Font.results_year year)
                              - bb0 (textbbox E Font.results_year year))) / 2),
    (visual_top - bb1 (textbbox E Font.results_year year)),
    (visual_top - bb1 (textbbox E Font.results_title TEXT_BASELINE_REF)).
  destruct (load_flag_image E (flag_iso_code E country)) as [flag|].
  - destruct Hshape as [im [_ [-> _]]].
    eexists [_; _], _, _. split; [reflexivity|].
    split; [lia|]. split; [lia|right; reflexivity].
  - subst header_ops.
    eexists [], _, _. split; [reflexivity|].
    split; [lia|]. split; [lia|left; reflexivity].
Qed.

Lemma results_titles_align_with_year_witness :
  exists (visual_top year_x year_y title_y : Z)
         (flag_ops q_rows r_rows : list DrawOp),
    _draw_results_section Sample.env Sample.english Sample.weekend
      (Some (Sample.last_year false))
    = Ok (Line 0 385 800 385 0 2
          :: (Text year_x year_y (lit "2025") 0 Font.results_year :: flag_ops)
          ++ (Text 109 title_y (lit "QUALIFYING") 0 Font.results_title
              :: q_rows)
          ++ (Text 455 title_y (lit "RACE") 0 Font.results_title :: r_rows))
    /\ year_y + bb1 (textbbox Sample.env Font.results_year (lit "2025"))
       = visual_top
    /\ title_y
       + bb1 (textbbox Sample.env Font.results_title TEXT_BASELINE_REF)
       = visual_top
    /\ (flag_ops = [] \/ length flag_ops = 2%nat).
Proof.
  exact (results_titles_align_with_year Sample.env Sample.english
           Sample.weekend (Sample.last_year false) eq_refl).
Defined.

Lemma enumerate_from_in {A} (i0 i : Z) (a : A) (l : list A) :
  In (i, a) (enumerate_from i0 l) -> In a l /\ i0 <= i < i0 + Z.of_nat (length l).
Proof.
  revert i0. induction l as [|b l IH]; intros i0; simpl; [tauto|].
  intros [[= <- <-]|Hin].
  - split; [left; reflexivity|lia].
  - destruct (IH (i0 + 1) Hin) as [Hl Hi]. split; [right; exact Hl|lia].
Qed.

(** X8. Every call of a results column is a black text at one of two x
    positions.  A row's main text starts at the column's x and either fits
    in 250 pixels, so that it ends before the time drawn 260 pixels to the
    right, or is the last-resort form of one of the first three entries; a
    time is drawn only when it is not empty. *)
Theorem results_column_texts (E : Env) (x_start visual_top : Z)
    (title : str) (is_qualifying : bool)
    (results : list (entry_of is_qualifying)) :
  Forall (fun op =>
    (exists y, op = Text x_start y title 0 Font.results_title)
    \/ (exists y t,
          op = Text x_start y t 0 Font.results_row
          /\ (fits E Font.results_row 250 t
              \/ exists entry,
                   In entry (firstn 3 results)
                   /\ t = fallback_form (entry_position entry)
                            (display_name (entry_driver entry))
                            (constructor_name (entry_constructor entry))))
    \/ (exists y t,
          op = Text (x_start + 260) y t 0 Font.results_row /\ t <> []))
    (_draw_results_column E x_start visual_top title is_qualifying results).
Proof.
  unfold _draw_results_column. constructor.
  - left. eexists. reflexivity.
  - apply Forall_forall. intros op Hop.
    apply in_flat_map in Hop as [[i entry] [Hentry Hop]].
    apply enumerate_from_in in Hentry as [Hentry _].
    cbn [fst snd] in Hop. unfold draw_result_row in Hop.
    destruct Hop as [<-|Hop].
    + right. left. eexists _, _. split; [reflexivity|].
      destruct (fit_text_within_or_fallback E Font.results_row
                  (Layout.results_time_offset - 10) (entry_position entry)
                  (display_name (entry_driver entry))
                  (constructor_name (entry_constructor entry)))
        as [Hfit|Hfallback].
      * left. exact Hfit.
      * right. exists entry. split; [exact Hentry|exact Hfallback].
    + destruct (entry_time_str entry) as [|c t] eqn:Htime;
        cbn [truthy] in Hop; [contradiction|].
      destruct Hop as [<-|[]].
      right. right. eexists _, _. split; [reflexivity|discriminate].
Qed.

(** ** [_draw_circuit_stats] *)

Lemma fold_left_max_bounds {A} (f : A -> Z) (l : list A) (m0 : Z) :
  m0 <= fold_left (fun m x => Z.max m (f x)) l m0
  /\ Forall (fun x => f x <= fold_left (fun m x => Z.max m (f x)) l m0) l.
Proof.
  revert m0. induction l as [|a l IH]; intros m0; cbn [fold_left].
  - split; [lia|constructor].
  - destruct (IH (Z.max m0 (f a))) as [Hge Hall]. split; [lia|].
    constructor; [lia|exact Hall].
Qed.

Lemma draw_stat_rows_positions (E : Env) (block_x max_icon_width text_x : Z)
    (stats : list (str * str)) (y i0 : Z) :
  text_x = block_x + max_icon_width + 4 ->
  draw_stat_rows E block_x max_icon_width text_x stats (y + 18 * i0)
  = flat_map (fun ie =>
      [ Text (text_x - 4
              - bbox_width (textbbox E Font.icon_small (fst (snd ie))))
          (y + 18 * fst ie) (fst (snd ie)) 0 Font.icon_small;
        Text text_x (y + 18 * fst ie) (snd (snd ie)) 0
          Font.circuit_stats_value ])
      (enumerate_from i0 stats).
Proof.
  intros Htx. revert i0.
  induction stats as [|[icon_text text] rest IH]; intros i0; [reflexivity|].
  cbn [draw_stat_rows enumerate_from flat_map fst snd app].
  f_equal; [f_equal; lia|]. f_equal.
  rewrite <- IH. f_equal. unfold Layout.circuit_stats_row_height. lia.
Qed.

Lemma circuit_stat_lines_icons (translator : Translator)
    (circuit_data : CircuitStats) (stats : list (str * str)) :
  circuit_stat_lines translator circuit_data = Ok stats ->
  map fst stats
  = (if truthy_opt (circuit_length circuit_data) then [ ICON_RULER ] else [])
    ++ (if truthy_opt (fastest_lap_time circuit_data)
        then [ ICON_LIGHTNING ] else [])
    ++ (if truthy_opt (first_grand_prix circuit_data)
        then [ ICON_CALENDAR ] else []).
Proof.
  unfold circuit_stat_lines.
  match goal with
  | |- bind ?m _ = _ -> _ => destruct m as [stats2|e] eqn:Hlap
  end; cbn [bind]; [|discriminate].
  intros H. apply Ok_inj in H. subst stats. cbv zeta.
  destruct (truthy_opt (fastest_lap_time circuit_data)).
  - match type of Hlap with
    | bind ?m _ = _ => destruct m; cbn [bind] in Hlap; [|discriminate]
    end.
    apply Ok_inj in Hlap. subst stats2.
    destruct (truthy_opt (circuit_length circuit_data));
      destruct (truthy_opt (first_grand_prix circuit_data)); reflexivity.
  - apply Ok_inj in Hlap. subst stats2.
    destruct (truthy_opt (circuit_length circuit_data));
      destruct (truthy_opt (first_grand_prix circuit_data)); reflexivity.
Qed.

(** X9. What the statistics section draws is fixed by the circuit's entry
    in the static table.  Without an entry nothing is drawn.  With one,
    there is one row for each of the three lines that has data (length,
    fastest lap, first Grand Prix, in this order, each with its icon), so
    three at most and none when no line has data; the rows are 18 pixels
    apart and the last one starts at y = 364, 21 pixels above the separator
    at 385.  Every icon's origin plus its measured width is one common x,
    4 pixels left of the common x where the texts start, and every text's
    origin plus its measured width is at most 795: its ink, which ends at
    origin + bbox[2], stays left of 795 + bbox[0]. *)
Theorem circuit_stats_block_layout (E : Env) (translator : Translator)
    (race_data : RaceData) (schedule_bottom : Z) :
  let circuit_id :=
    get (cd_circuitId (get (rd_circuit race_data) empty_circuit)) [] in
  match CIRCUITS_DATA E (get (dict_get CIRCUIT_ID_MAP circuit_id) circuit_id)
  with
  | None => _draw_circuit_stats E translator race_data schedule_bottom = Ok []
  | Some circuit_data =>
      forall ops,
        _draw_circuit_stats E translator race_data schedule_bottom = Ok ops ->
        exists (stats : list (str * str)) (text_x : Z),
          circuit_stat_lines translator circuit_data = Ok stats
          /\ map fst stats
             = (if truthy_opt (circuit_length circuit_data)
                then [ ICON_RULER ] else [])
               ++ (if truthy_opt (fastest_lap_time circuit_data)
                   then [ ICON_LIGHTNING ] else [])
               ++ (if truthy_opt (first_grand_prix circuit_data)
                   then [ ICON_CALENDAR ] else [])
          /\ ops
             = flat_map (fun ie =>
                 let y := 382 - 18 * (Z.of_nat (length stats) - fst ie) in
                 [ Text (text_x - 4
                         - bbox_width
                             (textbbox E Font.icon_small (fst (snd ie))))
                     y (fst (snd ie)) 0 Font.icon_small;
                   Text text_x y (snd (snd ie)) 0 Font.circuit_stats_value ])
                 (enumerate_from 0 stats)
          /\ Forall (fun stat =>
               let box := textbbox E Font.circuit_stats_value (snd stat) in
               text_x + bb2 box <= 795 + bb0 box) stats
  end.
Proof.
  cbv zeta. unfold _draw_circuit_stats.
  destruct (CIRCUITS_DATA E _) as [circuit_data|]; [|reflexivity].
  intros ops.
  destruct (circuit_stat_lines translator circuit_data) as [stats|e] eqn:Hlines;
    cbn [bind]; [|discriminate].
  pose proof (circuit_stat_lines_icons translator circuit_data stats Hlines)
    as Hicons.
  destruct stats as [|stat stats'] eqn:Hstats.
  { intros Hops. apply Ok_inj in Hops. subst ops.
    exists [], 0. split; [reflexivity|]. split; [exact Hicons|].
    split; [reflexivity|constructor]. }
  rewrite <- Hstats in *. clear Hstats stat stats'.
  cbv zeta. intros Hops. apply Ok_inj in Hops. subst ops.
  set (miw := fold_left _ stats 0).
  set (mtw := fold_left (fun m stat =>
                Z.max m (bbox_width
                           (textbbox E Font.circuit_stats_value (snd stat))))
                stats 0).
  set (n := Z.of_nat (length stats)).
  exists stats, (width - 5 - (miw + 4 + mtw) + miw + 4).
  split; [reflexivity|]. split; [exact Hicons|]. split.
  - replace (Layout.results_y_start - 3 - n * Layout.circuit_stats_row_height)
      with ((382 - 18 * n) + 18 * 0)
      by (unfold Layout.results_y_start, Layout.circuit_stats_row_height; lia).
    rewrite draw_stat_rows_positions by lia.
    apply flat_map_ext. intros [i [icon_text text]]. cbn [fst snd].
    replace (382 - 18 * n + 18 * i)
      with (382 - 18 * (Z.of_nat (length stats) - i)) by (subst n; lia).
    reflexivity.
  - destruct (fold_left_max_bounds
                (fun stat => bbox_width
                   (textbbox E Font.circuit_stats_value (snd stat)))
                stats 0) as [_ Hall].
    fold mtw in Hall.
    eapply Forall_impl; [|exact Hall]. cbv beta zeta. intros stat Hle.
    unfold bbox_width in Hle. unfold width, DISPLAY_WIDTH. lia.
Qed.

Lemma split_from_blank (s : str) :
  forallb is_space s = true -> split_from s [] = [].
Proof.
  induction s as [|c s IH]; [reflexivity|].
  cbn [forallb split_from]. intros Hall.
  apply andb_prop in Hall as [-> Hrest]. cbn [truthy]. exact (IH Hrest).
Qed.

Lemma circuit_stat_lines_blank_driver (translator : Translator)
    (circuit_data : CircuitStats) (name : str) :
  truthy_opt (fastest_lap_time circuit_data) = true ->
  fastest_lap_driver circuit_data = Some name ->
  name <> [] ->
  forallb is_space name = true ->
  circuit_stat_lines translator circuit_data = Raise IndexError.
Proof.
  intros Htime Hdriver Hname Hblank. unfold circuit_stat_lines.
  rewrite Htime, Hdriver. cbn [truthy_opt get].
  destruct name as [|c name]; [contradiction|]. cbn [truthy].
  unfold split. rewrite (split_from_blank _ Hblank). reflexivity.
Qed.

(** X10. A fastest-lap driver that is not empty but holds white space only, next
    to a fastest-lap time, makes [split()[-1]] fail: the statistics section
    raises [IndexError], and so does [render_calendar] once the track and
    the schedule section have returned. *)
Theorem blank_fastest_lap_driver_raises (E : Env) (translator : Translator)
    (race_data : RaceData) (historical_data : option HistoricalData)
    (schedule_bottom : Z) (circuit_data : CircuitStats) (name : str) :
  let circuit_id :=
    get (cd_circuitId (get (rd_circuit race_data) empty_circuit)) [] in
  CIRCUITS_DATA E (get (dict_get CIRCUIT_ID_MAP circuit_id) circuit_id)
  = Some circuit_data ->
  truthy_opt (fastest_lap_time circuit_data) = true ->
  fastest_lap_driver circuit_data = Some name ->
  name <> [] ->
  forallb is_space name = true ->
  _draw_circuit_stats E translator race_data schedule_bottom
  = Raise IndexError
  /\ (track_section_returns E race_data = true ->
      valid_race_data E race_data = true ->
      render_calendar E translator race_data historical_data
      = Raise IndexError).
Proof.
  cbv zeta. intros Htable Htime Hdriver Hname Hblank.
  assert (Hstats : forall y,
            _draw_circuit_stats E translator race_data y = Raise IndexError).
  { intros y. unfold _draw_circuit_stats. rewrite Htable.
    rewrite (circuit_stat_lines_blank_driver translator circuit_data name
               Htime Hdriver Hname Hblank).
    reflexivity. }
  split; [apply Hstats|].
  intros Htrack Hvalid.
  destruct (draw_track_section_returns E race_data Htrack)
    as [track_ops Htrack_ops].
  destruct (schedule_section_ok E translator race_data Hvalid)
    as [y [ops Hsection]].
  unfold render_calendar. rewrite Htrack_ops. cbn [bind].
  rewrite Hsection. cbn [bind].
  rewrite Hstats. reflexivity.
Qed.

Lemma blank_fastest_lap_driver_raises_witness :
  _draw_circuit_stats
    (Fixture.world (fun _ => Some Fixture.blank_driver) None None None)
    Sample.english Sample.weekend 268
  = Raise IndexError
  /\ (track_section_returns
        (Fixture.world (fun _ => Some Fixture.blank_driver) None None None)
        Sample.weekend = true ->
      valid_race_data
        (Fixture.world (fun _ => Some Fixture.blank_driver) None None None)
        Sample.weekend = true ->
      render_calendar
        (Fixture.world (fun _ => Some Fixture.blank_driver) None None None)
        Sample.english Sample.weekend None
      = Raise IndexError).
Proof.
  apply (blank_fastest_lap_driver_raises
           (Fixture.world (fun _ => Some Fixture.blank_driver) None None None)
           Sample.english Sample.weekend None 268 Fixture.blank_driver
           (lit "  ")).
  - reflexivity.
  - reflexivity.
  - reflexivity.
  - discriminate.
  - reflexivity.
Defined.

(** ** When [render_calendar] returns *)

Lemma parse_if_str_raises (E : Env) (dt : DtField) :
  parses E dt = false -> parse_if_str E dt = Raise ValueError.
Proof.
  destruct dt as [|s|d]; simpl; try discriminate.
  destruct (fromisoformat E s); [discriminate|reflexivity].
Qed.

Lemma draw_schedule_row_raises (E : Env) (translator : Translator) (y : Z)
    (event : Event) :
  parses E (ev_datetime event) = false ->
  _draw_schedule_row E translator y event = Raise ValueError.
Proof.
  intros Hbad. unfold _draw_schedule_row.
  rewrite (parse_if_str_raises E _ Hbad). reflexivity.
Qed.

Lemma rows_in_order_raises (E : Env) (translator : Translator)
    (entries : list Event) (i0 : Z) :
  valid_schedule E entries = false ->
  rows_in_order E translator entries i0 = Raise ValueError.
Proof.
  revert i0. induction entries as [|event rest IH]; intros i0; [discriminate|].
  cbn [valid_schedule forallb rows_in_order]. intros Hbad.
  destruct (parses E (ev_datetime event)) eqn:Hevent.
  - destruct (draw_schedule_row_ok E translator
                (Layout.schedule_start_y + i0 * Layout.schedule_row_height)
                event Hevent) as [ops [-> _]].
    cbn [bind]. rewrite (IH (i0 + 1) Hbad). reflexivity.
  - rewrite (draw_schedule_row_raises E translator _ event Hevent).
    reflexivity.
Qed.

Lemma find_race_dt_raises (E : Env) (schedule : list Event) :
  race_entry_parses E schedule = false ->
  find_race_dt E schedule = Raise ValueError.
Proof.
  unfold race_entry_parses. rewrite find_race_dt_first.
  destruct (first_race_entry E schedule) as [event|]; [|discriminate].
  apply parse_if_str_raises.
Qed.

Lemma find_race_dt_returns (E : Env) (schedule : list Event) :
  race_entry_parses E schedule = true ->
  exists d, find_race_dt E schedule = Ok d.
Proof.
  unfold race_entry_parses. rewrite find_race_dt_first.
  destruct (first_race_entry E schedule) as [event|].
  - apply parse_if_str_ok.
  - intros _. exists None. reflexivity.
Qed.

Lemma countdown_box_returns (E : Env) (translator : Translator)
    (race_data : RaceData) (schedule_bottom : Z) :
  race_entry_parses E (get (rd_schedule race_data) []) = true ->
  exists y ops,
    _draw_countdown_box E translator race_data schedule_bottom = Ok (y, ops).
Proof.
  intros Hrace.
  destruct (find_race_dt_returns E _ Hrace) as [[dt|] Hfind].
  - destruct (Z.lt_ge_cases 0 (remaining_us E dt)) as [Hahead|Hpast].
    + eexists _, _.
      exact (countdown_box_ahead E translator race_data schedule_bottom dt
               Hfind Hahead).
    + eexists _, _.
      exact (countdown_box_past E translator race_data schedule_bottom dt
               Hfind Hpast).
  - eexists _, _.
    exact (countdown_box_not_found E translator race_data schedule_bottom
             Hfind).
Qed.

Lemma circuit_stat_lines_raises (translator : Translator)
    (circuit_data : CircuitStats) :
  stats_well_formed circuit_data = false ->
  circuit_stat_lines translator circuit_data = Raise IndexError.
Proof.
  unfold stats_well_formed, circuit_stat_lines.
  destruct (truthy_opt (fastest_lap_time circuit_data)); [|discriminate].
  destruct (truthy_opt (fastest_lap_driver circuit_data)); [|discriminate].
  cbn [andb]. unfold last_item.
  destruct (split (get (fastest_lap_driver circuit_data) []));
    [reflexivity|discriminate].
Qed.

Lemma draw_circuit_stats_raises (E : Env) (translator : Translator)
    (race_data : RaceData) (schedule_bottom : Z) :
  circuit_table_ok E race_data = false ->
  _draw_circuit_stats E translator race_data schedule_bottom
  = Raise IndexError.
Proof.
  unfold circuit_table_ok, _draw_circuit_stats.
  destruct (CIRCUITS_DATA E _) as [circuit_data|]; [|discriminate].
  intros Hbad. rewrite (circuit_stat_lines_raises translator _ Hbad).
  reflexivity.
Qed.

(** What [render_calendar] does with its input, case by case. *)
Lemma render_calendar_cases (E : Env) (translator : Translator)
    (race_data : RaceData) (historical_data : option HistoricalData) :
  let schedule := get (rd_schedule race_data) [] in
  (track_section_returns E race_data = false ->
   render_calendar E translator race_data historical_data = Raise ValueError)
  /\ (valid_schedule E (firstn 6 schedule) = false ->
      render_calendar E translator race_data historical_data
      = Raise ValueError)
  /\ (valid_schedule E (firstn 6 schedule) = true ->
      race_entry_parses E schedule = false ->
      render_calendar E translator race_data historical_data
      = Raise ValueError)
  /\ (track_section_returns E race_data = true ->
      valid_schedule E (firstn 6 schedule) = true ->
      race_entry_parses E schedule = true ->
      circuit_table_ok E race_data = false ->
      render_calendar E translator race_data historical_data
      = Raise IndexError)
  /\ (track_section_returns E race_data = true ->
      valid_schedule E (firstn 6 schedule) = true ->
      race_entry_parses E schedule = true ->
      circuit_table_ok E race_data = true ->
      results_flag_fits E race_data historical_data = false ->
      render_calendar E translator race_data historical_data
      = Raise ValueError)
  /\ (track_section_returns E race_data = true ->
      valid_schedule E (firstn 6 schedule) = true ->
      race_entry_parses E schedule = true ->
      circuit_table_ok E race_data = true ->
      results_flag_fits E race_data historical_data = true ->
      exists data,
        render_calendar E translator race_data historical_data = Ok data
        /\ bmp_decode data
           = Some {| bmp_width := 800; bmp_height := 480; bmp_bits := 1 |}).
Proof.
  cbv zeta. set (schedule := get (rd_schedule race_data) []).
  assert (Hrows_bad : valid_schedule E (firstn 6 schedule) = false ->
            _draw_schedule_section E translator race_data = Raise ValueError).
  { intros Hbad. unfold _draw_schedule_section. fold schedule.
    rewrite schedule_rows_first_six,
      (rows_in_order_raises E translator _ 0 Hbad).
    reflexivity. }
  assert (Hrace_bad : valid_schedule E (firstn 6 schedule) = true ->
            race_entry_parses E schedule = false ->
            _draw_schedule_section E translator race_data = Raise ValueError).
  { intros Hrows Hrace.
    destruct (schedule_rows_ok E translator schedule Hrows)
      as [row_ops [Hloop _]].
    unfold _draw_schedule_section. fold schedule.
    rewrite Hloop. cbn [bind].
    unfold _draw_countdown_box. fold schedule.
    rewrite (find_race_dt_raises E schedule Hrace). reflexivity. }
  assert (Hearly : _draw_schedule_section E translator race_data
                   = Raise ValueError ->
            render_calendar E translator race_data historical_data
            = Raise ValueError).
  { intros Hsection. unfold render_calendar.
    destruct (track_section_returns E race_data) eqn:Htrack.
    - destruct (draw_track_section_returns E race_data Htrack)
        as [track_ops ->].
      cbn [bind]. rewrite Hsection. reflexivity.
    - rewrite (draw_track_section_raises E race_data Htrack). reflexivity. }
  assert (Hlate : track_section_returns E race_data = true ->
            valid_schedule E (firstn 6 schedule) = true ->
            race_entry_parses E schedule = true ->
            exists track_ops y section_ops,
              _draw_track_section E race_data = Ok track_ops
              /\ _draw_schedule_section E translator race_data
                 = Ok (y, section_ops)).
  { intros Htrack Hrows Hrace.
    destruct (draw_track_section_returns E race_data Htrack)
      as [track_ops Htrack_ops].
    destruct (schedule_rows_ok E translator schedule Hrows)
      as [row_ops [Hloop _]].
    destruct (countdown_box_returns E translator race_data
                (140 + 28 * Z.of_nat (length (firstn 6 schedule)) + 5) Hrace)
      as [y [box_ops Hbox]].
    exists track_ops, y. eexists. split; [exact Htrack_ops|].
    unfold _draw_schedule_section. fold schedule.
    rewrite Hloop. cbn [bind]. rewrite Hbox. cbn [bind]. reflexivity. }
  split; [|split; [|split; [|split; [|split]]]].
  - intros Htrack. unfold render_calendar.
    rewrite (draw_track_section_raises E race_data Htrack). reflexivity.
  - intros Hbad. exact (Hearly (Hrows_bad Hbad)).
  - intros Hrows Hrace. exact (Hearly (Hrace_bad Hrows Hrace)).
  - intros Htrack Hrows Hrace Htable.
    destruct (Hlate Htrack Hrows Hrace)
      as [track_ops [y [section_ops [Htrack_ops Hsection]]]].
    unfold render_calendar. rewrite Htrack_ops. cbn [bind].
    rewrite Hsection. cbn [bind].
    rewrite (draw_circuit_stats_raises E translator race_data y Htable).
    reflexivity.
  - intros Htrack Hrows Hrace Htable Hflag.
    destruct (Hlate Htrack Hrows Hrace)
      as [track_ops [y [section_ops [Htrack_ops Hsection]]]].
    destruct (draw_circuit_stats_ok E translator race_data y Htable)
      as [stat_ops Hstats].
    pose proof (draw_results_section_cases E translator race_data
                  historical_data) as Hresults.
    rewrite Hflag in Hresults.
    unfold render_calendar. rewrite Htrack_ops. cbn [bind].
    rewrite Hsection. cbn [bind]. rewrite Hstats. cbn [bind].
    rewrite Hresults. reflexivity.
  - intros Htrack Hrows Hrace Htable Hflag.
    destruct (Hlate Htrack Hrows Hrace)
      as [track_ops [y [section_ops [Htrack_ops Hsection]]]].
    destruct (draw_circuit_stats_ok E translator race_data y Htable)
      as [stat_ops Hstats].
    pose proof (draw_results_section_cases E translator race_data
                  historical_data) as Hresults.
    rewrite Hflag in Hresults. destruct Hresults as [result_ops Hresults].
    unfold render_calendar. rewrite Htrack_ops. cbn [bind].
    rewrite Hsection. cbn [bind]. rewrite Hstats. cbn [bind].
    rewrite Hresults. cbn [bind].
    eexists. split; [reflexivity|].
    apply canvas_encodes_to_bitmap; reflexivity.
Qed.

(** X11. [render_calendar] returns a bitmap exactly when the track section
    returns (the search for the image does, [glob] refusing none of the
    patterns it is handed, and the image found is not fitted to an empty
    size), the first six schedule entries and the first race entry have
    usable timestamps, the static circuit entry is well formed and the
    results section has no flag that is scaled to an empty size.  Entries
    after the sixth that are not the first race entry are never parsed,
    whatever they hold. *)
Theorem render_calendar_returns_iff (E : Env) (translator : Translator)
    (race_data : RaceData) (historical_data : option HistoricalData) :
  let schedule := get (rd_schedule race_data) [] in
  (exists data,
     render_calendar E translator race_data historical_data = Ok data
     /\ bmp_decode data
        = Some {| bmp_width := 800; bmp_height := 480; bmp_bits := 1 |})
  <-> track_lookup_returns E race_data = true
      /\ track_image_fits E race_data = true
      /\ valid_schedule E (firstn 6 schedule) = true
      /\ race_entry_parses E schedule = true
      /\ circuit_table_ok E race_data = true
      /\ results_flag_fits E race_data historical_data = true.
Proof.
  cbv zeta.
  destruct (render_calendar_cases E translator race_data historical_data)
    as [Htrack [Hrows [Hrace [Htable [Hflag Hgood]]]]].
  cbv zeta in Hrows, Hrace, Htable, Hflag, Hgood.
  rewrite track_section_returns_iff in Htrack, Htable, Hflag, Hgood.
  split.
  - intros [data [Hok _]].
    destruct (track_lookup_returns E race_data).
    2: { rewrite (Htrack eq_refl) in Hok. discriminate Hok. }
    destruct (track_image_fits E race_data).
    2: { rewrite (Htrack eq_refl) in Hok. discriminate Hok. }
    destruct (valid_schedule E (firstn 6 (get (rd_schedule race_data) []))).
    2: { rewrite (Hrows eq_refl) in Hok. discriminate Hok. }
    destruct (race_entry_parses E (get (rd_schedule race_data) [])).
    2: { rewrite (Hrace eq_refl eq_refl) in Hok. discriminate Hok. }
    destruct (circuit_table_ok E race_data).
    2: { rewrite (Htable eq_refl eq_refl eq_refl eq_refl) in Hok.
         discriminate Hok. }
    destruct (results_flag_fits E race_data historical_data).
    2: { rewrite (Hflag eq_refl eq_refl eq_refl eq_refl eq_refl) in Hok.
         discriminate Hok. }
    repeat split.
  - intros [H0 [H0' [H1 [H2 [H3 H4]]]]]. rewrite H0, H0' in Hgood.
    exact (Hgood eq_refl H1 H2 H3 H4).
Qed.

(** X12. A timestamp string that [fromisoformat] rejects, in one of the first six
    schedule entries or in the first race entry, is not replaced by the
    entry's display string: the [ValueError] leaves [render_calendar]. *)
Theorem unparseable_timestamp_aborts_render (E : Env)
    (translator : Translator) (race_data : RaceData)
    (historical_data : option HistoricalData) (event : Event) (s : str) :
  let schedule := get (rd_schedule race_data) [] in
  (In event (firstn 6 schedule)
   \/ first_race_entry E schedule = Some event) ->
  ev_datetime event = DtStr s ->
  fromisoformat E s = None ->
  render_calendar E translator race_data historical_data = Raise ValueError.
Proof.
  cbv zeta. intros Hwhere Hdt Hbad.
  assert (Hevent : parses E (ev_datetime event) = false).
  { rewrite Hdt. simpl. rewrite Hbad. reflexivity. }
  destruct (render_calendar_cases E translator race_data historical_data)
    as [_ [Hrows [Hrace _]]].
  cbv zeta in Hrows, Hrace.
  destruct (valid_schedule E (firstn 6 (get (rd_schedule race_data) [])))
    eqn:Hvalid.
  - destruct Hwhere as [Hin|Hfirst].
    + unfold valid_schedule in Hvalid. rewrite forallb_forall in Hvalid.
      rewrite (Hvalid event Hin) in Hevent. discriminate Hevent.
    + apply (Hrace eq_refl). unfold race_entry_parses.
      rewrite Hfirst. exact Hevent.
  - exact (Hrows eq_refl).
Qed.

Lemma unparseable_timestamp_aborts_render_witness :
  render_calendar Sample.env Sample.english
    {| rd_race_name := None; rd_season := None; rd_circuit := None;
       rd_schedule :=
         Some [ Sample.session "FP1" (DtStr (lit "not a date")) "Fri 13:30" ]
    |} None
  = Raise ValueError.
Proof.
  apply (unparseable_timestamp_aborts_render Sample.env Sample.english _ None
           (Sample.session "FP1" (DtStr (lit "not a date")) "Fri 13:30")
           (lit "not a date")).
  - left. left. reflexivity.
  - reflexivity.
  - reflexivity.
Defined.

(** Seven sessions, the seventh unusable: the calendar is rendered. *)
Lemma render_calendar_returns_iff_witness :
  exists data,
    render_calendar Sample.env Sample.english Fixture.long_weekend None
    = Ok data
    /\ bmp_decode data
       = Some {| bmp_width := 800; bmp_height := 480; bmp_bits := 1 |}.
Proof.
  apply (proj2 (render_calendar_returns_iff Sample.env Sample.english
                  Fixture.long_weekend None)).
  repeat split.
Defined.

(** ** [_draw_track_section] and [_load_track_image] *)

(** X14. What the track section does is fixed by what the search for the
    image finds.  When the search raises the [ValueError] of [glob], so
    does the section.  When it finds nothing, the section draws the rounded
    placeholder between (23, 112) and a corner 23 pixels above the top of
    the label, then the label.  When it finds an image, that image is
    fitted to 494 pixels by the height between y = 92 and 3 pixels above
    the label (from its cropped size when it was not preprocessed): if the
    fitted size differs from the image's and has a side below 1, [resize]
    raises [ValueError]; otherwise the section pastes at (3, 92) an image
    that is always of mode "1" and always of the fitted size (the found
    image itself when it is preprocessed and already of that size), then
    the label.  The label is "COUNTRY, CITY | name" (without the city when
    it is empty) at x = 15, placed so that the bottom of its bounding box
    is at y = 382, 3 pixels above the separator.  Without a circuit id
    nothing is searched. *)
Theorem track_section_shape (E : Env) (race_data : RaceData) :
  let label_text := track_label_text E race_data in
  let box := textbbox E Font.circuit_name label_text in
  let label := Text 15 (382 - bb3 box) label_text 0 Font.circuit_name in
  match _load_track_image E race_data with
  | Raise e => _draw_track_section E race_data = Raise ValueError
  | Ok None =>
      _draw_track_section E race_data
      = Ok [ RoundedRectangle 23 112 477 (382 - bb3 box + bb1 box - 23)
               20 0 3;
             label ]
  | Ok (Some found) =>
      let source := if pic_mode_1 found then found else autocrop E found in
      let new_size :=
        fit_size E 494 (track_area_height E race_data) (pic_width source)
          (pic_height source) in
      if size_eqb new_size (pic_width source, pic_height source)
         || ((1 <=? fst new_size) && (1 <=? snd new_size))
      then exists im,
             _draw_track_section E race_data = Ok [ Paste im 3 92; label ]
             /\ pic_mode_1 im = true
             /\ (pic_width im, pic_height im) = new_size
             /\ (pic_mode_1 found = true ->
                 size_eqb new_size (pic_width found, pic_height found) = true ->
                 im = found)
      else _draw_track_section E race_data = Raise ValueError
  end
  /\ (get (cd_circuitId (get (rd_circuit race_data) empty_circuit)) [] = [] ->
      _load_track_image E race_data = Ok None).
Proof.
  split; [exact (draw_track_section_cases E race_data)|].
  intros Hid. unfold _load_track_image. cbv zeta. rewrite Hid. reflexivity.
Qed.

(** X29. A circuit id that makes a pattern [glob] refuses is fatal: the
    first pattern of the search is "*" + circuit id + "*.bmp", [glob] is
    called on it outside any [try], and its [ValueError] leaves
    [_load_track_image], the track section and [render_calendar], whatever
    the schedule and the other assets are. *)
Theorem refused_track_pattern_aborts_render (E : Env)
    (translator : Translator) (race_data : RaceData)
    (historical_data : option HistoricalData) :
  let circuit_id :=
    get (cd_circuitId (get (rd_circuit race_data) empty_circuit)) [] in
  circuit_id <> [] ->
  glob E TRACKS_PROCESSED_DIR (lit "*" ++ circuit_id ++ lit "*.bmp") = None ->
  _load_track_image E race_data = Raise ValueError
  /\ _draw_track_section E race_data = Raise ValueError
  /\ render_calendar E translator race_data historical_data
     = Raise ValueError.
Proof.
  cbv zeta. intros Hid Hrefused.
  assert (Hload : _load_track_image E race_data = Raise ValueError).
  { unfold _load_track_image. cbv zeta.
    set (circuit_id :=
           get (cd_circuitId (get (rd_circuit race_data) empty_circuit)) [])
      in *.
    assert (Htruthy : truthy circuit_id = true)
      by (destruct circuit_id; [contradiction|reflexivity]).
    rewrite Htruthy. cbn [negb].
    set (location := replace_space_by_underscore _).
    assert (Hhead : exists rest,
              processed_patterns E circuit_id location
              = (lit "*" ++ circuit_id ++ lit "*.bmp") :: rest).
    { unfold processed_patterns. cbv zeta.
      destruct (truthy location); eexists; reflexivity. }
    destruct Hhead as [rest ->].
    cbn [open_first_match]. rewrite Hrefused. reflexivity. }
  assert (Hsection : _draw_track_section E race_data = Raise ValueError).
  { unfold _draw_track_section. cbv zeta. rewrite Hload. reflexivity. }
  split; [exact Hload|]. split; [exact Hsection|].
  unfold render_calendar. rewrite Hsection. reflexivity.
Qed.

Lemma refused_track_pattern_aborts_render_witness :
  _load_track_image (Fixture.world (fun _ => None) None None None)
    Fixture.starred
  = Raise ValueError
  /\ _draw_track_section (Fixture.world (fun _ => None) None None None)
       Fixture.starred
     = Raise ValueError
  /\ render_calendar (Fixture.world (fun _ => None) None None None)
       Sample.english Fixture.starred None
     = Raise ValueError.
Proof.
  apply (refused_track_pattern_aborts_render
           (Fixture.world (fun _ => None) None None None) Sample.english
           Fixture.starred None).
  - discriminate.
  - reflexivity.
Defined.

(** ** [_draw_header] and [_draw_f1_logo] *)

(** X15. The logo is asked for at 226 by 86 pixels, the left block less 2 pixels
    of padding all round.  A logo within that size is pasted fourth, after
    the two blocks and the line and before the two title lines, centred in
    the 230 by 90 block up to one pixel, and stays at least 2 pixels inside
    it on every side. *)
Theorem header_logo_stays_in_left_block (E : Env) (race_data : RaceData)
    (logo : Picture) :
  f1_logo E 226 86 = Some logo ->
  pic_width logo <= 226 ->
  pic_height logo <= 86 ->
  exists (x y : Z) (line1 line2 : str),
    _draw_header E race_data
    = [ Rectangle 0 0 230 90 (Some 1) None 1;
        Line 0 89 230 89 0 2;
        Rectangle 231 0 800 90 (Some 0) None 1;
        Paste logo x y;
        Text 245 0 line1 1 Font.header_title;
        Text 245 40 line2 1 Font.header_subtitle ]
    /\ 2 <= x /\ x + pic_width logo <= 228
    /\ 2 <= y /\ y + pic_height logo <= 88
    /\ 0 <= (230 - (x + pic_width logo)) - x <= 1
    /\ 0 <= (90 - (y + pic_height logo)) - y <= 1.
Proof.
  intros Hlogo Hw Hh. unfold _draw_header, _draw_f1_logo. cbv zeta.
  change (Layout.header_split_x - 2 * 2) with 226.
  change (Layout.header_height - 2 * 2) with 86.
  rewrite Hlogo.
  eexists _, _, _, _. split; [reflexivity|].
  change Layout.header_split_x with 230.
  change Layout.header_height with 90.
  pose proof (Z.div_mod (230 - pic_width logo) 2 ltac:(lia)).
  pose proof (Z.mod_pos_bound (230 - pic_width logo) 2 ltac:(lia)).
  pose proof (Z.div_mod (90 - pic_height logo) 2 ltac:(lia)).
  pose proof (Z.mod_pos_bound (90 - pic_height logo) 2 ltac:(lia)).
  repeat split; lia.
Qed.

Lemma header_logo_stays_in_left_block_witness :
  exists (x y : Z) (line1 line2 : str),
    _draw_header
      (Fixture.world (fun _ => None) (Some (Fixture.picture 201 80)) None None)
      Sample.weekend
    = [ Rectangle 0 0 230 90 (Some 1) None 1;
        Line 0 89 230 89 0 2;
        Rectangle 231 0 800 90 (Some 0) None 1;
        Paste (Fixture.picture 201 80) x y;
        Text 245 0 line1 1 Font.header_title;
        Text 245 40 line2 1 Font.header_subtitle ]
    /\ 2 <= x /\ x + 201 <= 228
    /\ 2 <= y /\ y + 80 <= 88
    /\ 0 <= (230 - (x + 201)) - x <= 1
    /\ 0 <= (90 - (y + 80)) - y <= 1.
Proof.
  apply (header_logo_stays_in_left_block
           (Fixture.world (fun _ => None) (Some (Fixture.picture 201 80))
              None None)
           Sample.weekend (Fixture.picture 201 80) eq_refl).
  - simpl. lia.
  - simpl. lia.
Defined.

(** * Properties of the callers *)

(** ** [_get_image_key] *)

Lemma replace_char_removes (old : char) (new s : str) :
  ~ In old new -> ~ In old (replace_char old new s).
Proof.
  intros Hnew Hin. unfold replace_char in Hin.
  apply in_flat_map in Hin as [c [Hs Hc]].
  destruct (N.eqb_spec c old) as [Heq|Hne].
  - exact (Hnew Hc).
  - destruct Hc as [Hc|[]]. contradiction.
Qed.

Lemma lit_calendar_has_no_slash : ~ In 47%N (lit "calendar_").
Proof.
  intros Hin. vm_compute in Hin.
  repeat (destruct Hin as [Hin|Hin]; [discriminate Hin|]). exact Hin.
Qed.

(** X16. A "/" never enters an image key through the time zone: when the
    language code has none, the key has none, so the key names a file directly
    in the images directory. *)
Theorem image_key_has_no_slash (DEFAULT_TIMEZONE lang : str)
    (tz : option str) :
  ~ In 47%N lang ->
  ~ In 47%N (_get_image_key DEFAULT_TIMEZONE lang tz).
Proof.
  intros Hlang. unfold _get_image_key.
  assert (Hkey : ~ In 47%N (lit "calendar_" ++ lang)).
  { intros Hin. apply in_app_or in Hin as [Hin|Hin];
      [exact (lit_calendar_has_no_slash Hin)|exact (Hlang Hin)]. }
  destruct (truthy_opt tz && negb (PyStr.eqb (get tz []) DEFAULT_TIMEZONE));
    [|exact Hkey].
  intros Hin. rewrite app_assoc in Hin.
  apply in_app_or in Hin as [Hin|Hin].
  - apply in_app_or in Hin as [Hin|Hin]; [exact (Hkey Hin)|].
    vm_compute in Hin. destruct Hin as [Hin|[]]. discriminate Hin.
  - revert Hin. apply replace_char_removes.
    vm_compute. intros [Hin|[]]. discriminate Hin.
Qed.

Lemma image_key_has_no_slash_witness :
  ~ In 47%N
      (_get_image_key (lit "Europe/Prague") (lit "en")
         (Some (lit "America/New_York"))).
Proof.
  apply (image_key_has_no_slash (lit "Europe/Prague") (lit "en")
           (Some (lit "America/New_York"))).
  vm_compute. intros [Hin|[Hin|[]]]; discriminate Hin.
Defined.

(** X17. The name under which the endpoint looks for a pre-generated image is
    the key under which the scheduler stores it, for every language and
    every time zone, given or not. *)
Theorem endpoint_looks_up_scheduler_key (DEFAULT_TIMEZONE lang : str)
    (tz : option str) :
  pregenerated_image_key DEFAULT_TIMEZONE lang tz
  = _get_image_key DEFAULT_TIMEZONE lang tz.
Proof.
  unfold pregenerated_image_key, _get_image_key, str_or.
  destruct (truthy_opt tz); cbn [andb].
  - destruct (PyStr.eqb (get tz []) DEFAULT_TIMEZONE); cbn [negb];
      [reflexivity|].
    rewrite <- !app_assoc. reflexivity.
  - rewrite (proj2 (str_eqb_iff DEFAULT_TIMEZONE DEFAULT_TIMEZONE) eq_refl).
    reflexivity.
Qed.

(** ** [_parse_cron_expression] *)

Lemma split_from_words (s word : str) :
  forallb (fun c => negb (is_space c)) word = true ->
  Forall is_word (split_from s word).
Proof.
  revert word. induction s as [|c s IH]; intros word Hword; cbn [split_from].
  - destruct word as [|c' word']; cbn [truthy]; constructor; [|constructor].
    split; [discriminate|exact Hword].
  - destruct (is_space c) eqn:Hc.
    + destruct word as [|c' word']; cbn [truthy].
      * apply IH. reflexivity.
      * constructor; [split; [discriminate|exact Hword]|].
        apply IH. reflexivity.
    + apply IH. rewrite forallb_app. rewrite Hword. cbn [forallb].
      rewrite Hc. reflexivity.
Qed.

Lemma split_words (s : str) : Forall is_word (split s).
Proof. apply split_from_words. reflexivity. Qed.

Lemma split_lstrip (s : str) : split (lstrip s) = split s.
Proof.
  unfold split. induction s as [|c s IH]; [reflexivity|].
  cbn [lstrip split_from]. destruct (is_space c) eqn:Hc.
  - cbn [truthy]. exact IH.
  - cbn [split_from]. rewrite Hc. reflexivity.
Qed.

Lemma lstrip_decompose (s : str) :
  exists blanks, forallb is_space blanks = true /\ s = blanks ++ lstrip s.
Proof.
  induction s as [|c s [blanks [Hblanks Hs]]].
  - exists []. split; reflexivity.
  - cbn [lstrip]. destruct (is_space c) eqn:Hc.
    + exists (c :: blanks). cbn [forallb]. rewrite Hc, Hblanks.
      split; [reflexivity|]. cbn [app]. f_equal. exact Hs.
    + exists []. split; reflexivity.
Qed.

Lemma split_from_trailing_blanks (s blanks word : str) :
  forallb is_space blanks = true ->
  split_from (s ++ blanks) word = split_from s word.
Proof.
  intros Hblanks. revert word.
  induction s as [|c s IH]; intros word.
  - cbn [app]. clear -Hblanks. revert word.
    induction blanks as [|b blanks IH]; intros word; [reflexivity|].
    cbn [forallb] in Hblanks. apply andb_prop in Hblanks as [Hb Hrest].
    cbn [split_from]. rewrite Hb.
    destruct word as [|c word]; cbn [truthy].
    + exact (IH Hrest []).
    + rewrite (IH Hrest []). reflexivity.
  - cbn [app split_from]. destruct (is_space c).
    + destruct (truthy word); rewrite IH; reflexivity.
    + apply IH.
Qed.

(** [strip()] before [split()] changes nothing. *)
Lemma split_strip (s : str) : split (strip s) = split s.
Proof.
  rewrite <- (split_lstrip s). unfold strip.
  destruct (lstrip_decompose (rev (lstrip s))) as [blanks [Hblanks Hrev]].
  apply (f_equal (@rev char)) in Hrev.
  rewrite rev_involutive, rev_app_distr in Hrev.
  rewrite Hrev at 2. unfold split.
  rewrite split_from_trailing_blanks; [reflexivity|].
  rewrite forallb_forall in *. intros c Hc. apply Hblanks.
  apply in_rev. exact Hc.
Qed.

(** X18. The five fields of the trigger are the five words of the expression,
    in order, when it has exactly five words separated by white space
    (leading and trailing white space does not count); any other expression
    gives the fields of "0 3 * * *".  In both cases every field is a word:
    not empty and free of white space. *)
Theorem cron_fields_are_five_words (cron_expr : str) :
  let kwargs := _parse_cron_expression cron_expr in
  let fields :=
    [ minute kwargs; hour kwargs; day kwargs; month kwargs;
      day_of_week kwargs ] in
  (length (split cron_expr) = 5%nat -> fields = split cron_expr)
  /\ (length (split cron_expr) <> 5%nat ->
      fields = [ lit "0"; lit "3"; lit "*"; lit "*"; lit "*" ])
  /\ Forall is_word fields.
Proof.
  cbv zeta. unfold _parse_cron_expression. rewrite split_strip.
  pose proof (split_words cron_expr) as Hwords.
  destruct (Nat.eqb_spec (length (split cron_expr)) 5) as [Hfive|Hother];
    cbn [negb minute hour day month day_of_week].
  - destruct (split cron_expr) as [|a [|b [|c [|d [|e [|f rest]]]]]];
      try discriminate Hfive.
    cbn [nth]. repeat split; [contradiction|exact Hwords].
  - split; [contradiction|]. split; [reflexivity|].
    cbn [nth]. repeat constructor; discriminate.
Qed.

Lemma cron_fields_are_five_words_witness :
  (let kwargs := _parse_cron_expression (lit "  30 2 * * 1 ") in
   [ minute kwargs; hour kwargs; day kwargs; month kwargs;
     day_of_week kwargs ])
  = [ lit "30"; lit "2"; lit "*"; lit "*"; lit "1" ].
Proof.
  exact (proj1 (cron_fields_are_five_words (lit "  30 2 * * 1 ")) eq_refl).
Defined.

(** ** [_get_cache_key] *)

Lemma lit_inj (a b : string) : lit a = lit b -> a = b.
Proof.
  unfold lit. intros Heq.
  rewrite <- (string_of_list_ascii_of_string a),
    <- (string_of_list_ascii_of_string b).
  f_equal. revert Heq.
  generalize (list_ascii_of_string a) (list_ascii_of_string b).
  intros la. induction la as [|x la IH]; intros [|y lb]; simpl;
    try discriminate; [reflexivity|].
  intros [= Hxy Hrest]. f_equal; [|exact (IH lb Hrest)].
  rewrite <- (ascii_N_embedding x), <- (ascii_N_embedding y), Hxy.
  reflexivity.
Qed.

Lemma str_of_int_inj (a b : Z) : str_of_int a = str_of_int b -> a = b.
Proof.
  unfold str_of_int. intros Heq. apply lit_inj in Heq.
  apply to_int_inj.
  assert (Hnonnil : forall n, Z.to_int n <> Decimal.Pos Decimal.Nil
                              /\ Z.to_int n <> Decimal.Neg Decimal.Nil).
  { intros [|p|p]; simpl; split; try discriminate;
      intros [= Hp]; exact (Unsigned.to_uint_nonnil p Hp). }
  destruct (Hnonnil a) as [Ha1 Ha2]. destruct (Hnonnil b) as [Hb1 Hb2].
  pose proof (NilZero.isi (Z.to_int a) Ha1 Ha2) as Hpa.
  pose proof (NilZero.isi (Z.to_int b) Hb1 Hb2) as Hpb.
  rewrite Heq in Hpa. congruence.
Qed.

(** The characters of a printed integer: digits and the minus sign. *)
Lemma uint_chars (d : Decimal.uint) :
  Forall (fun c => (48 <= c <= 57)%N) (lit (NilEmpty.string_of_uint d)).
Proof.
  induction d; cbn [NilEmpty.string_of_uint]; try constructor;
    try exact IHd; vm_compute; split; discriminate.
Qed.

Lemma str_of_int_chars (n : Z) :
  Forall (fun c => (48 <= c <= 57)%N \/ c = 45%N) (str_of_int n).
Proof.
  assert (Huint : forall d,
            Forall (fun c => (48 <= c <= 57)%N \/ c = 45%N)
              (lit (NilZero.string_of_uint d))).
  { intros d.
    assert (Hd : Forall (fun c => (48 <= c <= 57)%N)
                   (lit (NilZero.string_of_uint d))).
    { destruct d; try apply uint_chars.
      constructor; [vm_compute; split; discriminate|constructor]. }
    eapply Forall_impl; [|exact Hd]. cbv beta. intros c Hc. left. exact Hc. }
  unfold str_of_int. destruct (Z.to_int n) as [d|d];
    cbn [NilZero.string_of_int].
  - apply Huint.
  - constructor; [right; reflexivity|apply Huint].
Qed.

Lemma int_or_next_has_no_colon (v : option Z) :
  ~ In 58%N (int_or v (lit "next")).
Proof.
  assert (Hnext : ~ In 58%N (lit "next")).
  { vm_compute. intros Hin.
    repeat (destruct Hin as [Hin|Hin]; [discriminate Hin|]). exact Hin. }
  assert (Hint : forall n, ~ In 58%N (str_of_int n)).
  { intros n Hin. pose proof (str_of_int_chars n) as Hchars.
    rewrite Forall_forall in Hchars.
    destruct (Hchars _ Hin) as [[Hlo Hhi]|Heq]; [|discriminate Heq].
    apply Hhi. reflexivity. }
  destruct v as [n|]; cbn [int_or]; [|exact Hnext].
  destruct (n =? 0); [exact Hnext|apply Hint].
Qed.

Lemma int_or_next_inj (a b : option Z) :
  int_or a (lit "next") = int_or b (lit "next") -> nonzero a = nonzero b.
Proof.
  assert (Hnot_next : forall n, str_of_int n <> lit "next").
  { intros n Heq. pose proof (str_of_int_chars n) as Hchars.
    rewrite Heq in Hchars. inversion Hchars as [|c rest Hc _]; subst.
    destruct Hc as [[_ Hhi]|Hc]; [|discriminate Hc].
    apply Hhi. reflexivity. }
  destruct a as [x|], b as [y|]; cbn [int_or nonzero];
    repeat match goal with
           | |- context [?n =? 0] => destruct (n =? 0)
           end;
    intros Heq; try reflexivity.
  all: try (exfalso; exact (Hnot_next _ Heq)).
  all: try (exfalso; symmetry in Heq; exact (Hnot_next _ Heq)).
  f_equal. exact (str_of_int_inj x y Heq).
Qed.

(** Two strings cut at a separator that neither head contains agree part by
    part. *)
Lemma separated_inj (c : char) (a a' r r' : str) :
  ~ In c a -> ~ In c a' ->
  a ++ c :: r = a' ++ c :: r' -> a = a' /\ r = r'.
Proof.
  revert a'. induction a as [|x a IH]; intros [|y a'] Ha Ha'; cbn [app].
  - intros [= <-]. split; reflexivity.
  - intros [= <- _]. exfalso. apply Ha'. left. reflexivity.
  - intros [= -> _]. exfalso. apply Ha. left. reflexivity.
  - intros [= <- Hrest].
    destruct (IH a' (fun H => Ha (or_intror H)) (fun H => Ha' (or_intror H))
                Hrest) as [-> ->].
    split; reflexivity.
Qed.

(** X19. Requests that share a cache key asked for the same image: when the two
    language codes hold no ":", equal keys mean the same language, the same
    year and the same round (0 counting as not given) and the same time
    zone (an empty one counting as "default"). *)
Theorem cache_key_separates_requests (lang1 lang2 : str)
    (year1 year2 round1 round2 : option Z) (tz1 tz2 : option str) :
  ~ In 58%N lang1 ->
  ~ In 58%N lang2 ->
  _get_cache_key lang1 year1 round1 tz1 = _get_cache_key lang2 year2 round2 tz2 ->
  lang1 = lang2
  /\ nonzero year1 = nonzero year2
  /\ nonzero round1 = nonzero round2
  /\ str_or tz1 (lit "default") = str_or tz2 (lit "default").
Proof.
  intros Hl1 Hl2. unfold _get_cache_key.
  change (lit ":") with [58%N]. cbn [app].
  intros Hkey.
  apply separated_inj in Hkey as [Hlang Hkey]; [|exact Hl1|exact Hl2].
  apply separated_inj in Hkey as [Hyear Hkey];
    [|apply int_or_next_has_no_colon|apply int_or_next_has_no_colon].
  apply separated_inj in Hkey as [Hround Htz];
    [|apply int_or_next_has_no_colon|apply int_or_next_has_no_colon].
  repeat split.
  - exact Hlang.
  - exact (int_or_next_inj _ _ Hyear).
  - exact (int_or_next_inj _ _ Hround).
  - exact Htz.
Qed.

Lemma cache_key_separates_requests_witness :
  lit "en" = lit "en"
  /\ nonzero (Some 0) = nonzero None
  /\ nonzero (Some 3) = nonzero (Some 3)
  /\ str_or (Some []) (lit "default") = str_or (Some (lit "default")) (lit "default").
Proof.
  apply (cache_key_separates_requests (lit "en") (lit "en") (Some 0) None
           (Some 3) (Some 3) (Some []) (Some (lit "default"))).
  - vm_compute. intros [Hin|[Hin|[]]]; discriminate Hin.
  - vm_compute. intros [Hin|[Hin|[]]]; discriminate Hin.
  - reflexivity.
Defined.

(** ** [_convert_race_times_to_timezone] *)

Lemma for_each_ok {A B} (f : A -> res B) (l : list A) (bs : list B) :
  for_each f l = Ok bs -> Forall2 (fun a b => f a = Ok b) l bs.
Proof.
  revert bs. induction l as [|a rest IH]; intros bs; cbn [for_each].
  - intros H. apply Ok_inj in H. subst bs. constructor.
  - destruct (f a) as [b|e] eqn:Hb; cbn [bind]; [|discriminate].
    destruct (for_each f rest) as [bs'|e]; cbn [bind]; [|discriminate].
    intros H. apply Ok_inj in H. subst bs.
    constructor; [exact Hb|]. apply IH. reflexivity.
Qed.


Lemma for_each_raises {A B} (f : A -> res B) (l : list A) (e : exn) :
  for_each f l = Raise e -> exists a, In a l /\ f a = Raise e.
Proof.
  induction l as [|a rest IH]; cbn [for_each]; [discriminate|].
  destruct (f a) as [b|e'] eqn:Hb; cbn [bind].
  - destruct (for_each f rest) as [bs|e'']; cbn [bind]; [discriminate|].
    intros H. destruct (IH H) as [a' [Hin Ha']].
    exists a'. split; [right; exact Hin|exact Ha'].
  - intros H. exists a. split; [left; reflexivity|congruence].
Qed.


Lemma convert_event_name (E : Env) (W : TzWorld) (target_tz : str)
    (event converted : Event) :
  convert_event E W target_tz event = Ok converted ->
  ev_name converted = ev_name event.
Proof.
  unfold convert_event.
  destruct (ev_datetime event) as [|s|d]; try congruence.
  destruct (truthy s); [|congruence].
  destruct (fromisoformat E s) as [dt|]; [|congruence].
  destruct (astimezone W dt target_tz); [|discriminate].
  intros H. apply Ok_inj in H. subst converted. reflexivity.
Qed.

Lemma convert_event_parses (E : Env) (W : TzWorld) (target_tz : str)
    (event converted : Event) :
  isoformat_parses E W ->
  convert_event E W target_tz event = Ok converted ->
  parses E (ev_datetime converted) = parses E (ev_datetime event).
Proof.
  intros Hlaw. unfold convert_event.
  destruct (ev_datetime event) as [|s|d] eqn:Hdt;
    try (intros H; apply Ok_inj in H; subst converted; rewrite Hdt;
         reflexivity).
  destruct (truthy s);
    [|intros H; apply Ok_inj in H; subst converted; rewrite Hdt;
      reflexivity].
  destruct (fromisoformat E s) as [dt|] eqn:Hs;
    [|intros H; apply Ok_inj in H; subst converted; rewrite Hdt;
      reflexivity].
  destruct (astimezone W dt target_tz) as [dt_local|]; [|discriminate].
  intros H. apply Ok_inj in H. subst converted.
  cbn [ev_datetime parses]. rewrite Hs.
  specialize (Hlaw dt_local).
  destruct (fromisoformat E (isoformat W dt_local));
    [reflexivity|contradiction].
Qed.

(** The entry is converted, or the conversion raises [OverflowError]:
    which of the two, [entry_overflows] decides. *)
Lemma convert_event_cases (E : Env) (W : TzWorld) (target_tz : str)
    (event : Event) :
  if entry_overflows E W target_tz event
  then convert_event E W target_tz event = Raise OverflowError
  else exists converted, convert_event E W target_tz event = Ok converted.
Proof.
  unfold entry_overflows, convert_event.
  destruct (ev_datetime event) as [|s|d]; try (eexists; reflexivity).
  destruct (truthy s); cbn [andb]; [|eexists; reflexivity].
  destruct (fromisoformat E s) as [dt|]; [|eexists; reflexivity].
  destruct (astimezone W dt target_tz); [eexists|]; reflexivity.
Qed.

(** What the conversion returns, when it returns. *)
Lemma converted_schedule (E : Env) (W : TzWorld) (race_data result : RaceDict)
    (target_tz_str : str) :
  _convert_race_times_to_timezone E W race_data target_tz_str = Ok result ->
  match pytz_timezone W target_tz_str with
  | Some target_tz =>
      Forall2 (fun event converted =>
                 convert_event E W target_tz event = Ok converted)
        (get (rd_schedule (rd_base race_data)) [])
        (get (rd_schedule (rd_base result)) [])
      /\ rd_race_name (rd_base result) = rd_race_name (rd_base race_data)
      /\ rd_season (rd_base result) = rd_season (rd_base race_data)
      /\ rd_circuit (rd_base result) = rd_circuit (rd_base race_data)
      /\ rd_round result = rd_round race_data
      /\ rd_timezone result = Some target_tz_str
  | None => result = race_data
  end.
Proof.
  unfold _convert_race_times_to_timezone.
  destruct (pytz_timezone W target_tz_str) as [target_tz|];
    [|intros H; apply Ok_inj in H; congruence].
  cbv zeta.
  destruct (for_each (convert_event E W target_tz) _) as [schedule|e]
    eqn:Hloop; cbn [bind]; [|discriminate].
  intros H. apply Ok_inj in H. subst result. cbn [rd_base rd_schedule
    rd_race_name rd_season rd_circuit rd_round rd_timezone].
  apply for_each_ok in Hloop.
  repeat split.
  destruct (rd_schedule (rd_base race_data)) as [entries|];
    cbn [get] in Hloop |- *; [exact Hloop|].
  inversion Hloop. constructor.
Qed.

Lemma forall2_map_eq {A B C} (f : A -> C) (g : B -> C) (R : A -> B -> Prop)
    (l : list A) (l' : list B) :
  (forall a b, R a b -> g b = f a) ->
  Forall2 R l l' -> map g l' = map f l.
Proof.
  intros Hfg Hall. induction Hall as [|a b l l' Hab _ IH]; [reflexivity|].
  cbn [map]. rewrite (Hfg a b Hab), IH. reflexivity.
Qed.

(** X20. Converting a race to another time zone keeps every session in its
    place: a result that is returned has the same session names in the same
    order, and race name, season, circuit and round are untouched.  With an
    unknown zone name the input comes back as it is; with a known one the
    result carries that name as its time zone.  The only exception that
    leaves the conversion is the [OverflowError] of [astimezone]. *)
Theorem timezone_conversion_keeps_sessions (E : Env) (W : TzWorld)
    (race_data : RaceDict) (target_tz_str : str) :
  (pytz_timezone W target_tz_str = None ->
   _convert_race_times_to_timezone E W race_data target_tz_str = Ok race_data)
  /\ (forall e,
        _convert_race_times_to_timezone E W race_data target_tz_str = Raise e ->
        e = OverflowError)
  /\ (forall result,
        _convert_race_times_to_timezone E W race_data target_tz_str
        = Ok result ->
        map ev_name (get (rd_schedule (rd_base result)) [])
        = map ev_name (get (rd_schedule (rd_base race_data)) [])
        /\ rd_race_name (rd_base result) = rd_race_name (rd_base race_data)
        /\ rd_season (rd_base result) = rd_season (rd_base race_data)
        /\ rd_circuit (rd_base result) = rd_circuit (rd_base race_data)
        /\ rd_round result = rd_round race_data
        /\ (pytz_timezone W target_tz_str = None -> result = race_data)
        /\ (pytz_timezone W target_tz_str <> None ->
            rd_timezone result = Some target_tz_str)).
Proof.
  split; [|split].
  - intros Hzone. unfold _convert_race_times_to_timezone. rewrite Hzone.
    reflexivity.
  - intros e. unfold _convert_race_times_to_timezone.
    destruct (pytz_timezone W target_tz_str) as [target_tz|]; [|discriminate].
    cbv zeta.
    destruct (for_each (convert_event E W target_tz) _) as [schedule|e']
      eqn:Hloop; cbn [bind]; [discriminate|].
    intros H. assert (e' = e) by congruence. subst e'.
    apply for_each_raises in Hloop as [event [_ Hevent]].
    pose proof (convert_event_cases E W target_tz event) as Hcases.
    destruct (entry_overflows E W target_tz event).
    + congruence.
    + destruct Hcases as [converted Hok]. congruence.
  - intros result Hresult.
    pose proof (converted_schedule E W race_data result target_tz_str Hresult)
      as Hshape.
    destruct (pytz_timezone W target_tz_str) as [target_tz|].
    + destruct Hshape as [Hschedule [Hname [Hseason [Hcircuit [Hround Hzone]]]]].
      repeat split; try assumption; try congruence.
      apply (forall2_map_eq _ _ _ _ _
               (fun event converted =>
                  convert_event_name E W target_tz event converted)
               Hschedule).
    + subst result. repeat split; congruence.
Qed.

Lemma timezone_conversion_keeps_sessions_witness :
  _convert_race_times_to_timezone Sample.env Fixture.no_zones
    Fixture.weekend_dict (lit "Mars/Olympus")
  = Ok Fixture.weekend_dict
  /\ exists result,
       _convert_race_times_to_timezone Sample.env Fixture.zones
         Fixture.weekend_dict (lit "America/New_York")
       = Ok result
       /\ rd_timezone result = Some (lit "America/New_York").
Proof.
  split.
  - apply (proj1 (timezone_conversion_keeps_sessions Sample.env
                    Fixture.no_zones Fixture.weekend_dict
                    (lit "Mars/Olympus"))).
    reflexivity.
  - eexists. split; [reflexivity|]. reflexivity.
Defined.

Lemma first_race_entry_forall2 (E : Env) (R : Event -> Event -> Prop)
    (schedule converted : list Event) :
  (forall a b, R a b -> ev_name b = ev_name a) ->
  Forall2 R schedule converted ->
  match first_race_entry E schedule, first_race_entry E converted with
  | Some a, Some b => R a b
  | None, None => True
  | _, _ => False
  end.
Proof.
  intros Hname Hall. unfold first_race_entry.
  induction Hall as [|a b l l' Hab _ IH]; [exact I|].
  cbn [find]. rewrite (Hname a b Hab).
  destruct (PyStr.eqb (lower E (get (ev_name a) [])) (lit "race"));
    [exact Hab|exact IH].
Qed.

Lemma valid_schedule_forall2 (E : Env) (R : Event -> Event -> Prop)
    (schedule converted : list Event) :
  (forall a b, R a b ->
     parses E (ev_datetime b) = parses E (ev_datetime a)) ->
  Forall2 R schedule converted ->
  valid_schedule E converted = valid_schedule E schedule.
Proof.
  intros Hparses Hall. unfold valid_schedule.
  induction Hall as [|a b l l' Hab _ IH]; [reflexivity|].
  cbn [forallb]. rewrite (Hparses a b Hab), IH. reflexivity.
Qed.

Lemma forall2_firstn {A B} (R : A -> B -> Prop) (n : nat) (l : list A)
    (l' : list B) :
  Forall2 R l l' -> Forall2 R (firstn n l) (firstn n l').
Proof.
  intros Hall. revert n.
  induction Hall as [|a b l l' Hab _ IH]; intros [|n]; cbn [firstn];
    constructor; [exact Hab|apply IH].
Qed.

(** The conditions under which [render_calendar] returns, as one truth
    value. *)
Lemma render_calendar_returns_when (E : Env) (translator : Translator)
    (race_data : RaceData) (historical_data : option HistoricalData) :
  (exists data,
     render_calendar E translator race_data historical_data = Ok data)
  <-> track_section_returns E race_data
      && valid_schedule E (firstn 6 (get (rd_schedule race_data) []))
      && race_entry_parses E (get (rd_schedule race_data) [])
      && circuit_table_ok E race_data
      && results_flag_fits E race_data historical_data = true.
Proof.
  destruct (render_calendar_cases E translator race_data historical_data)
    as [Htrack [Hrows [Hrace [Htable [Hflag Hgood]]]]].
  cbv zeta in Hrows, Hrace, Htable, Hflag, Hgood.
  destruct (track_section_returns E race_data).
  2: { rewrite (Htrack eq_refl). split; [intros [data H]|]; discriminate. }
  destruct (valid_schedule E (firstn 6 (get (rd_schedule race_data) []))).
  2: { rewrite (Hrows eq_refl). split; [intros [data H]|]; discriminate. }
  destruct (race_entry_parses E (get (rd_schedule race_data) [])).
  2: { rewrite (Hrace eq_refl eq_refl).
       split; [intros [data H]|]; discriminate. }
  destruct (circuit_table_ok E race_data).
  2: { rewrite (Htable eq_refl eq_refl eq_refl eq_refl).
       split; [intros [data H]|]; discriminate. }
  destruct (results_flag_fits E race_data historical_data).
  2: { rewrite (Hflag eq_refl eq_refl eq_refl eq_refl eq_refl).
       split; [intros [data H]|]; discriminate. }
  split; [reflexivity|]. intros _.
  destruct (Hgood eq_refl eq_refl eq_refl eq_refl eq_refl)
    as [data [Hdata _]].
  exists data. exact Hdata.
Qed.

Lemma track_section_same_circuit (E : Env) (a b : RaceData) :
  rd_circuit a = rd_circuit b ->
  track_section_returns E a = track_section_returns E b.
Proof.
  intros Hcircuit.
  unfold track_section_returns, _draw_track_section, _load_track_image.
  rewrite Hcircuit. reflexivity.
Qed.

Lemma circuit_table_same_circuit (E : Env) (a b : RaceData) :
  rd_circuit a = rd_circuit b ->
  circuit_table_ok E a = circuit_table_ok E b.
Proof.
  intros Hcircuit. unfold circuit_table_ok. rewrite Hcircuit. reflexivity.
Qed.

Lemma results_flag_same_circuit (E : Env) (a b : RaceData)
    (historical_data : option HistoricalData) :
  rd_circuit a = rd_circuit b ->
  results_flag_fits E a historical_data
  = results_flag_fits E b historical_data.
Proof.
  intros Hcircuit. unfold results_flag_fits. rewrite Hcircuit. reflexivity.
Qed.

(** X21. When every string [isoformat] prints is one [fromisoformat] reads,
    a conversion to another time zone that returns changes nothing about
    whether the calendar can be rendered: [render_calendar] returns on the
    converted race exactly when it returns on the original.  (The
    conversion itself does not always return, see the next property.) *)
Theorem timezone_conversion_keeps_renderability (E : Env) (W : TzWorld)
    (translator : Translator) (race_data result : RaceDict)
    (target_tz_str : str) (historical_data : option HistoricalData) :
  isoformat_parses E W ->
  _convert_race_times_to_timezone E W race_data target_tz_str = Ok result ->
  (exists data,
     render_calendar E translator (rd_base result) historical_data = Ok data)
  <-> (exists data,
         render_calendar E translator (rd_base race_data) historical_data
         = Ok data).
Proof.
  intros Hlaw Hresult. rewrite !render_calendar_returns_when.
  pose proof (converted_schedule E W race_data result target_tz_str Hresult)
    as Hshape.
  destruct (pytz_timezone W target_tz_str) as [target_tz|];
    [|subst result; reflexivity].
  destruct Hshape as [Hschedule [_ [_ [Hcircuit _]]]].
  rewrite (track_section_same_circuit E _ _ Hcircuit).
  rewrite (circuit_table_same_circuit E _ _ Hcircuit).
  rewrite (results_flag_same_circuit E _ _ historical_data Hcircuit).
  set (R := fun event converted =>
              convert_event E W target_tz event = Ok converted) in *.
  assert (Hname : forall a b, R a b -> ev_name b = ev_name a)
    by (intros a b; apply convert_event_name).
  assert (Hparses : forall a b, R a b ->
            parses E (ev_datetime b) = parses E (ev_datetime a))
    by (intros a b; apply convert_event_parses; exact Hlaw).
  rewrite (valid_schedule_forall2 E R _ _ Hparses
             (forall2_firstn R 6 _ _ Hschedule)).
  assert (Hrace :
    race_entry_parses E (get (rd_schedule (rd_base result)) [])
    = race_entry_parses E (get (rd_schedule (rd_base race_data)) [])).
  { unfold race_entry_parses.
    pose proof (first_race_entry_forall2 E R _ _ Hname Hschedule) as Hfirst.
    destruct (first_race_entry E (get (rd_schedule (rd_base race_data)) []))
      as [a|];
      destruct (first_race_entry E (get (rd_schedule (rd_base result)) []))
        as [b|]; try contradiction; [|reflexivity].
    exact (Hparses a b Hfirst). }
  rewrite Hrace. reflexivity.
Qed.

Lemma zones_isoformat_parses : isoformat_parses Sample.env Fixture.zones.
Proof. intros d. discriminate. Qed.

Lemma timezone_conversion_keeps_renderability_witness :
  exists result,
    _convert_race_times_to_timezone Sample.env Fixture.zones
      Fixture.weekend_dict (lit "America/New_York")
    = Ok result
    /\ exists data,
         render_calendar Sample.env Sample.english (rd_base result) None
         = Ok data.
Proof.
  eexists. split; [reflexivity|].
  apply (proj2 (timezone_conversion_keeps_renderability Sample.env
                  Fixture.zones Sample.english Fixture.weekend_dict _
                  (lit "America/New_York") None zones_isoformat_parses
                  eq_refl)).
  apply (proj2 (render_calendar_returns_when Sample.env Sample.english
                  Sample.weekend None)).
  reflexivity.
Defined.


(** ** [_convert_race_times] *)



Section SortLemmas.

Context {A : Type} (key : A -> str).


Lemma insert_by_key_perm (x : A) (l : list A) :
  Permutation (x :: l) (insert_by_key key x l).
Proof.
  induction l as [|y rest IH]; [reflexivity|].
  cbn [insert_by_key].
  destruct (str_ltb (key y) (key x)); [|reflexivity].
  rewrite perm_swap. apply perm_skip. exact IH.
Qed.

Lemma sort_by_key_perm (l : list A) : Permutation l (sort_by_key key l).
Proof.
  induction l as [|x rest IH]; [reflexivity|].
  cbn [sort_by_key fold_right]. fold (sort_by_key key rest).
  rewrite <- insert_by_key_perm. apply perm_skip. exact IH.
Qed.





End SortLemmas.


Lemma session_events_ok (E : Env) (W : TzWorld) (target_tz : str)
    (session : option RaceSession) (display_name_ : str)
    (events : list Event) :
  session_events E W target_tz session display_name_ = Ok events ->
  (length events <= 1)%nat
  /\ forall event, In event events ->
       exists dt, event = schedule_event E W display_name_ dt.
Proof.
  unfold session_events.
  destruct session as [session|].
  - destruct (parse_and_convert E W target_tz _ _) as [[dt|]|e];
      cbn [bind]; [| |discriminate];
      intros H; apply Ok_inj in H; subst events; cbn [length].
    + split; [lia|]. intros event [<-|[]]. exists dt. reflexivity.
    + split; [lia|]. intros event [].
  - intros H. apply Ok_inj in H. subst events.
    split; [cbn; lia|]. intros event [].
Qed.


(** What [collected_events] holds, when the sessions are collected. *)
Lemma collected_events_ok (E : Env) (W : TzWorld) (target_tz : str)
    (race : Race) (collected : list Event) (race_dt : option datetime) :
  collected_events E W target_tz race = Ok (collected, race_dt) ->
  parse_and_convert E W target_tz (date race) (race_time race) = Ok race_dt
  /\ (length collected <= 6)%nat
  /\ forall event, In event collected ->
       exists display_name_ dt,
         event = schedule_event E W display_name_ dt
         /\ In display_name_
              [ lit "FP1"; lit "FP2"; lit "FP3"; lit "Qualifying";
                lit "Sprint"; lit "Race" ].
Proof.
  unfold collected_events.
  destruct (session_events E W target_tz (FirstPractice race) _)
    as [fp1|e] eqn:H1; cbn [bind]; [|discriminate].
  destruct (session_events E W target_tz (SecondPractice race) _)
    as [fp2|e] eqn:H2; cbn [bind]; [|discriminate].
  destruct (session_events E W target_tz (ThirdPractice race) _)
    as [fp3|e] eqn:H3; cbn [bind]; [|discriminate].
  destruct (session_events E W target_tz (Qualifying race) _)
    as [qualifying|e] eqn:H4; cbn [bind]; [|discriminate].
  destruct (session_events E W target_tz (Sprint race) _)
    as [sprint|e] eqn:H5; cbn [bind]; [|discriminate].
  destruct (parse_and_convert E W target_tz (date race) (race_time race))
    as [dt|e] eqn:H6; cbn [bind]; [|discriminate].
  intros H. apply Ok_inj in H.
  assert (Hcollected : collected
            = fp1 ++ fp2 ++ fp3 ++ qualifying ++ sprint
              ++ match dt with
                 | Some dt => [schedule_event E W (lit "Race") dt]
                 | None => []
                 end) by congruence.
  assert (Hdt : race_dt = dt) by congruence.
  clear H. subst collected race_dt.
  apply session_events_ok in H1 as [L1 F1], H2 as [L2 F2], H3 as [L3 F3],
    H4 as [L4 F4], H5 as [L5 F5].
  split; [reflexivity|]. split.
  - rewrite !length_app. destruct dt; cbn [length]; lia.
  - intros event. rewrite !in_app_iff.
    intros [H|[H|[H|[H|[H|H]]]]].
    + destruct (F1 event H) as [d ->].
      eexists; exists d; split; [reflexivity|cbn; tauto].
    + destruct (F2 event H) as [d ->].
      eexists; exists d; split; [reflexivity|cbn; tauto].
    + destruct (F3 event H) as [d ->].
      eexists; exists d; split; [reflexivity|cbn; tauto].
    + destruct (F4 event H) as [d ->].
      eexists; exists d; split; [reflexivity|cbn; tauto].
    + destruct (F5 event H) as [d ->].
      eexists; exists d; split; [reflexivity|cbn; tauto].
    + destruct dt as [d|]; [|destruct H]. destruct H as [<-|[]].
      eexists; exists d; split; [reflexivity|cbn; tauto].
Qed.

(** The schedule of a result of [_convert_race_times] is the sorted
    collection; its circuit is the race's. *)
Lemma service_schedule (E : Env) (W : TzWorld) (target_tz timezone_str : str)
    (race : Race) (result : RaceDict) :
  _convert_race_times E W target_tz timezone_str race = Ok result ->
  exists collected race_dt,
    collected_events E W target_tz race = Ok (collected, race_dt)
    /\ get (rd_schedule (rd_base result)) []
       = sort_by_key datetime_key collected.
Proof.
  unfold _convert_race_times.
  destruct (collected_events E W target_tz race) as [[collected race_dt]|e];
    cbn [bind]; [|discriminate].
  intros H. apply Ok_inj in H. subst result.
  exists collected, race_dt. split; reflexivity.
Qed.



(** X23. The renderer's limit of six schedule rows never drops a session the
    data service built: the row loop draws every entry of the service's
    schedule, in the schedule's order, one row of 28 pixels each from
    y = 140. *)
Theorem service_schedule_drawn_whole (E : Env) (W : TzWorld)
    (translator : Translator) (target_tz timezone_str : str) (race : Race)
    (result : RaceDict) :
  _convert_race_times E W target_tz timezone_str race = Ok result ->
  let schedule := get (rd_schedule (rd_base result)) [] in
  draw_schedule_rows E translator schedule Layout.schedule_start_y
  = (ops <- rows_in_order E translator schedule 0 ;;
     Ok (140 + 28 * Z.of_nat (length schedule), ops)).
Proof.
  intros Hresult. cbv zeta.
  destruct (service_schedule E W target_tz timezone_str race result Hresult)
    as [collected [race_dt [Hcollected ->]]].
  rewrite schedule_rows_first_six.
  rewrite firstn_all2; [reflexivity|].
  rewrite <- (Permutation_length (sort_by_key_perm datetime_key collected)).
  apply (collected_events_ok E W target_tz race collected race_dt Hcollected).
Qed.

Lemma service_schedule_drawn_whole_witness :
  exists result ops,
    _convert_race_times Fixture.lenient Fixture.zones (lit "Europe/Prague")
      (lit "Europe/Prague") Fixture.australia
    = Ok result
    /\ draw_schedule_rows Fixture.lenient Sample.english
         (get (rd_schedule (rd_base result)) []) Layout.schedule_start_y
       = Ok (224, ops).
Proof.
  eexists. eexists. split; [reflexivity|].
  etransitivity.
  - apply (service_schedule_drawn_whole Fixture.lenient Fixture.zones
             Sample.english (lit "Europe/Prague") (lit "Europe/Prague")
             Fixture.australia _ eq_refl).
  - reflexivity.
Defined.

(** X24. What the data service returns, the renderer accepts: when every
    string [isoformat] prints is one [fromisoformat] reads, [glob] accepts
    the patterns made from the race's circuit and the assets can be used
    (track image and flag not scaled to an empty size, a well-formed entry
    in the static table), [render_calendar] returns a bitmap of 800 x 480
    at 1 bit per pixel for the race data the service returned: sessions
    whose date or time do not parse were left out of it. *)
Theorem service_race_data_renders (E : Env) (W : TzWorld)
    (translator : Translator) (target_tz timezone_str : str) (race : Race)
    (result : RaceDict) (historical_data : option HistoricalData) :
  isoformat_parses E W ->
  _convert_race_times E W target_tz timezone_str race = Ok result ->
  glob_accepts E (rd_base result) = true ->
  track_image_fits E (rd_base result) = true ->
  circuit_table_ok E (rd_base result) = true ->
  results_flag_fits E (rd_base result) historical_data = true ->
  exists data,
    render_calendar E translator (rd_base result) historical_data = Ok data
    /\ bmp_decode data
       = Some {| bmp_width := 800; bmp_height := 480; bmp_bits := 1 |}.
Proof.
  intros Hlaw Hresult Hglob Hfits Htable Hflag.
  assert (Hparses : forall event,
            In event (get (rd_schedule (rd_base result)) []) ->
            parses E (ev_datetime event) = true).
  { intros event Hin.
    destruct (service_schedule E W target_tz timezone_str race result
                Hresult) as [collected [race_dt [Hcollected Hschedule]]].
    rewrite Hschedule in Hin.
    apply (Permutation_in event
             (Permutation_sym (sort_by_key_perm datetime_key _))) in Hin.
    destruct (collected_events_ok E W target_tz race collected race_dt
                Hcollected) as [_ [_ Hform]].
    destruct (Hform event Hin) as [name [dt [-> _]]].
    cbn [schedule_event ev_datetime parses].
    specialize (Hlaw dt).
    destruct (fromisoformat E (isoformat W dt)); [reflexivity|contradiction]. }
  destruct (render_calendar_cases E translator (rd_base result)
              historical_data) as [_ [_ [_ [_ [_ Hgood]]]]].
  apply Hgood; [| | | exact Htable | exact Hflag].
  - apply track_section_returns_when; assumption.
  - apply valid_schedule_firstn. unfold valid_schedule.
    apply forallb_forall. exact Hparses.
  - unfold race_entry_parses, first_race_entry.
    destruct (find _ (get (rd_schedule (rd_base result)) []))
      as [event|] eqn:Hfind; [|reflexivity].
    apply find_some in Hfind as [Hin _]. exact (Hparses event Hin).
Qed.

Lemma lenient_isoformat_parses :
  isoformat_parses Fixture.lenient Fixture.zones.
Proof. intros d. discriminate. Qed.

Lemma service_race_data_renders_witness :
  exists result data,
    _convert_race_times Fixture.lenient Fixture.zones (lit "Europe/Prague")
      (lit "Europe/Prague") Fixture.australia
    = Ok result
    /\ render_calendar Fixture.lenient Sample.english (rd_base result) None
       = Ok data
    /\ bmp_decode data
       = Some {| bmp_width := 800; bmp_height := 480; bmp_bits := 1 |}.
Proof.
  eexists.
  destruct (service_race_data_renders Fixture.lenient Fixture.zones
              Sample.english (lit "Europe/Prague") (lit "Europe/Prague")
              Fixture.australia _ None lenient_isoformat_parses eq_refl
              eq_refl eq_refl eq_refl eq_refl) as [data Hdata].
  exists data. split; [reflexivity|exact Hdata].
Defined.


(** ** [get_historical_from_static] *)

Lemma build_all_some {A B} (f : A -> option B) (l : list A) (bs : list B) :
  build_all f l = Some bs -> Forall2 (fun a b => f a = Some b) l bs.
Proof.
  revert bs. induction l as [|a rest IH]; intros bs; cbn [build_all].
  - intros H. injection H as <-. constructor.
  - destruct (f a) as [b|] eqn:Hb; [|discriminate].
    destruct (build_all f rest) as [bs'|]; [|discriminate].
    intros H. injection H as <-.
    constructor; [exact Hb|]. apply IH. reflexivity.
Qed.

Lemma build_all_none {A B} (f : A -> option B) (l : list A) (a : A) :
  In a l -> f a = None -> build_all f l = None.
Proof.
  intros Hin Hnone. induction l as [|a' rest IH]; [destruct Hin|].
  cbn [build_all]. destruct Hin as [->|Hin].
  - rewrite Hnone. reflexivity.
  - destruct (f a'); [|reflexivity]. rewrite (IH Hin). reflexivity.
Qed.

(** X25. Reading the static file gives all of a circuit's history or none of
    it.  The result is either [HistoricalData(is_new_track=True)], with no
    season and no results, or it is marked as not new and carries the
    file's season and one entry for every qualifying and every race result
    of the file, in the file's order and however many there are, each with
    the file's position, code, family name, team and time and an empty
    given name. *)
Theorem static_history_all_or_nothing
    (circuits_json : option (str -> option HistoricalJson))
    (circuit_id : str) :
  let result := get_historical_from_static circuits_json circuit_id in
  let mapped_id := get (dict_get CIRCUIT_ID_MAP circuit_id) circuit_id in
  result = new_track_data
  \/ exists circuits_data historical,
       circuits_json = Some circuits_data
       /\ circuits_data mapped_id = Some historical
       /\ historical_is_empty historical = false
       /\ is_new_track result = false
       /\ hd_season result = h_season historical
       /\ Forall2
            (fun q entry =>
               q_position entry = get (j_pos q) 0
               /\ j_pos q <> None
               /\ q_driver entry
                  = {| code := get (j_code q) []; given_name := [];
                       family_name := get (j_name q) [] |}
               /\ q_constructor entry
                  = {| constructor_name := get (j_team q) [] |}
               /\ q3_time entry = j_time q)
            (get (h_qualifying historical) []) (qualifying_results result)
       /\ Forall2
            (fun r entry =>
               r_position entry = get (j_pos r) 0
               /\ j_pos r <> None
               /\ r_driver entry
                  = {| code := get (j_code r) []; given_name := [];
                       family_name := get (j_name r) [] |}
               /\ r_constructor entry
                  = {| constructor_name := get (j_team r) [] |}
               /\ time entry = j_time r)
            (get (h_race historical) []) (race_results result).
Proof.
  cbv zeta. unfold get_historical_from_static.
  destruct circuits_json as [circuits_data|]; [|left; reflexivity].
  destruct (circuits_data _) as [historical|] eqn:Hfound;
    [|left; reflexivity].
  destruct (historical_is_empty historical) eqn:Hempty; [left; reflexivity|].
  destruct (build_all qualifying_entry _) as [qualifying|] eqn:Hq;
    [|left; reflexivity].
  destruct (build_all race_entry _) as [races|] eqn:Hr; [|left; reflexivity].
  right. exists circuits_data, historical.
  split; [reflexivity|]. split; [exact Hfound|]. split; [exact Hempty|].
  split; [reflexivity|]. split; [reflexivity|].
  apply build_all_some in Hq, Hr. split.
  - eapply Forall2_impl; [|exact Hq].
    intros q entry Hentry. unfold qualifying_entry in Hentry.
    destruct (j_pos q), (j_code q), (j_name q), (j_team q);
      try discriminate Hentry.
    injection Hentry as <-.
    cbn. repeat split; congruence.
  - eapply Forall2_impl; [|exact Hr].
    intros r entry Hentry. unfold race_entry in Hentry.
    destruct (j_pos r), (j_code r), (j_name r), (j_team r);
      try discriminate Hentry.
    injection Hentry as <-.
    cbn. repeat split; congruence.
Qed.

(** X26. One result of the file without "pos", "code", "name" or "team" discards
    the circuit's whole history, the complete entries and the season
    included: the loader answers as for a new track, and the results
    section then draws what it draws without historical data. *)
Theorem static_history_incomplete_entry_discards_all (E : Env)
    (translator : Translator) (race_data : RaceData)
    (circuits_data : str -> option HistoricalJson) (circuit_id : str)
    (historical : HistoricalJson) (entry : ResultJson) :
  circuits_data (get (dict_get CIRCUIT_ID_MAP circuit_id) circuit_id)
  = Some historical ->
  In entry (get (h_qualifying historical) []
            ++ get (h_race historical) []) ->
  j_pos entry = None \/ j_code entry = None \/ j_name entry = None
  \/ j_team entry = None ->
  let result := get_historical_from_static (Some circuits_data) circuit_id in
  result = new_track_data
  /\ _draw_results_section E translator race_data (Some result)
     = _draw_results_section E translator race_data None.
Proof.
  intros Hfound Hin Hmissing. cbv zeta.
  assert (Hq : qualifying_entry entry = None).
  { unfold qualifying_entry.
    destruct Hmissing as [H|[H|[H|H]]]; rewrite H;
      destruct (j_pos entry), (j_code entry), (j_name entry); reflexivity. }
  assert (Hr : race_entry entry = None).
  { unfold race_entry.
    destruct Hmissing as [H|[H|[H|H]]]; rewrite H;
      destruct (j_pos entry), (j_code entry), (j_name entry); reflexivity. }
  assert (Hresult :
    get_historical_from_static (Some circuits_data) circuit_id
    = new_track_data).
  { unfold get_historical_from_static. rewrite Hfound.
    destruct (historical_is_empty historical); [reflexivity|].
    apply in_app_iff in Hin as [Hin|Hin].
    - rewrite (build_all_none qualifying_entry _ entry Hin Hq). reflexivity.
    - destruct (build_all qualifying_entry _); [|reflexivity].
      rewrite (build_all_none race_entry _ entry Hin Hr). reflexivity. }
  rewrite Hresult. split; reflexivity.
Qed.

Lemma static_history_incomplete_entry_discards_all_witness :
  get_historical_from_static (Some Fixture.circuits_json) (lit "albert_park")
  = new_track_data
  /\ _draw_results_section Sample.env Sample.english Sample.weekend
       (Some (get_historical_from_static (Some Fixture.circuits_json)
                (lit "albert_park")))
     = _draw_results_section Sample.env Sample.english Sample.weekend None.
Proof.
  apply (static_history_incomplete_entry_discards_all Sample.env
           Sample.english Sample.weekend Fixture.circuits_json
           (lit "albert_park") _ Fixture.teamless eq_refl).
  - cbn. right. right. left. reflexivity.
  - right. right. right. reflexivity.
Defined.
